(* ===== verification/_CoqProject ===== *)
-Q . S2P
Prelude.v
Logging.v
Frame.v
Series.v
Carrier.v
Indicators.v
Split.v
FixGaps.v
Validate.v
Download.v
Dates.v
Features.v
Settings.v
Store.v
Bot.v
