(* ===== verification/Prelude.v ===== *)
(** * A verification development of the BTC-predict pipeline and bot

    The repository (src/) maintains an hourly BTC/USDT candle series,
    derives a feature table from it, and serves prices, charts and
    indicators through a Telegram bot.  Its core is four batch stages
    under [src/data_pipeline/], each a [main] that reads the settings of
    [src/common/config.py], reads a parquet file, transforms the whole
    table in memory and writes files back:

    - [download_ohlcv.py]  [download_incremental]: pages candles from the
      exchange since the last stored timestamp, merges and deduplicates;
    - [fix_gaps.py]        [fix_hourly_gaps]: reindexes the table onto the
      hourly grid [min, max], forward-filling flat candles;
    - [make_features.py]   [main] with [rsi], [ema], [macd], [atr],
      [hurst_simple], [make_time_features]: features, labels, [dropna],
      the feature list and the 70/15/15 time split;
    - [validate_ohlcv.py]  [validate]: counters of duplicates, OHLC
      inconsistencies, sign violations and hourly gaps.

    The stages communicate only through files.  The bot ([src/bot]) reads
    the table at [data_raw_path] and answers menu presses with the last
    candle, a chart, and the RSI/MACD reading of
    [bot/services/indicators.py].

    ** Library layout (one file per component, in dependency order)

    - [Prelude]    this header; the [result] type of Python exceptions and
                   its [let?] notation ([pipeline_scope]); the carrier
                   class [FloatOrd] with pandas' NaN semantics (a cell is
                   [option F], [None] is NaN); counting lemmas; hint
                   databases [pipeline] and [pipeline_rw].
    - [Logging]    [common/logging.py]: loguru's handler list with
                   [remove()], [add()] and the dispatch of a message;
                   [setup_logger].
    - [Frame]      the candle table: [candle] record, [sort_values],
                   [duplicated]/[drop_duplicates] (keep first),
                   [date_range]; sortedness and permutation lemmas.
    - [Series]     pandas Series combinators over NaN cells ([shift],
                   [diff], [rolling] with [min_periods = window], [mean],
                   [std] with ddof 1, [ewm(adjust=False)] with pandas'
                   NaN and equality guards) and the arithmetic class
                   [FloatOps] with its laws [FloatLaws]; causality lemmas.
    - [Carrier]    two executable carriers: rationals rounded to 2^-40
                   and a fixed-point [fx] with 2^-24 resolution (ln by
                   atanh series, sqrt by Newton), used to run the examples.
    - [Indicators] [rsi], [ema], [macd], [atr], [hurst_simple], the time
                   fields, and the bot's [calc_indicators] with its
                   readings ([rsi_text], [macd_text] constructors).
    - [Split]      the split indices [int(n*0.70)], [int(n*0.85)] computed
                   in binary64 with Stdlib [SpecFloat]; [make_splits].
    - [FixGaps]    [fix_hourly_gaps] column by column as the code writes
                   it, and a row-by-row reference definition.
    - [Validate]   [validate] and its report record.
    - [Download]   [download_incremental]: the exchange as a record of
                   operations, the paging loop as a step function on a
                   [LoopState] run with fuel [max_batches], and a trace of
                   fetch/sleep events; its table as input of the
                   regularizer.
    - [Dates]      [_utc_ms] of a midnight UTC date, through a model of
                   the CPython [datetime] code it calls: the proleptic
                   Gregorian ordinal and the constructor's field checks.
    - [Features]   [make_features.main]: the column assembly as a frame of
                   named columns, [dropna], the feature list, and the
                   files written before an exception.
    - [Settings]   [config.py]: the environment as a [gmap string string],
                   [str.strip], [get_settings], [require_telegram_token],
                   and [str.replace] for the path [fix_gaps] derives.
    - [Store]      the file system as a [gmap] from paths to typed file
                   contents, and the [main] of each stage as a transformer
                   of it ([download_main], [fix_gaps_main],
                   [validate_main], [features_main]).
    - [Bot]        [keyboards], [market_data], [charts] and [handlers]:
                   each handler as the Telegram calls it makes, the router
                   [dispatch], and polling [run] over a finite sequence of
                   updates, where a handler exception is logged and the
                   next update served.

    ** What the theorems show (claim ids of the manifest)

    - Regularizer (C1-C4, C11-C13): refinement against the row-by-row
      reference, the contiguous hourly grid, flat fill, the missing count,
      the ValueError paths, idempotence on an input with unique
      timestamps and no NaN close, off-grid rows dropped.
    - Downloader (C5-C10): idempotent resume, strictly sorted output,
      prior rows win, termination within [max_batches] passes, one
      rate-limit sleep before every request but the first, partial
      progress kept on a fetch error.
    - Stages composed (C14 in [Validate], C15 in [Download], C27 in
      [Features]): the validator reports no duplicate and no gap on the
      regularizer's output, the regularizer never meets a duplicate
      label on the downloader's table, and each label is the log return
      to the candle one hour later.
    - Indicators (C16-C18) and features (C22-C24, C26): the Hurst guards,
      MACD of a constant series, the bot's IndexError on an empty series,
      causality of every feature column, the label, the warm-up rows
      dropped, and main's errors after partial writes.
    - Split (C19, C20, C28): ordered partitions for 4 to 2^50 rows, the
      out-of-order boundaries for 1 to 3 rows, and int(n*c) within one
      of the exact floor.  The example [split_index_90] (62 rows where
      70 percent of 90 is 63) documents the rounding.
    - Logging (C21): after [setup_logger] each message at INFO or above
      is written once, to standard output only.
    - Dates (C25): [_utc_ms] maps 1970-01-01 to 0, raises ValueError
      exactly on invalid dates, and adds 86 400 000 ms from each valid
      date to the next calendar day; these fix it on every valid date.
    - Settings (C29-C31): each field is its environment value with the
      surrounding whitespace cut off, the token check, and when
      [fix_gaps] overwrites its input.
    - Store (C32, C33): the features and the validator read the
      download, not the regularized file; each stage writes only its own
      outputs.
    - Bot (C34-C36): the price reply is the latest candle; every menu
      press is answered while the data file is non-empty (a liveness
      property over runs); with no data file four buttons get no reply.

    ** Bounds and fuel

    The downloader's loop runs with fuel [max_batches] (10000 in [main]);
    [fetch_loop_fuel] shows the loop stops by its own guard within that
    many passes, so the fuel never cuts a run.  [replace_fuel] runs with
    fuel [String.length s]; each step consumes a character, so the scan is
    complete.  The split theorems hold for up to 2^50 rows, where the
    binary64 product is exact enough to be within one of the floor;
    hourly tables are far below it.  The examples run on 281 hourly rows,
    the least that keeps a feature row after the 256-row Hurst window and
    the 24-hour label.

    ** Not modelled

    the text of each [logger] call and the formatting of a sink;
    python-dotenv's parsing of the .env file ([load_dotenv] is modelled
    by the map it yields, merged with [override=True]); the ISO parsing
    of the downloader's [since] hint (the loop takes milliseconds);
    directory creation; rendering by mplfinance, and its failure on an
    empty table ([make_candles_chart] always returns a chart; no theorem
    depends on it)
    and the text formatting of the bot's replies (the model keeps the
    values they format); aiogram's network layer and asynchrony (a run is
    the sequence of updates received); [str.strip] of non-ASCII
    whitespace; reading the feature parquet as a candle table, which the
    file model rejects.

    ** Modelling conventions

    Timestamps are integers of milliseconds since the epoch; one hour is
    [hour_ms].  Float cells are [option F] over an abstract carrier with
    decidable comparisons; every comparison with NaN is false as in IEEE
    arithmetic.  Python exceptions are [Err] values of [result]. *)

From Stdlib Require Export ZArith Lia List Bool Sorted Permutation QArith.
From stdpp Require Export base decidable tactics list.
Export ListNotations.

Open Scope Z_scope.

(** ** Python exceptions as values *)

Inductive py_error :=
| ValueError
| RuntimeError
| IndexError
| OverflowError.

#[export] Instance py_error_eq_dec : EqDecision py_error.
Proof. solve_decision. Defined.

Inductive result (A : Type) :=
| Ok (a : A)
| Err (e : py_error).
Arguments Ok {A} a.
Arguments Err {A} e.

Definition result_bind {A B} (m : result A) (k : A -> result B) : result B :=
  match m with
  | Ok a => k a
  | Err e => Err e
  end.

Declare Scope pipeline_scope.
Delimit Scope pipeline_scope with pipeline.
Notation "'let?' x ':=' m 'in' k" := (result_bind m (fun x => k))
  (at level 65, x name, m at next level, right associativity) : pipeline_scope.
Open Scope pipeline_scope.

(** ** Float cells: an abstract carrier with pandas' NaN *)

(** The comparisons the code performs on finite float values.  A cell of a
    frame is [option F]; [None] is NaN. *)
Class FloatOrd (F : Type) := {
  fzero : F;
  fltb : F -> F -> bool;
  fleb : F -> F -> bool
}.

(** Finite doubles are rationals; [Q] is the carrier of the concrete
    examples. *)
#[export] Instance Q_eq_decision : EqDecision Q.
Proof. solve_decision. Defined.

#[export] Instance FloatOrd_Q : FloatOrd Q := {
  fzero := 0%Q;
  fltb := fun x y => negb (Qle_bool y x);
  fleb := Qle_bool
}.

Section NaN.
Context {F : Type} `{FloatOrd F}.

Definition isna (x : option F) : bool :=
  match x with None => true | Some _ => false end.

(** [a < b] on float columns: false as soon as one side is NaN. *)
Definition nan_lt (a b : option F) : bool :=
  match a, b with Some x, Some y => fltb x y | _, _ => false end.

Definition nan_le (a b : option F) : bool :=
  match a, b with Some x, Some y => fleb x y | _, _ => false end.

(** Row-wise [max(axis=1)] / [min(axis=1)] over two columns: NaN is
    skipped, and the result is NaN only when both cells are NaN. *)
Definition nan_max2 (a b : option F) : option F :=
  match a, b with
  | Some x, Some y => if fltb x y then Some y else Some x
  | Some x, None => Some x
  | None, y => y
  end.

Definition nan_min2 (a b : option F) : option F :=
  match a, b with
  | Some x, Some y => if fltb y x then Some y else Some x
  | Some x, None => Some x
  | None, y => y
  end.

(** [Series.fillna(other)] cell by cell. *)
Definition fillna1 (a b : option F) : option F :=
  match a with Some _ => a | None => b end.
End NaN.

(** ** Counting, the [.sum()] of a boolean column *)

Definition count_if {A} (p : A -> bool) (l : list A) : nat :=
  length (List.filter p l).

(** ** Maximum and minimum of a timestamp column *)

Definition zmax_list (d : Z) (l : list Z) : Z := fold_left Z.max l d.
Definition zmin_list (d : Z) (l : list Z) : Z := fold_left Z.min l d.

Lemma count_if_le_length {A} (p : A -> bool) (l : list A) :
  (count_if p l <= length l)%nat.
Proof. unfold count_if. induction l as [|x l IH]; simpl; [lia|]. destruct (p x); simpl; lia. Qed.

Lemma count_if_app {A} (p : A -> bool) (l1 l2 : list A) :
  count_if p (l1 ++ l2) = (count_if p l1 + count_if p l2)%nat.
Proof. unfold count_if. by rewrite List.filter_app, length_app. Qed.

Lemma count_if_perm {A} (p : A -> bool) (l1 l2 : list A) :
  Permutation l1 l2 -> count_if p l1 = count_if p l2.
Proof.
  unfold count_if. induction 1; simpl; try lia.
  - destruct (p x); simpl; lia.
  - destruct (p x), (p y); simpl; lia.
Qed.

Lemma count_if_ext {A} (p q : A -> bool) (l : list A) :
  (forall x, In x l -> p x = q x) -> count_if p l = count_if q l.
Proof.
  unfold count_if. intros Hpq. f_equal. apply filter_ext_in. exact Hpq.
Qed.

Lemma count_if_false {A} (p : A -> bool) (l : list A) :
  (forall x, In x l -> p x = false) -> count_if p l = 0%nat.
Proof.
  unfold count_if. induction l as [|x l IH]; intros Hf; simpl; [done|].
  rewrite (Hf x (or_introl eq_refl)). apply IH. intros y Hy. apply Hf. by right.
Qed.

Lemma count_if_map {A B} (p : B -> bool) (f : A -> B) (l : list A) :
  count_if p (map f l) = count_if (fun x => p (f x)) l.
Proof. unfold count_if. induction l as [|x l IH]; simpl; [done|]. destruct (p (f x)); simpl; lia. Qed.

Lemma zmax_list_ge (d : Z) (l : list Z) :
  d <= zmax_list d l /\ Forall (fun x => x <= zmax_list d l) l.
Proof.
  unfold zmax_list. revert d. induction l as [|x l IH]; intros d; simpl; [split; [lia|constructor]|].
  destruct (IH (Z.max d x)) as [H1 H2]. split; [lia|]. constructor; [lia|exact H2].
Qed.

Lemma zmin_list_le (d : Z) (l : list Z) :
  zmin_list d l <= d /\ Forall (fun x => zmin_list d l <= x) l.
Proof.
  unfold zmin_list. revert d. induction l as [|x l IH]; intros d; simpl; [split; [lia|constructor]|].
  destruct (IH (Z.min d x)) as [H1 H2]. split; [lia|]. constructor; [lia|exact H2].
Qed.

Lemma zmax_list_in (d : Z) (l : list Z) : zmax_list d l = d \/ In (zmax_list d l) l.
Proof.
  unfold zmax_list. revert d. induction l as [|x l IH]; intros d; simpl; [by left|].
  destruct (IH (Z.max d x)) as [He|Hi]; [|by right; right].
  rewrite He. destruct (Z.max_spec d x) as [[_ ->]|[_ ->]]; [right; simpl; auto|auto].
Qed.

Lemma zmin_list_in (d : Z) (l : list Z) : zmin_list d l = d \/ In (zmin_list d l) l.
Proof.
  unfold zmin_list. revert d. induction l as [|x l IH]; intros d; simpl; [by left|].
  destruct (IH (Z.min d x)) as [He|Hi]; [|by right; right].
  rewrite He. destruct (Z.min_spec d x) as [[_ ->]|[_ ->]]; [auto|right; simpl; auto].
Qed.

(** The fold computes the minimum (maximum) of the list whenever its
    default is an element of the list. *)
Lemma zmin_list_char (d m : Z) (l : list Z) :
  In d l -> In m l -> Forall (fun x => m <= x) l -> zmin_list d l = m.
Proof.
  intros Hd Hm Hall. destruct (zmin_list_le d l) as [Hle Hall'].
  pose proof (proj1 (List.Forall_forall _ _) Hall' m Hm).
  destruct (zmin_list_in d l) as [He|Hin].
  - pose proof (proj1 (List.Forall_forall _ _) Hall d Hd). cbv beta in *. lia.
  - pose proof (proj1 (List.Forall_forall _ _) Hall _ Hin). cbv beta in *. lia.
Qed.

Lemma zmax_list_char (d m : Z) (l : list Z) :
  In d l -> In m l -> Forall (fun x => x <= m) l -> zmax_list d l = m.
Proof.
  intros Hd Hm Hall. destruct (zmax_list_ge d l) as [Hle Hall'].
  pose proof (proj1 (List.Forall_forall _ _) Hall' m Hm).
  destruct (zmax_list_in d l) as [He|Hin].
  - pose proof (proj1 (List.Forall_forall _ _) Hall d Hd). cbv beta in *. lia.
  - pose proof (proj1 (List.Forall_forall _ _) Hall _ Hin). cbv beta in *. lia.
Qed.

Lemma zmin_list_perm (d d' : Z) (l l' : list Z) :
  In d l -> In d' l' -> Permutation l l' -> zmin_list d l = zmin_list d' l'.
Proof.
  intros Hd Hd' Hp. symmetry. apply zmin_list_char; [done| |].
  - destruct (zmin_list_in d l) as [->|Hin]; [by rewrite <- Hp|by rewrite <- Hp].
  - eapply Permutation_Forall; [exact Hp|]. apply zmin_list_le.
Qed.

Lemma zmax_list_perm (d d' : Z) (l l' : list Z) :
  In d l -> In d' l' -> Permutation l l' -> zmax_list d l = zmax_list d' l'.
Proof.
  intros Hd Hd' Hp. symmetry. apply zmax_list_char; [done| |].
  - destruct (zmax_list_in d l) as [->|Hin]; [by rewrite <- Hp|by rewrite <- Hp].
  - eapply Permutation_Forall; [exact Hp|]. apply zmax_list_ge.
Qed.

(** ** Tactics and hints shared by the components *)

Ltac invc H := inversion H; subst; clear H.

Ltac destruct_ifs :=
  repeat match goal with
  | |- context [if ?b then _ else _] => let E := fresh "E" in destruct b eqn:E
  end.

Create HintDb pipeline.
Create Rewrite HintDb pipeline_rw.
#[export] Hint Resolve count_if_le_length : pipeline.
#[export] Hint Rewrite @count_if_app @count_if_map : pipeline_rw.
