(* ===== verification/Logging.v ===== *)
(** * Logging: [src/common/logging.py]

    loguru keeps one process-wide [logger] with a list of handlers, each
    with an id, a sink and a minimum level; importing loguru installs the
    handler 0 on [sys.stderr] at level DEBUG.  [logger.remove()] removes
    every handler, [logger.add(...)] appends one with the next id, and a
    call [logger.info(msg)] writes [msg] to each handler whose level is at
    most INFO.  [setup_logger] is called once at the start of each stage's
    [main] and of the bot.  The message formatting and colouring of a sink
    are not modelled; a write is the pair of the sink and the message. *)

From Stdlib Require Import String.
From S2P Require Import Prelude.

(** loguru's standard levels. *)
Inductive level := TRACE | DEBUG | INFO | SUCCESS | WARNING | ERROR | CRITICAL.

(** Their severity numbers. *)
Definition severity (l : level) : nat :=
  match l with
  | TRACE => 5 | DEBUG => 10 | INFO => 20 | SUCCESS => 25
  | WARNING => 30 | ERROR => 40 | CRITICAL => 50
  end.

(** [sys.stderr], or [lambda msg: print(msg, end="")]. *)
Inductive sink := Stderr | PrintSink.

Record handler := mk_handler {
  h_id : nat;
  h_sink : sink;
  h_level : level;
  h_colorize : bool;
  h_backtrace : bool;
  h_diagnose : bool
}.

Record logger := mk_logger {
  handlers : list handler;
  next_id : nat
}.

(** The logger right after [from loguru import logger]. *)
Definition loguru_default : logger :=
  mk_logger [mk_handler 0 Stderr DEBUG false true true] 1.

(** [logger.remove()]. *)
Definition remove_all (lg : logger) : logger := mk_logger [] (next_id lg).

(** [logger.add(sink, level, colorize, backtrace, diagnose)]: the new
    handler and its id. *)
Definition add (lg : logger) (s : sink) (l : level) (colorize backtrace diagnose : bool) : logger * nat :=
  (mk_logger (handlers lg ++ [mk_handler (next_id lg) s l colorize backtrace diagnose]) (S (next_id lg)),
   next_id lg).

Definition setup_logger (lg : logger) : logger :=
  let lg := remove_all lg in
  fst (add lg PrintSink INFO true false false).

(** [logger.log(l, msg)]: the writes, in handler order. *)
Definition emit (lg : logger) (l : level) (msg : string) : list (sink * string) :=
  map (fun h => (h_sink h, msg))
      (List.filter (fun h => Nat.leb (severity (h_level h)) (severity l)) (handlers lg)).

(** C21: whatever handlers the logger had, after [setup_logger] a message
    is printed exactly once on standard output when its level is INFO or
    above, and not at all below INFO: the default stderr handler and any
    handler of an earlier call are gone. *)
Theorem setup_logger_emit lg l msg :
  emit (setup_logger lg) l msg =
    if Nat.leb (severity INFO) (severity l) then [(PrintSink, msg)] else [].
Proof.
  unfold emit, setup_logger, add, remove_all. cbn [handlers fst app List.filter h_level h_sink].
  by destruct (Nat.leb (severity INFO) (severity l)).
Qed.

(** Before [setup_logger], an INFO message goes to stderr; after it, to
    standard output only. *)
Example setup_logger_default :
  emit loguru_default INFO "x" = [(Stderr, "x"%string)] /\
  emit (setup_logger loguru_default) INFO "x" = [(PrintSink, "x"%string)].
Proof. split; reflexivity. Qed.
