(* ===== verification/Frame.v ===== *)
(** * The candle table shared by all stages

    A pandas frame with the columns [timestamp_utc, open, high, low, close,
    volume] is modelled row by row as a list of [candle] records; the
    timestamp is an integer of milliseconds (as [ts_ms] in
    [download_ohlcv.py]), the five float columns have a cell type [C]
    ([option F] with NaN in the stages).  This file holds the frame
    operations the stages share: [sort_values("timestamp_utc")],
    [duplicated]/[drop_duplicates(subset=["timestamp_utc"])] (keep first),
    [pd.date_range(start, end, freq="1h")], and their lemmas. *)

From S2P Require Import Prelude.

Definition hour_ms : Z := 3600000.

Record candle (C : Type) := mk_candle {
  timestamp_utc : Z;
  open : C;
  high : C;
  low : C;
  close : C;
  volume : C
}.
Arguments mk_candle {C} _ _ _ _ _ _.
Arguments timestamp_utc {C} _.
Arguments open {C} _.
Arguments high {C} _.
Arguments low {C} _.
Arguments close {C} _.
Arguments volume {C} _.

#[export] Instance candle_eq_dec {C} `{EqDecision C} : EqDecision (candle C).
Proof. solve_decision. Defined.

Abbreviation ts_col df := (map timestamp_utc df).

Section Frame.
Context {C : Type}.
Implicit Types (r : candle C) (df : list (candle C)).

(** ** [sort_values("timestamp_utc")]

    An insertion sort on the timestamp key, stable.  pandas' default
    quicksort is not stable, but every caller either has unique
    timestamps (where all sorts agree, [sorted_perm_unique]) or only
    counts rows (invariant under permutation). *)
Fixpoint insert_ts r df : list (candle C) :=
  match df with
  | [] => [r]
  | x :: xs => if timestamp_utc r <=? timestamp_utc x then r :: df else x :: insert_ts r xs
  end.

Definition sort_values df : list (candle C) := fold_right insert_ts [] df.

Definition ts_le r1 r2 : Prop := timestamp_utc r1 <= timestamp_utc r2.
Definition ts_lt r1 r2 : Prop := timestamp_utc r1 < timestamp_utc r2.

(** A frame whose timestamps strictly increase: sorted and unique. *)
Definition strictly_sorted df : Prop := StronglySorted ts_lt df.

Fixpoint strictly_sortedb df : bool :=
  match df with
  | [] => true
  | x :: xs => forallb (fun y => timestamp_utc x <? timestamp_utc y) xs && strictly_sortedb xs
  end.

(** ** [duplicated(subset=["timestamp_utc"])] and [drop_duplicates]

    Both keep the first occurrence of a timestamp. *)
Fixpoint duplicated_from (seen : list Z) df : list bool :=
  match df with
  | [] => []
  | r :: rs =>
      if existsb (Z.eqb (timestamp_utc r)) seen then true :: duplicated_from seen rs
      else false :: duplicated_from (timestamp_utc r :: seen) rs
  end.

Definition duplicated df : list bool := duplicated_from [] df.

Fixpoint drop_duplicates_from (seen : list Z) df : list (candle C) :=
  match df with
  | [] => []
  | r :: rs =>
      if existsb (Z.eqb (timestamp_utc r)) seen then drop_duplicates_from seen rs
      else r :: drop_duplicates_from (timestamp_utc r :: seen) rs
  end.

Definition drop_duplicates df : list (candle C) := drop_duplicates_from [] df.

(** The row of [df] at timestamp [t], as [set_index("timestamp_utc")]
    followed by a label lookup sees it. *)
Definition lookup_ts df (t : Z) : option (candle C) :=
  find (fun r => timestamp_utc r =? t) df.
End Frame.

(** ** [df["timestamp_utc"].min()] and [.max()]

    On an empty column pandas returns [NaT]; every caller checks for the
    empty frame first, and the value [0] is never used. *)
Definition ts_min {C} (df : list (candle C)) : Z :=
  match ts_col df with [] => 0 | t0 :: _ => zmin_list t0 (ts_col df) end.

Definition ts_max {C} (df : list (candle C)) : Z :=
  match ts_col df with [] => 0 | t0 :: _ => zmax_list t0 (ts_col df) end.

(** ** [pd.date_range(start, end, freq)] for a fixed frequency

    The ticks [start + k*step] that do not exceed [end]; empty when
    [end < start]. *)
Definition date_range (start end_ step : Z) : list Z :=
  if end_ <? start then []
  else map (fun k => start + Z.of_nat k * step) (seq 0 (S (Z.to_nat ((end_ - start) / step)))).

(** ** Lemmas on sorting *)

Section SortLemmas.
Context {C : Type}.
Implicit Types (r : candle C) (df : list (candle C)).

Lemma insert_ts_perm r df : Permutation (r :: df) (insert_ts r df).
Proof.
  induction df as [|x xs IH]; simpl; [done|].
  destruct (_ <=? _); [done|].
  etransitivity; [apply perm_swap|]. by constructor.
Qed.

Lemma sort_values_perm df : Permutation df (sort_values df).
Proof.
  induction df as [|x xs IH]; simpl; [done|].
  etransitivity; [|apply insert_ts_perm]. by constructor.
Qed.

Lemma insert_ts_sorted r df : Sorted ts_le df -> Sorted ts_le (insert_ts r df).
Proof.
  unfold ts_le. induction 1 as [|x xs Hs IH Hhd]; simpl; [repeat constructor|].
  destruct (Z.leb_spec (timestamp_utc r) (timestamp_utc x)).
  - constructor; [by constructor|]. constructor. unfold ts_le. done.
  - constructor; [exact IH|].
    destruct xs as [|y ys]; simpl; [constructor; lia|].
    inversion Hhd; subst.
    destruct (_ <=? _); constructor; lia.
Qed.

Lemma sort_values_sorted df : Sorted ts_le (sort_values df).
Proof. induction df; simpl; [constructor|]. by apply insert_ts_sorted. Qed.

Lemma strictly_sortedb_spec df : strictly_sortedb df = true <-> strictly_sorted df.
Proof.
  unfold strictly_sorted. induction df as [|x xs IH]; simpl.
  - split; [constructor|done].
  - rewrite andb_true_iff, forallb_forall, IH. split.
    + intros [Hall Hs]. constructor; [done|].
      apply List.Forall_forall. intros y Hy. apply Z.ltb_lt. by apply Hall.
    + intros Hs. inversion Hs; subst. split; [|done].
      intros y Hy. apply Z.ltb_lt. by eapply List.Forall_forall in Hy; [|eassumption].
Qed.

(** Strict sortedness is the same as sortedness with unique keys. *)
Lemma strictly_sorted_NoDup df : strictly_sorted df -> NoDup (ts_col df).
Proof.
  induction 1 as [|x xs _ IH Hall]; simpl; constructor; [|exact IH].
  intros Hin. apply list_elem_of_In, in_map_iff in Hin as (y & Hy & Hyin).
  eapply List.Forall_forall in Hall; [|exact Hyin]. unfold ts_lt in Hall. lia.
Qed.

Lemma sorted_NoDup_strictly_sorted df :
  Sorted ts_le df -> NoDup (ts_col df) -> strictly_sorted df.
Proof.
  intros Hs Hnd. apply Sorted_StronglySorted in Hs;
    [|intros a b c; unfold ts_le; lia].
  induction Hs as [|x xs Hs IH Hall]; constructor.
  - apply IH. by inversion Hnd.
  - inversion Hnd as [|? ? Hnin _]; subst.
    apply List.Forall_forall. intros y Hy. eapply List.Forall_forall in Hall; [|exact Hy].
    unfold ts_le, ts_lt in *. destruct (Z.eq_dec (timestamp_utc x) (timestamp_utc y)) as [He|]; [|lia].
    exfalso. apply Hnin. rewrite He, list_elem_of_In. by apply in_map.
Qed.

(** Two strictly sorted frames with the same rows are equal: any sort
    algorithm gives the result of [sort_values] on unique keys. *)
Lemma sorted_perm_unique df1 df2 :
  strictly_sorted df1 -> strictly_sorted df2 -> Permutation df1 df2 -> df1 = df2.
Proof.
  unfold strictly_sorted. intros H1. revert df2.
  induction H1 as [|x xs Hxs IH Hx]; intros df2 H2 Hp.
  - symmetry. by apply Permutation_nil.
  - destruct H2 as [|y ys Hys Hy]; [by apply Permutation_sym, Permutation_nil_cons in Hp|].
    assert (x = y) as <-.
    { assert (In x (y :: ys)) as [|Hxy] by (rewrite <- Hp; left; done); [done|].
      assert (In y (x :: xs)) as [|Hyx] by (rewrite Hp; left; done); [done|].
      eapply List.Forall_forall in Hx; [|exact Hyx].
      eapply List.Forall_forall in Hy; [|exact Hxy].
      unfold ts_lt in *. lia. }
    f_equal. apply IH; [done|]. by apply Permutation_cons_inv in Hp.
Qed.

Lemma sort_values_strict df :
  NoDup (ts_col df) -> strictly_sorted (sort_values df).
Proof.
  intros Hnd. apply sorted_NoDup_strictly_sorted; [apply sort_values_sorted|].
  by rewrite <- (Permutation_map timestamp_utc (sort_values_perm df)).
Qed.

Lemma sort_values_id df : strictly_sorted df -> sort_values df = df.
Proof.
  intros Hs. apply sorted_perm_unique; [|done|].
  - apply sort_values_strict. by apply strictly_sorted_NoDup.
  - symmetry. apply sort_values_perm.
Qed.
End SortLemmas.

#[export] Hint Resolve sort_values_perm sort_values_sorted sort_values_strict
  strictly_sorted_NoDup : pipeline.

(** ** Lemmas on [duplicated] and [drop_duplicates] *)

Section DupLemmas.
Context {C : Type}.
Implicit Types (r : candle C) (df : list (candle C)).

Lemma existsb_Zeqb_In (t : Z) (l : list Z) : existsb (Z.eqb t) l = true <-> In t l.
Proof.
  rewrite existsb_exists. split.
  - intros (x & Hx & He). apply Z.eqb_eq in He. by subst.
  - intros Hin. exists t. split; [done|]. apply Z.eqb_refl.
Qed.

Lemma drop_duplicates_from_spec seen df :
  NoDup (ts_col (drop_duplicates_from seen df)) /\
  (forall r, In r (drop_duplicates_from seen df) -> In r df /\ ~ In (timestamp_utc r) seen) /\
  (forall r, In r df -> In (timestamp_utc r) seen \/ In (timestamp_utc r) (ts_col (drop_duplicates_from seen df))).
Proof.
  revert seen. induction df as [|x xs IH]; intros seen; simpl.
  - split; [constructor|]. split; intros r Hr; destruct Hr.
  - destruct (existsb _ seen) eqn:Hex.
    + apply existsb_Zeqb_In in Hex.
      destruct (IH seen) as (Hnd & Hsub & Hcov). split; [done|]. split.
      * intros r Hr. destruct (Hsub r Hr). split; [by right|done].
      * intros r [<-|Hr]; [by left|by apply Hcov].
    + assert (~ In (timestamp_utc x) seen) as Hnin.
      { intros Hin. apply existsb_Zeqb_In in Hin. congruence. }
      destruct (IH (timestamp_utc x :: seen)) as (Hnd & Hsub & Hcov). split; [|split].
      * simpl. apply NoDup_cons. split; [|done].
        rewrite list_elem_of_In. intros (r & Hr & Hrin)%in_map_iff.
        destruct (Hsub r Hrin) as [_ Hn]. apply Hn. rewrite Hr. by left.
      * intros r [<-|Hr]; [by split; [left|]|].
        destruct (Hsub r Hr) as [Hin Hn]. split; [by right|]. intros Hs. apply Hn. by right.
      * intros r [<-|Hr]; [by right; left|].
        destruct (Hcov r Hr) as [[He|Hs]|Hin]; [by right; left|by left|by right; right].
Qed.

Lemma drop_duplicates_NoDup df : NoDup (ts_col (drop_duplicates df)).
Proof. apply drop_duplicates_from_spec. Qed.

Lemma drop_duplicates_incl df r : In r (drop_duplicates df) -> In r df.
Proof. intros Hr. by apply (drop_duplicates_from_spec [] df). Qed.

Lemma drop_duplicates_covers df r :
  In r df -> In (timestamp_utc r) (ts_col (drop_duplicates df)).
Proof. intros Hr. by destruct (proj2 (proj2 (drop_duplicates_from_spec [] df)) r Hr). Qed.

(** Keep first: the row kept for a timestamp is its first row. *)
Lemma drop_duplicates_from_lookup seen df t :
  ~ In t seen -> lookup_ts (drop_duplicates_from seen df) t = lookup_ts df t.
Proof.
  unfold lookup_ts. revert seen. induction df as [|x xs IH]; intros seen Ht; simpl; [done|].
  destruct (existsb _ seen) eqn:Hex.
  - apply existsb_Zeqb_In in Hex.
    destruct (Z.eqb_spec (timestamp_utc x) t) as [<-|]; [done|]. by apply IH.
  - simpl. destruct (Z.eqb_spec (timestamp_utc x) t); [done|].
    apply IH. intros [|]; [congruence|done].
Qed.

Lemma drop_duplicates_lookup df t : lookup_ts (drop_duplicates df) t = lookup_ts df t.
Proof. apply (drop_duplicates_from_lookup []). intros []. Qed.

Lemma drop_duplicates_from_id seen df :
  NoDup (ts_col df) -> (forall t, In t (ts_col df) -> ~ In t seen) ->
  drop_duplicates_from seen df = df.
Proof.
  revert seen. induction df as [|x xs IH]; intros seen Hnd Hdis; simpl; [done|].
  apply NoDup_cons in Hnd as [Hnin Hnd].
  destruct (existsb _ seen) eqn:Hex.
  - apply existsb_Zeqb_In in Hex. exfalso. by apply (Hdis (timestamp_utc x)); [left|].
  - f_equal. apply IH; [done|]. intros t Ht [<-|Hs].
    + apply Hnin. by apply list_elem_of_In.
    + by apply (Hdis t); [right|].
Qed.

Lemma drop_duplicates_id df : NoDup (ts_col df) -> drop_duplicates df = df.
Proof. intros Hnd. apply (drop_duplicates_from_id []); [done|]. intros t _ []. Qed.

(** [duplicated] flags exactly the rows [drop_duplicates] removes. *)
Lemma duplicated_from_count seen df :
  (count_if id (duplicated_from seen df) + length (drop_duplicates_from seen df))%nat = length df.
Proof.
  unfold count_if. revert seen. induction df as [|x xs IH]; intros seen; simpl; [done|].
  destruct (existsb _ seen); simpl; [rewrite <- (IH seen)|rewrite <- (IH (timestamp_utc x :: seen))]; simpl; lia.
Qed.

Lemma duplicated_count df :
  count_if id (duplicated df) = (length df - length (drop_duplicates df))%nat.
Proof. unfold duplicated, drop_duplicates. pose proof (duplicated_from_count [] df). lia. Qed.

(** The number of distinct timestamps does not depend on the row order. *)
Lemma drop_duplicates_length_perm df1 df2 :
  Permutation df1 df2 -> length (drop_duplicates df1) = length (drop_duplicates df2).
Proof.
  intros Hp. rewrite <- (length_map timestamp_utc (drop_duplicates df1)),
    <- (length_map timestamp_utc (drop_duplicates df2)).
  apply Permutation_length, NoDup_Permutation; try apply drop_duplicates_NoDup.
  assert (forall d1 d2 : list (candle C), Permutation d1 d2 -> forall t,
    t ∈ ts_col (drop_duplicates d1) -> t ∈ ts_col (drop_duplicates d2)) as Hdir.
  { intros d1 d2 Hd t. rewrite !list_elem_of_In. intros (r & <- & Hr)%in_map_iff.
    apply drop_duplicates_covers. rewrite <- Hd. by apply drop_duplicates_incl. }
  intros t. split; apply Hdir; [done|by symmetry].
Qed.

Lemma duplicated_count_perm df1 df2 :
  Permutation df1 df2 -> count_if id (duplicated df1) = count_if id (duplicated df2).
Proof.
  intros Hp. rewrite !duplicated_count, (drop_duplicates_length_perm _ _ Hp).
  by rewrite (Permutation_length Hp).
Qed.
End DupLemmas.

Lemma strictly_sorted_ts {C} (df : list (candle C)) :
  strictly_sorted df <-> StronglySorted Z.lt (ts_col df).
Proof.
  unfold strictly_sorted. induction df as [|r rs IH]; simpl; [split; constructor|].
  split; intros Hs; inversion Hs as [|? ? Hs' Hall]; subst; constructor; try by apply IH.
  - rewrite List.Forall_map. exact Hall.
  - rewrite List.Forall_map in Hall. exact Hall.
Qed.

(** ** Lemmas on [lookup_ts] *)

Section LookupLemmas.
Context {C : Type}.
Implicit Types (r : candle C) (df : list (candle C)).

Lemma lookup_ts_Some df t r : lookup_ts df t = Some r -> In r df /\ timestamp_utc r = t.
Proof. unfold lookup_ts. intros (Hin & He)%find_some. by apply Z.eqb_eq in He. Qed.

Lemma lookup_ts_None df t : lookup_ts df t = None <-> ~ In t (ts_col df).
Proof.
  unfold lookup_ts. split.
  - intros Hn (r & <- & Hr)%in_map_iff. pose proof (find_none _ _ Hn r Hr) as He.
    cbv beta in He. by rewrite Z.eqb_refl in He.
  - intros Hnin. destruct (find _ df) as [r|] eqn:E; [|done].
    apply find_some in E as [Hr He]. apply Z.eqb_eq in He. subst t.
    exfalso. apply Hnin. by apply in_map.
Qed.

Lemma lookup_ts_In df r : NoDup (ts_col df) -> In r df -> lookup_ts df (timestamp_utc r) = Some r.
Proof.
  unfold lookup_ts. induction df as [|x xs IH]; intros Hnd Hr; [done|].
  simpl in *. apply NoDup_cons in Hnd as [Hnin Hnd].
  destruct Hr as [<-|Hr]; [by rewrite Z.eqb_refl|].
  destruct (Z.eqb_spec (timestamp_utc x) (timestamp_utc r)) as [He|]; [|by apply IH].
  exfalso. apply Hnin. rewrite He, list_elem_of_In. by apply in_map.
Qed.

Lemma lookup_ts_perm df df' t :
  NoDup (ts_col df) -> Permutation df df' -> lookup_ts df t = lookup_ts df' t.
Proof.
  intros Hnd Hp.
  assert (NoDup (ts_col df')) as Hnd' by (by rewrite <- (Permutation_map timestamp_utc Hp)).
  destruct (lookup_ts df t) as [r|] eqn:E.
  - apply lookup_ts_Some in E as [Hr <-]. symmetry. apply lookup_ts_In; [done|]. by rewrite <- Hp.
  - symmetry. apply lookup_ts_None. apply lookup_ts_None in E. by rewrite <- (Permutation_map timestamp_utc Hp).
Qed.
End LookupLemmas.

(** ** Lemmas on [ts_min] and [ts_max] *)

Section MinMaxLemmas.
Context {C : Type}.
Implicit Types (r : candle C) (df : list (candle C)).

Lemma ts_min_spec df :
  df <> [] -> In (ts_min df) (ts_col df) /\ Forall (fun t => ts_min df <= t) (ts_col df).
Proof.
  intros Hne. unfold ts_min. destruct (map timestamp_utc df) as [|t0 l] eqn:E.
  { destruct df; [done|discriminate]. }
  split; [|apply zmin_list_le].
  destruct (zmin_list_in t0 (t0 :: l)) as [->|]; [by left|done].
Qed.

Lemma ts_max_spec df :
  df <> [] -> In (ts_max df) (ts_col df) /\ Forall (fun t => t <= ts_max df) (ts_col df).
Proof.
  intros Hne. unfold ts_max. destruct (map timestamp_utc df) as [|t0 l] eqn:E.
  { destruct df; [done|discriminate]. }
  split; [|apply zmax_list_ge].
  destruct (zmax_list_in t0 (t0 :: l)) as [->|]; [by left|done].
Qed.

Lemma ts_min_char df m : In m (ts_col df) -> Forall (fun t => m <= t) (ts_col df) -> ts_min df = m.
Proof.
  unfold ts_min. destruct (map timestamp_utc df) as [|t0 l]; [done|].
  intros. apply zmin_list_char; [by left|done|done].
Qed.

Lemma ts_max_char df m : In m (ts_col df) -> Forall (fun t => t <= m) (ts_col df) -> ts_max df = m.
Proof.
  unfold ts_max. destruct (map timestamp_utc df) as [|t0 l]; [done|].
  intros. apply zmax_list_char; [by left|done|done].
Qed.

Lemma ts_min_le df r : In r df -> ts_min df <= timestamp_utc r.
Proof.
  intros Hr. assert (df <> []) as Hne by (by intros ->).
  pose proof (proj2 (ts_min_spec df Hne)) as Hall. rewrite List.Forall_forall in Hall.
  apply (Hall (timestamp_utc r)). by apply in_map.
Qed.

Lemma ts_max_ge df r : In r df -> timestamp_utc r <= ts_max df.
Proof.
  intros Hr. assert (df <> []) as Hne by (by intros ->).
  pose proof (proj2 (ts_max_spec df Hne)) as Hall. rewrite List.Forall_forall in Hall.
  apply (Hall (timestamp_utc r)). by apply in_map.
Qed.

Lemma ts_min_perm df df' : Permutation df df' -> ts_min df = ts_min df'.
Proof.
  intros Hp. pose proof (Permutation_map timestamp_utc Hp) as Hpm. unfold ts_min.
  destruct (map timestamp_utc df) as [|t0 l] eqn:E1;
    destruct (map timestamp_utc df') as [|t0' l'] eqn:E2; [done| | |].
  - apply Permutation_nil in Hpm. discriminate.
  - symmetry in Hpm. apply Permutation_nil in Hpm. discriminate.
  - apply zmin_list_perm; [by left|by left|done].
Qed.

Lemma ts_max_perm df df' : Permutation df df' -> ts_max df = ts_max df'.
Proof.
  intros Hp. pose proof (Permutation_map timestamp_utc Hp) as Hpm. unfold ts_max.
  destruct (map timestamp_utc df) as [|t0 l] eqn:E1;
    destruct (map timestamp_utc df') as [|t0' l'] eqn:E2; [done| | |].
  - apply Permutation_nil in Hpm. discriminate.
  - symmetry in Hpm. apply Permutation_nil in Hpm. discriminate.
  - apply zmax_list_perm; [by left|by left|done].
Qed.
End MinMaxLemmas.

(** ** Lemmas on [date_range] *)

Section DateRange.
Variables (start end_ step : Z).
Hypothesis Hstep : 0 < step.

Lemma date_range_length :
  start <= end_ -> length (date_range start end_ step) = S (Z.to_nat ((end_ - start) / step)).
Proof.
  intros Hle. unfold date_range. destruct (Z.ltb_spec end_ start); [lia|].
  by rewrite length_map, length_seq.
Qed.

Lemma date_range_nth k :
  start <= end_ -> (k <= Z.to_nat ((end_ - start) / step))%nat ->
  nth_error (date_range start end_ step) k = Some (start + Z.of_nat k * step).
Proof.
  intros Hle Hk. unfold date_range. destruct (Z.ltb_spec end_ start); [lia|].
  rewrite nth_error_map, nth_error_seq. destruct (Nat.ltb_spec k (S (Z.to_nat ((end_ - start) / step)))); [done|lia].
Qed.

Lemma date_range_In t :
  In t (date_range start end_ step) <-> start <= t <= end_ /\ (t - start) mod step = 0.
Proof.
  unfold date_range. destruct (Z.ltb_spec end_ start).
  { split; [done|lia]. }
  rewrite in_map_iff. split.
  - intros (k & <- & Hk). apply in_seq in Hk.
    pose proof (Z.div_pos (end_ - start) step ltac:(lia) Hstep).
    assert (Z.of_nat k <= (end_ - start) / step) by lia.
    pose proof (Z.mul_div_le (end_ - start) step Hstep).
    set (q := (end_ - start) / step) in *.
    split; [nia|]. replace (start + Z.of_nat k * step - start) with (Z.of_nat k * step) by lia.
    apply Z.mod_mul. lia.
  - intros [[Hlo Hhi] Hmod]. exists (Z.to_nat ((t - start) / step)).
    apply Z.div_exact in Hmod; [|lia].
    split; [lia|]. apply in_seq. split; [lia|].
    assert ((t - start) / step <= (end_ - start) / step) by (apply Z.div_le_mono; lia).
    pose proof (Z.div_pos (t - start) step ltac:(lia) Hstep). lia.
Qed.

Lemma date_range_last_tick :
  start <= end_ ->
  date_range start (start + (end_ - start) / step * step) step = date_range start end_ step.
Proof.
  intros Hle. pose proof (Z.div_pos (end_ - start) step ltac:(lia) Hstep).
  unfold date_range. destruct (Z.ltb_spec (start + (end_ - start) / step * step) start); [nia|].
  destruct (Z.ltb_spec end_ start); [lia|].
  by replace (start + (end_ - start) / step * step - start) with ((end_ - start) / step * step) by lia;
    rewrite Z.div_mul by lia.
Qed.

Lemma date_range_bounds :
  start <= end_ ->
  In start (date_range start end_ step) /\
  In (start + (end_ - start) / step * step) (date_range start end_ step) /\
  Forall (fun t => start <= t <= start + (end_ - start) / step * step) (date_range start end_ step).
Proof.
  intros Hle. pose proof (Z.div_pos (end_ - start) step ltac:(lia) Hstep).
  split; [|split].
  - apply nth_error_In with 0%nat. rewrite date_range_nth by lia. f_equal. lia.
  - apply nth_error_In with (Z.to_nat ((end_ - start) / step)).
    rewrite date_range_nth by lia. f_equal. lia.
  - apply List.Forall_forall. intros t Ht. apply date_range_In in Ht as [[Hlo Hhi] Hmod].
    apply Z.div_exact in Hmod; [|lia].
    assert ((t - start) / step <= (end_ - start) / step) by (apply Z.div_le_mono; lia).
    nia.
Qed.

Lemma date_range_cons :
  start <= end_ -> exists rest, date_range start end_ step = start :: rest.
Proof.
  intros Hle. unfold date_range. destruct (Z.ltb_spec end_ start); [lia|].
  simpl. eexists. f_equal. lia.
Qed.

Lemma date_range_strictly_sorted : StronglySorted Z.lt (date_range start end_ step).
Proof.
  unfold date_range. destruct (_ <? _); [constructor|].
  generalize (S (Z.to_nat ((end_ - start) / step))) as n. intros n.
  generalize 0%nat as j. induction n as [|n IH]; intros j; simpl; constructor; [apply IH|].
  apply List.Forall_forall. intros t (k & <- & Hk%in_seq)%in_map_iff. nia.
Qed.

Lemma date_range_NoDup : NoDup (date_range start end_ step).
Proof.
  induction date_range_strictly_sorted as [|x l _ IH Hall]; constructor; [|done].
  rewrite list_elem_of_In. intros Hin. eapply List.Forall_forall in Hall; [|exact Hin]. lia.
Qed.
End DateRange.
