(* ===== verification/Series.v ===== *)
(** * pandas Series combinators used by [make_features.py]

    A float column is a list of cells [option F] ([None] is NaN).  The
    arithmetic of the carrier is the class [FloatOps] (the double operations
    the code calls: [+ - * /], [np.log], [np.sqrt], [np.sin], [np.cos]).
    NaN propagates through every operation.  The combinators:

    - [shift k] and [shift_back k]: [Series.shift(k)] and [Series.shift(-k)];
    - [diff]: [Series.diff()];
    - [rolling w f]: [Series.rolling(w)] with the default [min_periods = w]
      followed by a reduction [f] of the window ([mean], [std] with
      [ddof = 1], or [apply] of a function that may return NaN);
    - [clip_lower0]: [Series.clip(lower=0)];
    - [ewm_mean alpha]: [Series.ewm(span, adjust=False).mean()] with the
      weight bookkeeping of pandas for NaN inputs ([ignore_na=False]).

    pandas computes rolling sums incrementally; the model computes each
    window's sum directly, the mathematical value of the same expression.
    Every combinator but [shift_back] is causal: the value at row [t]
    depends only on rows [0..t] ([causal]). *)

From S2P Require Import Prelude Frame.

(** The double operations of the code.  The carrier [F] stands for the
    finite doubles; an operation whose IEEE result is NaN on finite
    arguments returns [option F] ([0/0], [log] of a negative number,
    [sqrt] of a negative number).  [flit q] is the double nearest to the
    decimal literal [q] of the source ([1e-12], [100], [2.0]). *)
Class FloatOps (F : Type) := {
  fadd : F -> F -> F;
  fsub : F -> F -> F;
  fmul : F -> F -> F;
  fneg : F -> F;
  fabs : F -> F;
  fdiv : F -> F -> option F;
  fln : F -> option F;
  fsqrt : F -> option F;
  fsin : F -> F;
  fcos : F -> F;
  fpi : F;
  flit : Q -> F
}.

(** The IEEE facts the Hurst guard relies on, all exact in binary64 for
    finite arguments. *)
Class FloatLaws (F : Type) `{FloatOrd F} `{FloatOps F} := {
  fsub_diag : forall x, fsub x x = fzero;
  fadd_zero : fadd fzero fzero = fzero;
  fmul_zero : fmul fzero fzero = fzero;
  flit_zero : flit 0 = fzero;
  flit_pos : forall n, (0 < n)%Z -> fltb fzero (flit (inject_Z n)) = true;
  fdiv_zero_l : forall y, fltb fzero y = true -> fdiv fzero y = Some fzero;
  fsqrt_zero : fsqrt fzero = Some fzero;
  fleb_refl : forall x, fleb x x = true
}.

Section Series.
Context {F : Type} `{FloatOrd F} `{FloatOps F}.
Implicit Types (s : list (option F)).

(** Elementwise operations: NaN in, NaN out. *)
Definition lift2 (f : F -> F -> option F) (a b : option F) : option F :=
  match a, b with Some x, Some y => f x y | _, _ => None end.

Definition s_map (f : F -> option F) s : list (option F) := map (fun c => c ≫= f) s.

Definition s_map2 (f : F -> F -> option F) s1 s2 : list (option F) := zip_with (lift2 f) s1 s2.

(** Total operations seen as partial ones. *)
Definition tot1 (f : F -> F) : F -> option F := fun x => Some (f x).
Definition tot2 (f : F -> F -> F) : F -> F -> option F := fun x y => Some (f x y).

(** [Series.shift(k)] for [k >= 0]: row [t] holds row [t - k]. *)
Definition shift (k : nat) s : list (option F) := firstn (length s) (repeat None k ++ s).

(** [Series.shift(-k)]: row [t] holds row [t + k]. *)
Definition shift_back (k : nat) s : list (option F) := firstn (length s) (skipn k s ++ repeat None k).

(** [Series.diff()]. *)
Definition diff s : list (option F) := s_map2 (tot2 fsub) s (shift 1 s).

(** The trailing window of [w] rows ending at row [t]. *)
Definition window (w t : nat) s : list (option F) := firstn w (skipn (S t - w) s).

(** The window's values when none is NaN. *)
Fixpoint all_some (l : list (option F)) : option (list F) :=
  match l with
  | [] => Some []
  | None :: _ => None
  | Some x :: xs => match all_some xs with Some ys => Some (x :: ys) | None => None end
  end.

(** [Series.rolling(w)] with [min_periods = w], reduced by [f]: a window
    with fewer than [w] rows or a NaN gives NaN. *)
Definition rolling (w : nat) (f : list F -> option F) s : list (option F) :=
  map (fun t => if Nat.ltb (S t) w then None
                else match all_some (window w t s) with Some xs => f xs | None => None end)
      (seq 0 (length s)).

(** [.rolling(w).apply(g, raw=False)]: [g] receives the window's cells. *)
Definition rolling_apply (w : nat) (g : list (option F) -> option F) s : list (option F) :=
  rolling w (fun xs => g (map Some xs)) s.

Definition fsum (xs : list F) : F := fold_left fadd xs (flit 0).

Definition flen (xs : list F) : F := flit (inject_Z (Z.of_nat (length xs))).

(** The mean of a window. *)
Definition mean_of (xs : list F) : option F := fdiv (fsum xs) (flen xs).

(** The sum of squared deviations from the mean. *)
Definition sq_dev (xs : list F) : option F :=
  m ← mean_of xs; Some (fsum (map (fun x => fmul (fsub x m) (fsub x m)) xs)).

(** [.std()] of pandas ([ddof = 1]). *)
Definition std_of (xs : list F) : option F :=
  v ← sq_dev xs; q ← fdiv v (flit (inject_Z (Z.of_nat (length xs) - 1))); fsqrt q.

Definition rolling_mean (w : nat) s := rolling w mean_of s.
Definition rolling_std (w : nat) s := rolling w std_of s.

(** [Series.clip(lower=0)]. *)
Definition clip_lower0 s : list (option F) :=
  s_map (tot1 (fun x => if fltb x fzero then fzero else x)) s.

(** [Series.ewm(alpha=a, adjust=False).mean()], pandas' [ewm] kernel with
    [ignore_na=False]: the running average [weighted] and the weight
    [old_wt]; a NaN input decays the old weight, an observation different
    from the average is mixed in and resets the weight to 1. *)
Fixpoint ewm_from (alpha : F) (weighted : option F) (old_wt : F) s : list (option F) :=
  match s with
  | [] => []
  | x :: xs =>
      match weighted, x with
      | Some w, Some c =>
          let ow := fmul old_wt (fsub (flit 1) alpha) in
          let w' := if fleb w c && fleb c w then Some w
                    else fdiv (fadd (fmul ow w) (fmul alpha c)) (fadd ow alpha) in
          w' :: ewm_from alpha w' (flit 1) xs
      | Some w, None => Some w :: ewm_from alpha (Some w) (fmul old_wt (fsub (flit 1) alpha)) xs
      | None, Some c => Some c :: ewm_from alpha (Some c) old_wt xs
      | None, None => None :: ewm_from alpha None old_wt xs
      end
  end.

Definition ewm_mean (alpha : F) s : list (option F) :=
  match s with
  | [] => []
  | x :: xs => x :: ewm_from alpha x (flit 1) xs
  end.

(** [alpha = 2 / (span + 1)], the double nearest to the quotient. *)
Definition span_alpha (span : positive) : F := flit (2 # (span + 1)).

(** ** Causality

    A column operation is causal when it commutes with taking a prefix of
    the rows: its value at row [t] is determined by rows [0..t]. *)
Definition causal (f : list (option F) -> list (option F)) : Prop :=
  forall k s, f (firstn k s) = firstn k (f s).

Definition causal2 (f : list (option F) -> list (option F) -> list (option F)) : Prop :=
  forall k s1 s2, f (firstn k s1) (firstn k s2) = firstn k (f s1 s2).

Definition length_preserving (f : list (option F) -> list (option F)) : Prop :=
  forall s, length (f s) = length s.

(** ** Generic list facts *)

Lemma firstn_zip_with {A B C} (g : A -> B -> C) k l1 l2 :
  firstn k (zip_with g l1 l2) = zip_with g (firstn k l1) (firstn k l2).
Proof.
  revert k l2. induction l1 as [|a l1 IH]; intros [|k] [|b l2]; simpl; try done.
  all: try by rewrite IH.
  all: by destruct (firstn k l1).
Qed.

Lemma firstn_seq k a n : firstn k (seq a n) = seq a (Nat.min k n).
Proof.
  revert a n. induction k as [|k IH]; intros a [|n]; simpl; try done. by rewrite IH.
Qed.

Lemma firstn_app_firstn {A} (l1 l2 : list A) j m :
  (j <= length l1 + m)%nat -> firstn j (l1 ++ firstn m l2) = firstn j (l1 ++ l2).
Proof.
  intros Hj. rewrite !firstn_app, firstn_firstn. do 2 f_equal. lia.
Qed.

Lemma firstn_skipn_firstn {A} (l : list A) a w k :
  (a + w <= k)%nat -> firstn w (skipn a (firstn k l)) = firstn w (skipn a l).
Proof.
  intros Hk. rewrite skipn_firstn_comm, firstn_firstn. f_equal. lia.
Qed.

(** ** Causality of the combinators *)

Lemma causal_compose f g : causal f -> causal g -> causal (fun s => f (g s)).
Proof. intros Hf Hg k s. by rewrite Hg, Hf. Qed.

Lemma causal2_compose f g h :
  causal f -> causal g -> causal2 h -> causal (fun s => h (f s) (g s)).
Proof. intros Hf Hg Hh k s. by rewrite Hf, Hg, Hh. Qed.

Lemma causal_id : causal (fun s => s).
Proof. done. Qed.

Lemma s_map_causal f : causal (s_map f).
Proof. intros k s. unfold s_map. by rewrite firstn_map. Qed.

Lemma s_map2_causal f : causal2 (s_map2 f).
Proof. intros k s1 s2. unfold s_map2. by rewrite firstn_zip_with. Qed.

Lemma shift_causal k : causal (shift k).
Proof.
  intros m s. unfold shift. rewrite length_firstn, firstn_firstn, firstn_app_firstn;
    [|rewrite repeat_length; lia]. done.
Qed.

Lemma diff_causal : causal diff.
Proof. exact (causal2_compose _ _ _ causal_id (shift_causal 1) (s_map2_causal _)). Qed.

Lemma clip_lower0_causal : causal clip_lower0.
Proof. apply s_map_causal. Qed.

Lemma window_firstn w t k s :
  (w <= S t)%nat -> (S t <= k)%nat -> window w t (firstn k s) = window w t s.
Proof. intros Hw Hk. apply firstn_skipn_firstn. lia. Qed.

Lemma rolling_causal w f : causal (rolling w f).
Proof.
  intros k s. unfold rolling. rewrite firstn_map, length_firstn, firstn_seq.
  apply map_ext_in. intros t Ht. apply in_seq in Ht.
  destruct (Nat.ltb_spec (S t) w); [done|]. rewrite window_firstn by lia. done.
Qed.

Lemma rolling_apply_causal w g : causal (rolling_apply w g).
Proof. apply rolling_causal. Qed.

Lemma ewm_from_causal alpha : forall k s weighted old_wt,
  ewm_from alpha weighted old_wt (firstn k s) = firstn k (ewm_from alpha weighted old_wt s).
Proof.
  induction k as [|k IH]; intros [|x s] weighted old_wt; try done.
  destruct weighted, x; cbn [firstn ewm_from]; by rewrite IH.
Qed.

Lemma ewm_mean_causal alpha : causal (ewm_mean alpha).
Proof.
  intros [|k] [|x s]; try done. cbn [firstn ewm_mean]. by rewrite ewm_from_causal.
Qed.

Lemma rolling_mean_causal w : causal (rolling_mean w).
Proof. apply rolling_causal. Qed.

Lemma rolling_std_causal w : causal (rolling_std w).
Proof. apply rolling_causal. Qed.

(** ** Lengths *)

Lemma s_map_length f : length_preserving (s_map f).
Proof. intros s. apply length_map. Qed.

Lemma s_map2_length f s1 s2 : length s1 = length s2 -> length (s_map2 f s1 s2) = length s1.
Proof. intros E. unfold s_map2. rewrite length_zip_with. lia. Qed.

Lemma shift_length k : length_preserving (shift k).
Proof. intros s. unfold shift. rewrite length_firstn, length_app. lia. Qed.

Lemma shift_back_length k : length_preserving (shift_back k).
Proof. intros s. unfold shift_back. rewrite length_firstn, length_app, length_skipn, repeat_length. lia. Qed.

Lemma diff_length : length_preserving diff.
Proof. intros s. apply s_map2_length. symmetry. apply shift_length. Qed.

Lemma rolling_length w f : length_preserving (rolling w f).
Proof. intros s. unfold rolling. by rewrite length_map, length_seq. Qed.

Lemma ewm_from_length alpha : forall s weighted old_wt,
  length (ewm_from alpha weighted old_wt s) = length s.
Proof. induction s as [|x s IH]; intros [w|] old_wt; [done|done|..]; destruct x; simpl; by rewrite IH. Qed.

Lemma ewm_mean_length alpha : length_preserving (ewm_mean alpha).
Proof. intros [|x s]; simpl; [done|]. by rewrite ewm_from_length. Qed.

(** ** Row values *)

Lemma shift_nth k s t :
  (t < length s)%nat ->
  nth_error (shift k s) t = if Nat.ltb t k then Some None else nth_error s (t - k).
Proof.
  intros Ht. unfold shift. rewrite nth_error_firstn.
  destruct (Nat.ltb_spec t (length s)); [|lia].
  destruct (Nat.ltb_spec t k).
  - rewrite nth_error_app1 by (rewrite repeat_length; lia). apply nth_error_repeat. lia.
  - rewrite nth_error_app2 by (rewrite repeat_length; lia). by rewrite repeat_length.
Qed.

Lemma shift_back_nth k s t :
  (t < length s)%nat ->
  nth_error (shift_back k s) t = if Nat.ltb (t + k) (length s) then nth_error s (t + k) else Some None.
Proof.
  intros Ht. unfold shift_back. rewrite nth_error_firstn.
  destruct (Nat.ltb_spec t (length s)); [|lia].
  destruct (Nat.ltb_spec (t + k) (length s)).
  - rewrite nth_error_app1 by (rewrite length_skipn; lia). rewrite nth_error_skipn. f_equal. lia.
  - rewrite nth_error_app2 by (rewrite length_skipn; lia). apply nth_error_repeat.
    rewrite length_skipn. lia.
Qed.

Lemma s_map2_nth f s1 s2 t :
  nth_error (s_map2 f s1 s2) t =
    match nth_error s1 t, nth_error s2 t with Some a, Some b => Some (lift2 f a b) | _, _ => None end.
Proof.
  unfold s_map2. revert s1 s2. induction t as [|t IH]; intros [|a s1] [|b s2]; simpl; try done.
  by destruct (nth_error s1 t).
Qed.

Lemma s_map_nth f s t : nth_error (s_map f s) t = option_map (fun c => c ≫= f) (nth_error s t).
Proof. apply nth_error_map. Qed.

(** A causal operation's value at row [t] is its value on rows [0..t]. *)
Lemma causal_nth f s t :
  causal f -> nth_error (f s) t = nth_error (f (firstn (S t) s)) t.
Proof.
  intros Hf. rewrite Hf, nth_error_firstn. destruct (Nat.ltb_spec t (S t)); [done|lia].
Qed.
Lemma s_map2_len f s1 s2 : length (s_map2 f s1 s2) = Nat.min (length s1) (length s2).
Proof. apply length_zip_with. Qed.

Lemma rolling_nth w f s t :
  (t < length s)%nat ->
  nth_error (rolling w f s) t =
    Some (if Nat.ltb (S t) w then None
          else match all_some (window w t s) with Some xs => f xs | None => None end).
Proof.
  intros Ht. unfold rolling. rewrite nth_error_map, nth_error_seq.
  by destruct (Nat.ltb_spec t (length s)); [|lia].
Qed.

(** The warm-up rows of a rolling window are NaN. *)
Lemma rolling_warmup w f s t :
  (t < length s)%nat -> (S t < w)%nat -> nth_error (rolling w f s) t = Some None.
Proof.
  intros Ht Hw. rewrite rolling_nth by done. by destruct (Nat.ltb_spec (S t) w); [|lia].
Qed.

(** ** Constant columns *)

Lemma firstn_repeat {A} (a : A) k n : firstn k (repeat a n) = repeat a (Nat.min k n).
Proof. revert n. induction k as [|k IH]; intros [|n]; simpl; try done. by rewrite IH. Qed.

Lemma skipn_repeat {A} (a : A) k n : skipn k (repeat a n) = repeat a (n - k).
Proof. revert n. induction k as [|k IH]; intros [|n]; simpl; try done. Qed.

Lemma zip_with_repeat {A B C} (g : A -> B -> C) a b n m :
  zip_with g (repeat a n) (repeat b m) = repeat (g a b) (Nat.min n m).
Proof. revert m. induction n as [|n IH]; intros [|m]; simpl; try done. by rewrite IH. Qed.

Lemma repeat_nonnil {A} (a : A) m : (0 < m)%nat -> repeat a m <> [].
Proof. by destruct m; [lia|]. Qed.

Lemma all_some_repeat c n : all_some (repeat (Some c) n) = Some (repeat c n).
Proof. induction n as [|n IH]; simpl; [done|]. by rewrite IH. Qed.

Lemma s_map2_repeat g a b n :
  s_map2 (tot2 g) (repeat (Some a) n) (repeat (Some b) n) = repeat (Some (g a b)) n.
Proof. unfold s_map2. rewrite zip_with_repeat. f_equal. lia. Qed.

Section Laws.
Context `{!FloatLaws F}.

(** pandas keeps a constant series constant in [ewm] (the test
    [weighted != cur] of its kernel). *)
Lemma ewm_from_repeat alpha c ow n :
  ewm_from alpha (Some c) ow (repeat (Some c) n) = repeat (Some c) n.
Proof.
  revert ow. induction n as [|n IH]; intros ow; simpl; [done|].
  rewrite fleb_refl. simpl. by rewrite IH.
Qed.

Lemma ewm_mean_repeat alpha c n : ewm_mean alpha (repeat (Some c) n) = repeat (Some c) n.
Proof. destruct n; simpl; [done|]. by rewrite ewm_from_repeat. Qed.

Lemma fsum_zeros m : fsum (repeat fzero m) = fzero.
Proof.
  unfold fsum. rewrite flit_zero. induction m as [|m IH]; simpl; [done|]. by rewrite fadd_zero.
Qed.

Lemma flen_pos (xs : list F) : xs <> [] -> fltb fzero (flen xs) = true.
Proof.
  intros Hne. apply flit_pos. destruct xs; [done|]. simpl. lia.
Qed.

Lemma mean_of_zeros m : (0 < m)%nat -> mean_of (repeat fzero m) = Some fzero.
Proof.
  intros Hm. unfold mean_of. rewrite fsum_zeros. by apply fdiv_zero_l, flen_pos, repeat_nonnil.
Qed.

Lemma sq_dev_zeros m : (0 < m)%nat -> sq_dev (repeat fzero m) = Some fzero.
Proof.
  intros Hm. unfold sq_dev. rewrite mean_of_zeros by done. simpl.
  by rewrite map_repeat, fsub_diag, fmul_zero, fsum_zeros.
Qed.
End Laws.
End Series.

#[export] Hint Resolve causal_compose causal2_compose causal_id s_map_causal s_map2_causal
  shift_causal diff_causal clip_lower0_causal rolling_causal rolling_apply_causal
  ewm_mean_causal : pipeline.

(** Moves a prefix [firstn k] from the result of a composition of causal
    combinators down to their inputs. *)
Ltac push_firstn :=
  repeat first
    [ rewrite firstn_zip_with
    | rewrite <- s_map_causal | rewrite <- s_map2_causal | rewrite <- shift_causal
    | rewrite <- diff_causal | rewrite <- clip_lower0_causal | rewrite <- rolling_mean_causal
    | rewrite <- rolling_std_causal | rewrite <- rolling_apply_causal | rewrite <- rolling_causal
    | rewrite <- ewm_mean_causal ].
