(* ===== verification/Carrier.v ===== *)
(** * A rational carrier for the examples

    An instance of [FloatOps] and [FloatLaws] on [Q], used to evaluate the
    examples and witnesses of the development: fixed-point arithmetic
    rounding every result down to a multiple of [2^-40] (as a double rounds
    to its precision), exact literals, and fixed-point approximations of
    [sqrt], [log], [sin] and [cos].  The rationals have no
    infinities, so a division by zero and the logarithm of zero are NaN
    here; the theorems themselves hold for every carrier. *)

From Stdlib Require Import Lqa Qabs.
From S2P Require Import Prelude Series.

Definition q_scale : positive := 1099511627776.

Definition q_round (q : Q) : Q := Qred ((Qnum q * Zpos q_scale / Zpos (Qden q))%Z # q_scale).

Definition q_sqrt (q : Q) : option Q :=
  if negb (Qle_bool 0 q) then None
  else Some (Qred (Z.sqrt (Qnum q * Zpos q_scale * Zpos q_scale / Zpos (Qden q))%Z # q_scale)).

(** [2 atanh y = 2 (y + y^3/3 + y^5/5 + ...)], [n] terms. *)
Fixpoint q_atanh2 (n : nat) (y y2 acc : Q) (k : positive) : Q :=
  match n with
  | O => acc
  | S n => q_atanh2 n (q_round (y * y2)) y2 (q_round (acc + 2 * y / inject_Z (Zpos k))%Q) (k + 2)
  end.

Definition q_ln2 : Q := 6931471805599453 # 10000000000000000.

Definition q_ln (q : Q) : option Q :=
  if Qle_bool q 0 then None else
  let e := Z.log2 (Qnum q) - Z.log2 (Zpos (Qden q)) in
  let m := if (0 <=? e)%Z then (q / inject_Z (2 ^ e))%Q else (q * inject_Z (2 ^ (- e)))%Q in
  let y := q_round ((m - 1) / (m + 1))%Q in
  Some (q_round (inject_Z e * q_ln2 + q_atanh2 30 y (q_round (y * y)) 0 1)%Q).

(** The Taylor series [sum (-1)^i x^(2i+j) / (2i+j)!], [n] terms. *)
Fixpoint q_taylor (n : nat) (x term acc : Q) (k : positive) : Q :=
  match n with
  | O => acc
  | S n => q_taylor n x (q_round (- term * x * x / inject_Z (Zpos (k * (k + 1))))%Q) (q_round (acc + term)%Q) (k + 2)
  end.

Definition q_sin (x : Q) : Q := q_taylor 30 x x 0 2.
Definition q_cos (x : Q) : Q := q_taylor 30 x 1 0 1.

#[export] Instance FloatOps_Q : FloatOps Q := {
  fadd := fun x y => q_round (x + y);
  fsub := fun x y => q_round (x - y);
  fmul := fun x y => q_round (x * y);
  fneg := fun x => Qred (- x);
  fabs := fun x => Qred (Qabs x);
  fdiv := fun x y => if Qeq_bool y 0 then None else Some (q_round (x / y));
  fln := q_ln;
  fsqrt := q_sqrt;
  fsin := q_sin;
  fcos := q_cos;
  fpi := 314159265358979 # 100000000000000;
  flit := Qred
}.

#[export] Instance FloatLaws_Q : FloatLaws Q.
Proof.
  split; cbn.
  - intros [a d]. unfold q_round. cbn [Qminus Qplus Qopp Qnum Qden].
    replace (a * Zpos d + - a * Zpos d)%Z with 0%Z by ring. reflexivity.
  - reflexivity.
  - reflexivity.
  - reflexivity.
  - intros n Hn. apply negb_true_iff, not_true_iff_false. rewrite Qle_bool_iff, Qred_correct.
    unfold Qle. simpl. lia.
  - intros y Hy. apply negb_true_iff, not_true_iff_false in Hy. rewrite Qle_bool_iff in Hy.
    destruct (Qeq_bool y 0) eqn:E; [apply Qeq_bool_iff in E; lra|].
    by f_equal.
  - reflexivity.
  - intros x. apply Qle_bool_iff, Qle_refl.
Qed.

(** ** A fixed-point carrier

    Numbers [v / 2^24] with [v : Z]: every operation rounds down to a
    multiple of [2^-24].  Its arithmetic is that of machine integers of
    about 64 bits, cheap enough to evaluate the whole feature pipeline on a
    table of a few hundred rows (the rational carrier's reductions are not). *)
Record fx := FX { fx_val : Z }.

Definition fx_scale : Z := 16777216.

Definition fx_of_Q (q : Q) : fx := FX (Qnum q * fx_scale / Zpos (Qden q)).

(** [2 atanh y], [n] terms, in fixed point. *)
Fixpoint fx_atanh2 (n : nat) (term y2 acc k : Z) : Z :=
  match n with
  | O => acc
  | S n => fx_atanh2 n (term * y2 / fx_scale) y2 (acc + 2 * term / k) (k + 2)
  end.

(** [ln 2] in fixed point. *)
Definition fx_ln2 : Z := 11629080.

Definition fx_ln (a : Z) : option fx :=
  if (a <=? 0)%Z then None else
  let k := (Z.log2 a - 24)%Z in
  let m := if (0 <=? k)%Z then Z.shiftr a k else Z.shiftl a (- k) in
  let y := ((m - fx_scale) * fx_scale / (m + fx_scale))%Z in
  Some (FX (k * fx_ln2 + fx_atanh2 20 y (y * y / fx_scale) 0 1)).

(** The Taylor series [sum (-1)^i x^(2i+j) / (2i+j)!], [n] terms. *)
Fixpoint fx_taylor (n : nat) (x term acc k : Z) : Z :=
  match n with
  | O => acc
  | S n => fx_taylor n x (- (term * x / fx_scale) * x / fx_scale / (k * (k + 1))) (acc + term) (k + 2)
  end.

#[export] Instance FloatOrd_fx : FloatOrd fx := {
  fzero := FX 0;
  fltb := fun x y => (fx_val x <? fx_val y)%Z;
  fleb := fun x y => (fx_val x <=? fx_val y)%Z
}.

#[export] Instance FloatOps_fx : FloatOps fx := {
  fadd := fun x y => FX (fx_val x + fx_val y);
  fsub := fun x y => FX (fx_val x - fx_val y);
  fmul := fun x y => FX (fx_val x * fx_val y / fx_scale);
  fneg := fun x => FX (- fx_val x);
  fabs := fun x => FX (Z.abs (fx_val x));
  fdiv := fun x y => if (fx_val y =? 0)%Z then None else Some (FX (fx_val x * fx_scale / fx_val y));
  fln := fun x => fx_ln (fx_val x);
  fsqrt := fun x => if (fx_val x <? 0)%Z then None else Some (FX (Z.sqrt (fx_val x * fx_scale)));
  fsin := fun x => FX (fx_taylor 30 (fx_val x) (fx_val x) 0 2);
  fcos := fun x => FX (fx_taylor 30 (fx_val x) fx_scale 0 1);
  fpi := FX 52707179;
  flit := fx_of_Q
}.

#[export] Instance FloatLaws_fx : FloatLaws fx.
Proof.
  split; cbn.
  - intros [a]. simpl. by rewrite Z.sub_diag.
  - reflexivity.
  - reflexivity.
  - reflexivity.
  - intros n Hn. apply Z.ltb_lt. simpl. unfold fx_scale. rewrite Z.div_1_r. lia.
  - intros [b] Hb. apply Z.ltb_lt in Hb. simpl in *. by destruct (Z.eqb_spec b 0); [lia|].
  - reflexivity.
  - intros [a]. apply Z.leb_refl.
Qed.
