(* ===== verification/Indicators.v ===== *)
(** * Technical indicators and the Hurst estimator

    The indicator functions of [src/data_pipeline/make_features.py]
    ([rsi], [ema], [macd], [atr], [hurst_simple], [make_time_features]),
    built from the Series combinators of [Series], and the bot's copy of
    [rsi], [ema] and [macd] with its interpretation [calc_indicators]
    ([src/bot/services/indicators.py]).  The theorems: every indicator
    column is causal and keeps the length of its input, the warm-up rows
    of each rolling indicator are NaN, and the Hurst estimator is NaN on a
    short window and on a constant window. *)

From Stdlib Require Import String.
From S2P Require Import Prelude Frame Series Carrier.

(** The [1e-12] of the code. *)
Definition eps_q : Q := 1 # 1000000000000.

(** The lags of [hurst_simple]. *)
Definition hurst_lags : list nat := [2; 4; 8; 16; 32]%nat.

(** [ts.dt.hour] and [ts.dt.dayofweek] of a UTC timestamp in milliseconds
    (1970-01-01 was a Thursday, day 3 with Monday = 0). *)
Definition hour_of (ts : Z) : Z := (ts / 3600000) mod 24.
Definition dayofweek_of (ts : Z) : Z := (ts / 86400000 + 3) mod 7.

(** The bot's reading of RSI and MACD (the three texts of each branch). *)
Inductive rsi_text := RsiOverbought | RsiOversold | RsiNeutral.
Inductive macd_text := MacdBullish | MacdBearish | MacdNoSignal.

(** Example closes: a steady rise and a steady fall over 40 hours. *)
Definition demo_rising : list (option Q) := map (fun k => Some (inject_Z (100 + Z.of_nat k))) (seq 0 40).
Definition demo_falling : list (option Q) := map (fun k => Some (inject_Z (140 - Z.of_nat k))) (seq 0 40).

Section Indicators.
Context {F : Type} `{FloatOrd F} `{FloatOps F}.
Implicit Types (s close high low : list (option F)).

(** [rsi(close, period)]. *)
Definition rsi close (period : nat) : list (option F) :=
  let delta := diff close in
  let gain := clip_lower0 delta in
  let loss := clip_lower0 (s_map (tot1 fneg) delta) in
  let avg_gain := rolling_mean period gain in
  let avg_loss := rolling_mean period loss in
  let rs := s_map2 fdiv avg_gain (s_map (tot1 (fun x => fadd x (flit eps_q))) avg_loss) in
  s_map (fun x => y ← fdiv (flit 100) (fadd (flit 1) x); Some (fsub (flit 100) y)) rs.

(** [ema(s, span)]. *)
Definition ema s (span : positive) : list (option F) := ewm_mean (span_alpha span) s.

(** [macd(close)]: line, signal and histogram. *)
Definition macd close : list (option F) * list (option F) * list (option F) :=
  let fast := ema close 12 in
  let slow := ema close 26 in
  let macd_line := s_map2 (tot2 fsub) fast slow in
  let signal := ema macd_line 9 in
  let hist := s_map2 (tot2 fsub) macd_line signal in
  (macd_line, signal, hist).

(** The true range: [pd.concat([...], axis=1).max(axis=1)] skips NaN. *)
Definition true_range high low close : list (option F) :=
  let prev_close := shift 1 close in
  let hl := s_map2 (tot2 fsub) high low in
  let hp := s_map (tot1 fabs) (s_map2 (tot2 fsub) high prev_close) in
  let lp := s_map (tot1 fabs) (s_map2 (tot2 fsub) low prev_close) in
  zip_with nan_max2 (zip_with nan_max2 hl hp) lp.

(** [atr(df, period)]. *)
Definition atr high low close (period : nat) : list (option F) :=
  rolling_mean period (true_range high low close).

(** [np.std] ([ddof = 0]). *)
Definition np_std (xs : list F) : option F :=
  v ← sq_dev xs; q ← fdiv v (flen xs); fsqrt q.

(** [x[lag:] - x[:-lag]]. *)
Definition lag_diff (xs : list F) (lag : nat) : list F :=
  zip_with fsub (skipn lag xs) (firstn (length xs - lag) xs).

(** [np.sqrt(np.std(diff))] for one lag. *)
Definition tau_of (xs : list F) (lag : nat) : option F :=
  sd ← np_std (lag_diff xs lag); fsqrt sd.

(** The slope of [np.polyfit(x, y, 1)], the closed form of the
    least-squares line. *)
Definition polyfit_slope (xs ys : list F) : option F :=
  mx ← mean_of xs; my ← mean_of ys;
  fdiv (fsum (zip_with (fun a b => fmul (fsub a mx) (fsub b my)) xs ys))
       (fsum (map (fun a => fmul (fsub a mx) (fsub a mx)) xs)).

(** [hurst_simple(x)]: NaN on fewer than 64 points, a NaN point, or a
    non-positive dispersion; else twice the slope of the log-log fit. *)
Definition hurst_simple (x : list (option F)) : option F :=
  if Nat.ltb (length x) 64 || existsb isna x then None else
  match all_some x with
  | None => None
  | Some xs =>
      tau ← mapM (tau_of xs) hurst_lags;
      if existsb (fun t => fleb t fzero) tau then None else
      lx ← mapM (fun l => fln (flit (inject_Z (Z.of_nat l)))) hurst_lags;
      ly ← mapM fln tau;
      poly0 ← polyfit_slope lx ly;
      Some (fmul poly0 (flit 2))
  end.

(** One cyclical encoding: [f(2 * np.pi * v / period)]. *)
Definition cyc (f : F -> F) (v period : Z) : option F :=
  a ← fdiv (fmul (fmul (flit 2) fpi) (flit (inject_Z v))) (flit (inject_Z period)); Some (f a).

(** [make_time_features(ts)]: the four columns in the code's order. *)
Definition make_time_features (ts : list Z) : list (string * list (option F)) :=
  [("hour_sin", map (fun t => cyc fsin (hour_of t) 24) ts);
   ("hour_cos", map (fun t => cyc fcos (hour_of t) 24) ts);
   ("dow_sin", map (fun t => cyc fsin (dayofweek_of t) 7) ts);
   ("dow_cos", map (fun t => cyc fcos (dayofweek_of t) 7) ts)]%string.

(** [float(series.iloc[-1])]: [IndexError] on an empty series; NaN stays. *)
Definition iloc_last s : result (option F) :=
  match rev s with c :: _ => Ok c | [] => Err IndexError end.

(** [rsi_last >= 70] and the like are false on NaN. *)
Definition rsi_reading (r : option F) : rsi_text :=
  if nan_le (Some (flit 70)) r then RsiOverbought
  else if nan_le r (Some (flit 30)) then RsiOversold else RsiNeutral.

Definition macd_reading (m sg h : option F) : macd_text :=
  if nan_lt sg m && nan_lt (Some fzero) h then MacdBullish
  else if nan_lt m sg && nan_lt h (Some fzero) then MacdBearish else MacdNoSignal.

(** [calc_indicators(df)]: the last RSI and MACD values and their reading. *)
Definition calc_indicators close : result (option F * option F * option F * option F * rsi_text * macd_text) :=
  let rsi_series := rsi close 14 in
  let '(macd_line, signal, hist) := macd close in
  let? rsi_last := iloc_last rsi_series in
  let? macd_last := iloc_last macd_line in
  let? signal_last := iloc_last signal in
  let? hist_last := iloc_last hist in
  Ok (rsi_last, macd_last, signal_last, hist_last, rsi_reading rsi_last,
      macd_reading macd_last signal_last hist_last).

(** ** Causality and lengths *)

Lemma rsi_causal k s p : rsi (firstn k s) p = firstn k (rsi s p).
Proof. unfold rsi. by push_firstn. Qed.

Lemma ema_causal k s span : ema (firstn k s) span = firstn k (ema s span).
Proof. apply ewm_mean_causal. Qed.

Lemma macd_causal k s : macd (firstn k s) =
  let '(m, sg, h) := macd s in (firstn k m, firstn k sg, firstn k h).
Proof. unfold macd, ema. by push_firstn. Qed.

Lemma macd_line_causal k s : fst (fst (macd (firstn k s))) = firstn k (fst (fst (macd s))).
Proof. rewrite macd_causal. by destruct (macd s) as [[? ?] ?]. Qed.

Lemma macd_signal_causal k s : snd (fst (macd (firstn k s))) = firstn k (snd (fst (macd s))).
Proof. rewrite macd_causal. by destruct (macd s) as [[? ?] ?]. Qed.

Lemma macd_hist_causal k s : snd (macd (firstn k s)) = firstn k (snd (macd s)).
Proof. rewrite macd_causal. by destruct (macd s) as [[? ?] ?]. Qed.

Lemma true_range_causal k high low close :
  true_range (firstn k high) (firstn k low) (firstn k close) = firstn k (true_range high low close).
Proof. unfold true_range. by push_firstn. Qed.

Lemma atr_causal k high low close p :
  atr (firstn k high) (firstn k low) (firstn k close) p = firstn k (atr high low close p).
Proof. unfold atr. by rewrite true_range_causal, rolling_mean_causal. Qed.

Ltac len_simpl :=
  repeat first [ rewrite length_map | rewrite s_map_length | rewrite s_map2_len | rewrite rolling_length
               | rewrite ewm_mean_length | rewrite shift_length | rewrite diff_length ].

Lemma rsi_length s p : length (rsi s p) = length s.
Proof. unfold rsi, clip_lower0, rolling_mean, s_map. len_simpl. lia. Qed.

Lemma macd_length s :
  let '(m, sg, h) := macd s in length m = length s /\ length sg = length s /\ length h = length s.
Proof. unfold macd, ema. len_simpl. lia. Qed.

Lemma iloc_last_ok s : s <> [] -> exists c, iloc_last s = Ok c.
Proof.
  intros Hne. unfold iloc_last. destruct (rev s) eqn:E; [|by eexists].
  apply (f_equal (@rev _)) in E. rewrite rev_involutive in E. by subst.
Qed.

(** ** The Hurst estimator on a constant window *)

Section Laws.
Context `{!FloatLaws F}.

Lemma lag_diff_repeat c n lag : lag_diff (repeat c n) lag = repeat fzero (n - lag).
Proof.
  unfold lag_diff. rewrite skipn_repeat, repeat_length, firstn_repeat, zip_with_repeat, fsub_diag.
  f_equal. lia.
Qed.

Lemma tau_of_repeat c n lag : (lag < n)%nat -> tau_of (repeat c n) lag = Some fzero.
Proof.
  intros Hl. unfold tau_of, np_std. rewrite lag_diff_repeat, sq_dev_zeros by lia. simpl.
  rewrite fdiv_zero_l by (apply flen_pos, repeat_nonnil; lia).
  simpl. rewrite fsqrt_zero. simpl. by rewrite fsqrt_zero.
Qed.
End Laws.

Lemma diff_head s : s <> [] -> nth_error (diff s) 0 = Some None.
Proof.
  intros Hne. unfold diff. rewrite s_map2_nth, shift_nth by (destruct s; [done|simpl; lia]).
  destruct s as [|x s]; [done|]. simpl. by destruct x.
Qed.

Lemma clip_lower0_head s : nth_error s 0 = Some None -> nth_error (clip_lower0 s) 0 = Some None.
Proof. intros E. unfold clip_lower0. by rewrite s_map_nth, E. Qed.

Lemma s_map_head f s : nth_error s 0 = Some None -> nth_error (s_map f s) 0 = Some None.
Proof. intros E. by rewrite s_map_nth, E. Qed.

(** A NaN in the first row makes the first [w] rows of a rolling window NaN. *)
Lemma rolling_head_nan w f s t :
  nth_error s 0 = Some None -> (t < w)%nat -> (t < length s)%nat ->
  nth_error (rolling w f s) t = Some None.
Proof.
  intros E Hw Ht. rewrite rolling_nth by done.
  destruct (Nat.ltb_spec (S t) w); [done|]. f_equal.
  unfold window. replace (S t - w)%nat with 0%nat by lia. rewrite skipn_O.
  destruct s as [|x s]; [done|]. injection E as ->. destruct w; [lia|done].
Qed.

(** ** Properties *)

(** C16: the Hurst estimator's guards: [hurst_simple] is NaN on a window
    of fewer than 64 points, on a window with a NaN, and on a constant
    window (zero dispersion at every lag), never a number. *)
Theorem hurst_simple_guard `{!FloatLaws F} (x : list (option F)) :
  (length x < 64)%nat \/ existsb isna x = true \/ (exists c, x = repeat (Some c) (length x)) ->
  hurst_simple x = None.
Proof.
  unfold hurst_simple. intros [Hl|[Hna|[c Hc]]].
  - by destruct (Nat.ltb_spec (length x) 64); [|lia].
  - rewrite Hna. by rewrite orb_true_r.
  - destruct (Nat.ltb_spec (length x) 64); [done|]. rewrite Hc, all_some_repeat.
    replace (existsb isna _) with false by (clear; by induction (length x)).
    simpl. rewrite !tau_of_repeat by lia. simpl. by rewrite fleb_refl.
Qed.

(** C17: on a constant close series the MACD line, signal and histogram
    are zero at every row (pandas' [ewm] keeps a constant series constant). *)
Theorem macd_constant `{!FloatLaws F} (c : F) n :
  macd (repeat (Some c) n) = (repeat (Some fzero) n, repeat (Some fzero) n, repeat (Some fzero) n).
Proof.
  unfold macd, ema. rewrite !ewm_mean_repeat, s_map2_repeat, fsub_diag, ewm_mean_repeat.
  by rewrite s_map2_repeat, fsub_diag.
Qed.

(** the RSI is NaN on the first [period] rows: the first difference
    is NaN and the rolling means need [period] values. *)
Theorem rsi_warmup close p t :
  (t < p)%nat -> (t < length close)%nat -> nth_error (rsi close p) t = Some None.
Proof.
  intros Hp Ht. assert (Hne : close <> []) by (destruct close; [simpl in Ht; lia|done]).
  unfold rsi, rolling_mean. rewrite s_map_nth, s_map2_nth.
  rewrite (rolling_head_nan p _ (clip_lower0 (diff close)) t); [|by apply clip_lower0_head, diff_head|done|].
  - destruct (nth_error _ t) eqn:Eb; [done|]. apply nth_error_None in Eb.
    revert Eb. unfold clip_lower0. len_simpl. lia.
  - unfold clip_lower0. len_simpl. lia.
Qed.

Lemma calc_indicators_ok close : close <> [] -> exists ind, calc_indicators close = Ok ind.
Proof.
  intros Hne. destruct close as [|x close]; [done|].
  pose proof (rsi_length (x :: close) 14) as Hr. pose proof (macd_length (x :: close)) as Hm.
  unfold calc_indicators. destruct (macd (x :: close)) as [[m sg] h]. destruct Hm as (H1 & H2 & H3).
  destruct (iloc_last_ok (rsi (x :: close) 14)) as [a Ea]; [by intros E'; rewrite E' in Hr|].
  destruct (iloc_last_ok m) as [b Eb]; [by intros E'; rewrite E' in H1|].
  destruct (iloc_last_ok sg) as [d Ed]; [by intros E'; rewrite E' in H2|].
  destruct (iloc_last_ok h) as [e Ee]; [by intros E'; rewrite E' in H3|].
  rewrite Ea, Eb, Ed, Ee. eauto.
Qed.

(** C18: the bot's [calc_indicators] fails with [IndexError] exactly on an
    empty close series; otherwise it reads the last values. *)
Theorem calc_indicators_error close :
  calc_indicators close = Err IndexError <-> close = [].
Proof.
  split; [|by intros ->]. intros E.
  destruct (decide (close = [])) as [|Hne]; [done|].
  destruct (calc_indicators_ok close Hne) as [ind Eok]. congruence.
Qed.
End Indicators.

(** the calendar fields of the time encodings: the hour lies in
    [0, 24) and the weekday in [0, 7); one hour later the hour advances by
    one modulo 24, one day later the weekday by one modulo 7; and
    2024-01-01T00:00Z is hour 0 of a Monday (weekday 0). *)
Theorem time_fields ts :
  (0 <= hour_of ts < 24 /\ 0 <= dayofweek_of ts < 7)%Z /\
  hour_of (ts + 3600000) = ((hour_of ts + 1) mod 24)%Z /\
  dayofweek_of (ts + 86400000) = ((dayofweek_of ts + 1) mod 7)%Z /\
  hour_of 1704067200000 = 0%Z /\ dayofweek_of 1704067200000 = 0%Z.
Proof.
  unfold hour_of, dayofweek_of. repeat split; try (apply Z.mod_pos_bound; lia); try reflexivity.
  - replace (ts + 3600000)%Z with (ts + 1 * 3600000)%Z by lia. rewrite Z.div_add by lia.
    by rewrite Zplus_mod_idemp_l.
  - replace (ts + 86400000)%Z with (ts + 1 * 86400000)%Z by lia. rewrite Z.div_add by lia.
    rewrite Zplus_mod_idemp_l. f_equal. lia.
Qed.

(** ** Examples and witnesses *)

(** on a steady rise the bot reads RSI overbought and MACD bullish; on
    a steady fall, RSI oversold and MACD bearish. *)
Example calc_indicators_example :
  (exists r m sg h, calc_indicators demo_rising = Ok (r, m, sg, h, RsiOverbought, MacdBullish)) /\
  (exists r m sg h, calc_indicators demo_falling = Ok (r, m, sg, h, RsiOversold, MacdBearish)).
Proof. split; do 4 eexists; vm_compute; reflexivity. Qed.

Lemma hurst_simple_guard_witness : hurst_simple (repeat (Some (5 : Q)) 100) = None.
Proof. apply hurst_simple_guard. right. right. by exists 5%Q. Defined.

Lemma rsi_warmup_witness : nth_error (rsi demo_rising 14) 13 = Some None.
Proof. apply rsi_warmup; vm_compute; lia. Defined.

Lemma macd_constant_witness :
  macd (repeat (Some (FX 5)) 3) = (repeat (Some fzero) 3, repeat (Some fzero) 3, repeat (Some fzero) 3).
Proof. apply macd_constant. Defined.
