(* ===== verification/Split.v ===== *)
(** * The 70/15/15 time split of [make_features.py]

    [main] computes [i1 = int(n * 0.70)] and [i2 = int(n * 0.85)] in
    binary64 and records the timestamps at [iloc[0]], [iloc[i1 - 1]],
    [iloc[i1]], [iloc[i2 - 1]], [iloc[i2]] and [iloc[-1]].  The products are
    modelled with the IEEE specification of the Standard Library
    ([Floats.SpecFloat], [prec = 53], [emax = 1024]): [float(n)] is
    [binary_normalize], [0.70] and [0.85] are the doubles the literals denote,
    and [int] truncates toward zero.  [iloc] follows Python's negative
    indices and raises [IndexError] out of range.

    The rounding of SpecFloat is characterized once ([binary_round_aux_spec]:
    a product of two 53-bit mantissas rounds to its 53-bit truncation or one
    more), which gives [split_index_bounds]: [int(n * c)] is the floor of the
    exact product of [n] and the double [c], or one more, for every
    [n <= 2^50].  The theorems: [int(n * 0.70)] and [int(n * 0.85)] are
    within one of the exact floors; the partitions are non-empty,
    contiguous and time-ordered for every table of 4 to 2^50 rows; on 1 to
    3 rows the recorded boundaries are out of order; on 0 rows [main]
    raises [IndexError]; and [int(n * 0.70)] is not [floor(7n/10)] in
    general. *)

From Stdlib Require Import SpecFloat.
From S2P Require Import Prelude Frame.

(** [float(n)] for a Python int. *)
Definition py_float (n : Z) : spec_float := binary_normalize 53 1024 n 0 false.

(** The doubles nearest to [0.70] and [0.85]. *)
Definition f070 : spec_float := S754_finite false 6305039478318694 (-53).
Definition f085 : spec_float := S754_finite false 7656119366529843 (-53).

(** [int(x)]: truncation toward zero; [OverflowError] on an infinity and
    [ValueError] on NaN. *)
Definition py_int (f : spec_float) : result Z :=
  match f with
  | S754_zero _ => Ok 0
  | S754_infinity _ => Err OverflowError
  | S754_nan => Err ValueError
  | S754_finite s m e =>
      let a := if (0 <=? e)%Z then Zpos m * 2 ^ e else Zpos m / 2 ^ (- e) in
      Ok (if s then - a else a)
  end.

(** [int(n * c)]. *)
Definition split_index (n : Z) (c : spec_float) : result Z := py_int (SFmul 53 1024 (py_float n) c).

(** [series.iloc[i]]. *)
Definition iloc (l : list Z) (i : Z) : result Z :=
  let len := Z.of_nat (length l) in
  let j := if (i <? 0)%Z then i + len else i in
  if (0 <=? j)%Z && (j <? len)%Z then
    match nth_error l (Z.to_nat j) with Some x => Ok x | None => Err IndexError end
  else Err IndexError.

(** The [splits] dictionary (timestamps in milliseconds). *)
Record split_meta := mk_splits {
  train_start : Z; train_end : Z;
  val_start : Z; val_end : Z;
  test_start : Z; test_end : Z
}.

(** The split of [main], in the order Python evaluates the dictionary. *)
Definition make_splits (ts : list Z) : result split_meta :=
  let n := Z.of_nat (length ts) in
  let? i1 := split_index n f070 in
  let? i2 := split_index n f085 in
  let? a := iloc ts 0 in
  let? b := iloc ts (i1 - 1) in
  let? c := iloc ts i1 in
  let? d := iloc ts (i2 - 1) in
  let? e := iloc ts i2 in
  let? f := iloc ts (-1) in
  Ok (mk_splits a b c d e f).

(** The partitions [0..i1), [i1..i2), [i2..n) are non-empty. *)
Definition split_ok (n : Z) : bool :=
  match split_index n f070, split_index n f085 with
  | Ok i1, Ok i2 => (1 <=? i1)%Z && (i1 <? i2)%Z && (i2 <? n)%Z
  | _, _ => false
  end.

(** The largest table size the theorems cover, far beyond any hourly
    history ([2^50] hours). *)
Definition split_bound : Z := 2 ^ 50.

(** ** Rounding in SpecFloat *)

Lemma digits2_pos_log2 p : Zpos (digits2_pos p) = Z.log2 (Zpos p) + 1.
Proof.
  induction p as [p IH|p IH|]; simpl; [| |reflexivity];
    rewrite Pos2Z.inj_succ, IH; destruct p; simpl; lia.
Qed.

Lemma shr_1_m r : 0 <= shr_m r -> shr_m (shr_1 r) = shr_m r / 2.
Proof.
  destruct r as [m rr ss]; simpl. intros Hm.
  destruct m as [|[p|p|]|p]; simpl; try reflexivity; try lia.
  - apply (Z.div_unique _ _ _ 1); lia.
  - apply (Z.div_unique _ _ _ 0); lia.
Qed.

Lemma shr_1_nonneg r : 0 <= shr_m r -> 0 <= shr_m (shr_1 r).
Proof. intros Hm. rewrite shr_1_m by done. apply Z.div_pos; lia. Qed.

Ltac pow_side := first [ lia | apply Z.pow_nonzero; lia | apply Z.pow_pos_nonneg; lia | apply Z.pow_nonneg; lia ].

Lemma iter_shr_m (p : positive) : forall r, 0 <= shr_m r ->
  shr_m (SpecFloat.iter_pos shr_1 p r) = shr_m r / 2 ^ Zpos p /\ 0 <= shr_m (SpecFloat.iter_pos shr_1 p r).
Proof.
  induction p as [p IH|p IH|]; intros r Hr; simpl.
  - destruct (IH (shr_1 r)) as [E1 N1]; [by apply shr_1_nonneg|].
    destruct (IH _ N1) as [E2 N2]. split; [|done]. rewrite E2, E1, shr_1_m by done.
    rewrite !Z.div_div by pow_side.
    f_equal. replace (Z.pos p~1) with (Z.pos p + Z.pos p + 1) by lia. rewrite !Z.pow_add_r by lia. ring.
  - destruct (IH r Hr) as [E1 N1]. destruct (IH _ N1) as [E2 N2]. split; [|done].
    rewrite E2, E1, Z.div_div by pow_side.
    f_equal. replace (Z.pos p~0) with (Z.pos p + Z.pos p) by lia. rewrite !Z.pow_add_r by lia. ring.
  - split; [by apply shr_1_m|by apply shr_1_nonneg].
Qed.

Lemma Zdigits2_log2 z : 0 < z -> Zdigits2 z = Z.log2 z + 1.
Proof. destruct z as [|p|p]; simpl; [lia| |lia]. intros _. apply digits2_pos_log2. Qed.

Lemma rne_cases q l : round_nearest_even q l = q \/ round_nearest_even q l = q + 1.
Proof. destruct l as [|[]]; simpl; try destruct (Z.even q); auto. Qed.

Lemma log2_bounds z : 0 < z -> 2 ^ Z.log2 z <= z < 2 ^ (Z.log2 z + 1).
Proof. intros Hz. pose proof (Z.log2_spec z Hz) as H. by rewrite Z.add_1_r. Qed.

(** Rounding a product [mx * 2^ex] of at least 54 bits to binary64: the
    result is the mantissa truncated to 53 bits, or one more, at the
    exponent of the truncation. *)
Lemma binary_round_aux_spec mx ex :
  0 < mx -> 54 <= Z.log2 mx + 1 ->
  -1074 <= ex + Z.log2 mx + 1 - 53 -> ex + Z.log2 mx + 1 - 53 + 1 <= 971 ->
  exists m e R, binary_round_aux 53 1024 false mx ex loc_Exact = S754_finite false m e /\
    (R = mx / 2 ^ (Z.log2 mx + 1 - 53) \/ R = mx / 2 ^ (Z.log2 mx + 1 - 53) + 1) /\
    0 <= e - (ex + Z.log2 mx + 1 - 53) <= 1 /\ Zpos m * 2 ^ (e - (ex + Z.log2 mx + 1 - 53)) = R.
Proof.
  intros Hmx HD Hlo Hhi. set (D := Z.log2 mx + 1) in *. set (K := D - 53).
  pose proof (log2_bounds mx Hmx) as [Hl Hu]. fold D in Hu.
  assert (HK : exists p, K = Zpos p) by (exists (Z.to_pos K); unfold K; lia).
  destruct HK as [p Hp].
  set (q := mx / 2 ^ K).
  assert (Hq : 2 ^ 52 <= q < 2 ^ 53).
  { unfold q. split.
    - apply Z.div_le_lower_bound; [pow_side|]. rewrite <- Z.pow_add_r by lia.
      replace (K + 52) with (Z.log2 mx) by (unfold K, D; lia). lia.
    - apply Z.div_lt_upper_bound; [pow_side|]. rewrite <- Z.pow_add_r by lia.
      replace (K + 53) with D by (unfold K; lia). lia. }
  unfold binary_round_aux, shr_fexp. rewrite Zdigits2_log2 by done. fold D.
  unfold fexp, emin. replace (Z.max (D + ex - 53) (3 - 1024 - 53) - ex) with K by (unfold K; lia).
  rewrite Hp. cbn [shr shr_record_of_loc].
  destruct (iter_shr_m p {| shr_m := mx; shr_r := false; shr_s := false |}) as [Em _]; [simpl; lia|].
  simpl in Em. rewrite <- Hp in Em. fold q in Em.
  destruct (SpecFloat.iter_pos shr_1 p _) as [m1 r1 s1] eqn:Eit. simpl in Em |- *. subst m1. rewrite <- Hp.
  match goal with |- context [round_nearest_even q ?l] => destruct (rne_cases q l) as [ER|ER]; rewrite ER end.
  - exists (Z.to_pos q), (ex + K), q. rewrite Zdigits2_log2 by lia.
    rewrite (Z.log2_unique q 52) by lia.
    replace (Z.max (52 + 1 + (ex + K) - 53) (3 - 1024 - 53) - (ex + K)) with 0 by (unfold K, D in *; lia).
    cbn [shr shr_record_of_loc shr_m].
    replace (ex + K <=? 1024 - 53) with true by (symmetry; apply Z.leb_le; unfold K, D in *; lia).
    destruct q eqn:Eq; try lia. split; [done|]. split; [by left|]. unfold K, D. split; [lia|].
    replace (ex + (Z.log2 mx + 1 - 53) - (ex + Z.log2 mx + 1 - 53)) with 0 by lia. simpl. lia.
  - destruct (Z.eq_dec (q + 1) (2 ^ 53)) as [E53|N53].
    + exists (Z.to_pos (2 ^ 52)), (ex + K + 1), (q + 1). rewrite E53. vm_compute Zdigits2.
      replace (Z.max (54 + (ex + K) - 53) (3 - 1024 - 53) - (ex + K)) with 1 by (unfold K, D in *; lia).
      cbn [shr]. vm_compute SpecFloat.iter_pos. cbn [shr_m].
      replace (ex + K + 1 <=? 1024 - 53) with true by (symmetry; apply Z.leb_le; unfold K, D in *; lia).
      split; [reflexivity|]. split; [right; unfold K, D in *; lia|]. unfold K, D. split; [lia|].
      replace (ex + (Z.log2 mx + 1 - 53) + 1 - (ex + Z.log2 mx + 1 - 53)) with 1 by lia. reflexivity.
    + exists (Z.to_pos (q + 1)), (ex + K), (q + 1). rewrite Zdigits2_log2 by lia.
      rewrite (Z.log2_unique (q + 1) 52) by lia.
      replace (Z.max (52 + 1 + (ex + K) - 53) (3 - 1024 - 53) - (ex + K)) with 0 by (unfold K, D in *; lia).
      cbn [shr shr_record_of_loc shr_m].
      replace (ex + K <=? 1024 - 53) with true by (symmetry; apply Z.leb_le; unfold K, D in *; lia).
      destruct (q + 1) eqn:Eq; try lia. split; [done|]. split; [by right|]. unfold K, D. split; [lia|].
      replace (ex + (Z.log2 mx + 1 - 53) - (ex + Z.log2 mx + 1 - 53)) with 0 by lia. simpl. lia.
Qed.

(** A 53-bit mantissa is already rounded. *)
Lemma binary_round_aux_exact mx ex :
  2 ^ 52 <= mx < 2 ^ 53 -> -1074 <= ex <= 971 ->
  binary_round_aux 53 1024 false mx ex loc_Exact = S754_finite false (Z.to_pos mx) ex.
Proof.
  intros Hm He. unfold binary_round_aux, shr_fexp. rewrite Zdigits2_log2 by lia.
  rewrite (Z.log2_unique mx 52) by lia. unfold fexp, emin.
  replace (Z.max (52 + 1 + ex - 53) (3 - 1024 - 53) - ex) with 0 by lia. cbn [shr shr_record_of_loc shr_m].
  cbn [loc_of_shr_record round_nearest_even]. rewrite Zdigits2_log2 by lia.
  rewrite (Z.log2_unique mx 52) by lia.
  replace (Z.max (52 + 1 + ex - 53) (3 - 1024 - 53) - ex) with 0 by lia. cbn [shr shr_record_of_loc shr_m].
  replace (ex <=? 1024 - 53) with true by (symmetry; apply Z.leb_le; lia).
  destruct mx; [lia|done|lia].
Qed.

Lemma pos_iter_xO p d : Zpos (Pos.iter xO p d) = Zpos p * 2 ^ Zpos d.
Proof.
  induction d as [|d IH] using Pos.peano_ind; [simpl; lia|].
  rewrite Pos.iter_succ, Pos2Z.inj_xO, IH, Pos2Z.inj_succ, Z.pow_succ_r by lia. lia.
Qed.

(** [float(n)] is exact below [2^53]. *)
Lemma py_float_exact n :
  1 <= n < 2 ^ 53 ->
  py_float n = S754_finite false (Z.to_pos (n * 2 ^ (53 - (Z.log2 n + 1)))) (Z.log2 n + 1 - 53).
Proof.
  intros Hn. pose proof (log2_bounds n ltac:(lia)) as [Hl Hu].
  assert (Hlog : Z.log2 n < 53) by (apply Z.log2_lt_pow2; lia). pose proof (Z.log2_nonneg n).
  unfold py_float, binary_normalize. destruct n as [|p|p]; try lia.
  unfold binary_round, shl_align. rewrite digits2_pos_log2. unfold fexp, emin.
  replace (Z.max (Z.log2 (Z.pos p) + 1 + 0 - 53) (3 - 1024 - 53)) with (Z.log2 (Z.pos p) + 1 - 53) by lia.
  destruct (Z.log2 (Z.pos p) + 1 - 53 - 0) eqn:E.
  - replace (53 - (Z.log2 (Z.pos p) + 1)) with 0 by lia. rewrite Z.mul_1_r.
    replace (Z.log2 (Z.pos p) + 1 - 53) with 0 by lia.
    apply binary_round_aux_exact; [|lia]. split; [|lia].
    replace 52 with (Z.log2 (Z.pos p)) by lia. done.
  - lia.
  - assert (Hit : Z.pos (Pos.iter xO p p0) = Z.pos p * 2 ^ (53 - (Z.log2 (Z.pos p) + 1)))
      by (rewrite pos_iter_xO; do 2 f_equal; lia).
    rewrite Hit. apply binary_round_aux_exact; [|lia]. split.
    + transitivity (2 ^ Z.log2 (Z.pos p) * 2 ^ (53 - (Z.log2 (Z.pos p) + 1))).
      * rewrite <- Z.pow_add_r by lia. apply Z.pow_le_mono_r; lia.
      * apply Z.mul_le_mono_nonneg_r; [pow_side|lia].
    + apply (Z.lt_le_trans _ (2 ^ (Z.log2 (Z.pos p) + 1) * 2 ^ (53 - (Z.log2 (Z.pos p) + 1)))).
      * apply Z.mul_lt_mono_pos_r; [pow_side|lia].
      * rewrite <- Z.pow_add_r by lia. apply Z.pow_le_mono_r; lia.
Qed.

Lemma mant_bounds n : 1 <= n < 2 ^ 53 ->
  2 ^ 52 <= n * 2 ^ (53 - (Z.log2 n + 1)) < 2 ^ 53.
Proof.
  intros Hn. pose proof (log2_bounds n ltac:(lia)) as [Hl Hu].
  assert (Z.log2 n < 53) by (apply Z.log2_lt_pow2; lia). pose proof (Z.log2_nonneg n). split.
  - transitivity (2 ^ Z.log2 n * 2 ^ (53 - (Z.log2 n + 1))).
    + rewrite <- Z.pow_add_r by lia. apply Z.pow_le_mono_r; lia.
    + apply Z.mul_le_mono_nonneg_r; [pow_side|lia].
  - apply (Z.lt_le_trans _ (2 ^ (Z.log2 n + 1) * 2 ^ (53 - (Z.log2 n + 1)))).
    + apply Z.mul_lt_mono_pos_r; [pow_side|lia].
    + rewrite <- Z.pow_add_r by lia. apply Z.pow_le_mono_r; lia.
Qed.

(** [int(n * c)] for a double [c = cm * 2^-53] in [[0.5, 1)] is the floor
    of the exact product [n * c], or one more. *)
Lemma split_index_bounds n cm :
  1 <= n <= 2 ^ 50 -> 2 ^ 52 <= cm < 2 ^ 53 ->
  exists i, split_index n (S754_finite false (Z.to_pos cm) (-53)) = Ok i /\
    n * cm / 2 ^ 53 <= i <= n * cm / 2 ^ 53 + 1.
Proof.
  intros Hn Hcm. set (Dn := Z.log2 n + 1). set (mn := n * 2 ^ (53 - Dn)).
  assert (Hmn : 2 ^ 52 <= mn < 2 ^ 53) by (apply mant_bounds; lia).
  assert (HDn : Dn <= 51) by (assert (Z.log2 n <= 50) by (rewrite <- (Z.log2_pow2 50) by lia; apply Z.log2_le_mono; lia); unfold Dn; lia).
  pose proof (Z.log2_nonneg n).
  unfold split_index. rewrite py_float_exact by lia. fold Dn mn. unfold SFmul.
  set (P := mn * cm).
  assert (HP : Z.pos (Z.to_pos mn * Z.to_pos cm) = P) by (rewrite Pos2Z.inj_mul, !Z2Pos.id by lia; done).
  rewrite HP. cbn [xorb].
  assert (HlP : 104 <= Z.log2 P < 106).
  { split.
    - rewrite <- (Z.log2_pow2 104) by lia. apply Z.log2_le_mono.
      replace (2 ^ 104) with (2 ^ 52 * 2 ^ 52) by reflexivity. unfold P. nia.
    - apply Z.log2_lt_pow2; [unfold P; nia|].
      replace (2 ^ 106) with (2 ^ 53 * 2 ^ 53) by reflexivity. unfold P. nia. }
  destruct (binary_round_aux_spec P (Dn - 53 + -53)) as (m & e & R & Ebr & HR & He & Em);
    [unfold P; nia|lia|lia|lia|].
  rewrite Ebr. unfold py_int.
  set (e1 := Dn - 53 + -53 + Z.log2 P + 1 - 53) in *.
  replace (0 <=? e) with false by (symmetry; apply Z.leb_gt; lia).
  exists (R / 2 ^ (- e1)). split.
  - f_equal. rewrite <- Em.
    replace (2 ^ (- e1)) with (2 ^ (e - e1) * 2 ^ (- e)) by (rewrite <- Z.pow_add_r by lia; f_equal; lia).
    rewrite Z.mul_comm, Z.div_mul_cancel_l by pow_side. done.
  - assert (Hq : P / 2 ^ (Z.log2 P + 1 - 53) / 2 ^ (- e1) = n * cm / 2 ^ 53).
    { rewrite Z.div_div by pow_side. rewrite <- Z.pow_add_r by lia.
      replace (Z.log2 P + 1 - 53 + - e1) with ((53 - Dn) + 53) by lia.
      rewrite Z.pow_add_r by lia. unfold P, mn.
      replace (n * 2 ^ (53 - Dn) * cm) with (2 ^ (53 - Dn) * (n * cm)) by ring.
      apply Z.div_mul_cancel_l; pow_side. }
    destruct HR as [-> | ->]; [lia|]. split.
    + rewrite <- Hq. apply Z.div_le_mono; [pow_side|lia].
    + rewrite <- Hq. transitivity ((P / 2 ^ (Z.log2 P + 1 - 53) + 1 * 2 ^ (- e1)) / 2 ^ (- e1)).
      * apply Z.div_le_mono; [pow_side|]. assert (1 <= 2 ^ (- e1)) by (replace 1 with (2 ^ 0) by reflexivity; apply Z.pow_le_mono_r; lia). lia.
      * rewrite Z.div_add by pow_side. lia.
Qed.

Lemma split_ok_range n : (4 <= n <= split_bound)%Z -> split_ok n = true.
Proof.
  unfold split_bound. intros Hn. destruct (Z_lt_le_dec n 14) as [Hs|Hb].
  - assert (n = 4 \/ n = 5 \/ n = 6 \/ n = 7 \/ n = 8 \/ n = 9 \/ n = 10 \/ n = 11 \/ n = 12 \/ n = 13) as Hc by lia.
    repeat destruct Hc as [->|Hc]; try (subst; vm_compute; reflexivity).
  - unfold split_ok.
    destruct (split_index_bounds n 6305039478318694) as (i1 & E1 & B1); [lia|lia|].
    destruct (split_index_bounds n 7656119366529843) as (i2 & E2 & B2); [lia|lia|].
    unfold f070, f085. change (Z.to_pos 6305039478318694) with 6305039478318694%positive in E1.
    change (Z.to_pos 7656119366529843) with 7656119366529843%positive in E2.
    rewrite E1, E2. change (2 ^ 53) with 9007199254740992 in B1, B2.
    apply andb_true_iff; split; [apply andb_true_iff; split|]; [apply Z.leb_le|apply Z.ltb_lt|apply Z.ltb_lt]; Z.div_mod_to_equations; lia.
Qed.


Lemma iloc_nth l i x :
  (0 <= i)%Z -> nth_error l (Z.to_nat i) = Some x -> iloc l i = Ok x.
Proof.
  intros Hi Hx. pose proof (nth_error_Some l (Z.to_nat i)) as [Hl _]. rewrite Hx in Hl.
  specialize (Hl ltac:(done)). unfold iloc.
  destruct (Z.ltb_spec i 0); [lia|]. rewrite (proj2 (Z.leb_le _ _)), (proj2 (Z.ltb_lt _ _)) by lia.
  by rewrite Hx.
Qed.

Lemma iloc_in l i : (0 <= i < Z.of_nat (length l))%Z ->
  exists x, nth_error l (Z.to_nat i) = Some x /\ iloc l i = Ok x.
Proof.
  intros Hi. destruct (nth_error l (Z.to_nat i)) as [x|] eqn:E.
  - exists x. split; [done|]. apply iloc_nth; [lia|done].
  - apply nth_error_None in E. lia.
Qed.

Lemma iloc_last l : l <> [] -> iloc l (-1) = iloc l (Z.of_nat (length l) - 1).
Proof.
  intros Hne. destruct l as [|x l]; [done|]. unfold iloc. simpl length.
  destruct (Z.ltb_spec (-1) 0); [|lia]. destruct (Z.ltb_spec (Z.of_nat (S (length l)) - 1) 0); [lia|].
  f_equal.
Qed.

Lemma sorted_nth_lt (l : list Z) i j a b :
  StronglySorted Z.lt l -> nth_error l i = Some a -> nth_error l j = Some b -> (i < j)%nat -> (a < b)%Z.
Proof.
  intros Hs. revert i j. induction Hs as [|x l Hs IH Hall]; intros [|i] [|j] Ha Hb Hij; try done; try lia.
  - simpl in *. injection Ha as <-. apply nth_error_In in Hb.
    by eapply List.Forall_forall in Hall; [|exact Hb].
  - simpl in *. apply (IH i j); [done|done|lia].
Qed.

Lemma sorted_nth_le (l : list Z) i j a b :
  StronglySorted Z.lt l -> nth_error l i = Some a -> nth_error l j = Some b -> (i <= j)%nat -> (a <= b)%Z.
Proof.
  intros Hs Ha Hb Hij. destruct (Nat.eq_dec i j) as [->|Hne].
  - rewrite Ha in Hb. injection Hb as ->. lia.
  - assert (a < b)%Z by (apply (sorted_nth_lt l i j); auto; lia). lia.
Qed.

(** C19: on a strictly increasing timestamp column of 4 to [split_bound]
    rows, the split boundaries are ordered:
    [train.start <= train.end < val.start <= val.end < test.start <= test.end],
    each partition non-empty and the three covering the rows. *)
Theorem make_splits_ordered (ts : list Z) :
  StronglySorted Z.lt ts -> (4 <= Z.of_nat (length ts) <= split_bound)%Z ->
  exists m, make_splits ts = Ok m /\
    (train_start m <= train_end m /\ train_end m < val_start m /\ val_start m <= val_end m /\
     val_end m < test_start m /\ test_start m <= test_end m)%Z.
Proof.
  intros Hs Hn. pose proof (split_ok_range _ Hn) as Hok. unfold split_ok in Hok.
  unfold make_splits. set (n := Z.of_nat (length ts)) in *.
  destruct (split_index n f070) as [i1|] eqn:E1; [|done].
  destruct (split_index n f085) as [i2|] eqn:E2; [|done]. simpl.
  apply andb_true_iff in Hok as [Hok Hi2]. apply andb_true_iff in Hok as [Hi1 Hi12].
  apply Z.leb_le in Hi1. apply Z.ltb_lt in Hi12, Hi2.
  destruct (iloc_in ts 0) as (a & Na & ->); [lia|].
  destruct (iloc_in ts (i1 - 1)) as (b & Nb & ->); [lia|].
  destruct (iloc_in ts i1) as (c & Nc & ->); [lia|].
  destruct (iloc_in ts (i2 - 1)) as (d & Nd & ->); [lia|].
  destruct (iloc_in ts i2) as (e & Ne & ->); [lia|].
  rewrite iloc_last by (intros ->; simpl in n; lia).
  destruct (iloc_in ts (Z.of_nat (length ts) - 1)) as (f & Nf & ->); [lia|]. simpl.
  eexists. split; [reflexivity|]. simpl.
  repeat split;
    [eapply (sorted_nth_le ts _ _ a b) | eapply (sorted_nth_lt ts _ _ b c) | eapply (sorted_nth_le ts _ _ c d)
    | eapply (sorted_nth_lt ts _ _ d e) | eapply (sorted_nth_le ts _ _ e f)]; eauto; lia.
Qed.

(** C20: on 1 to 3 rows the split boundaries are out of order (with
    [int(n * 0.70) = 0] the train end is [iloc[-1]], the last row; with
    [i1 = i2] the validation range is empty and [val.start > val.end]);
    on 0 rows [main] raises [IndexError]. *)
Theorem make_splits_small (ts : list Z) :
  StronglySorted Z.lt ts -> (length ts <= 3)%nat ->
  (ts = [] /\ make_splits ts = Err IndexError) \/
  (exists m, make_splits ts = Ok m /\ ~ (train_end m < val_start m /\ val_start m <= val_end m)%Z).
Proof.
  intros Hs Hl. destruct ts as [|a [|b [|c [|d ts]]]]; simpl in Hl; try lia.
  - left. split; [done|]. vm_compute. reflexivity.
  - right. exists (mk_splits a a a a a a). split; [vm_compute; reflexivity|]. simpl. lia.
  - right. exists (mk_splits a a b a b b). split; [vm_compute; reflexivity|]. simpl.
    invc Hs. invc H2. lia.
  - right. exists (mk_splits a b c b c c). split; [vm_compute; reflexivity|]. simpl.
    invc Hs. invc H1. invc H2. lia.
Qed.

(** [int(n * 0.70)] is not [floor(7n/10)]: on 90 rows the training
    partition has 62 rows, not 63, because [90 * 0.70] is
    [62.99999999999999] in binary64. *)
Example split_index_90 : split_index 90 f070 = Ok 62%Z /\ (90 * 7 / 10 = 63)%Z.
Proof. split; vm_compute; reflexivity. Qed.

(** C28: [int(n * 0.70)] and [int(n * 0.85)] in binary64 are each the
    floor of the exact product of [n] and the double the literal denotes,
    or one more, for every [n] from 1 to [2^50]. *)
Theorem split_index_floor n :
  (1 <= n <= split_bound)%Z ->
  exists i1 i2, split_index n f070 = Ok i1 /\ split_index n f085 = Ok i2 /\
    (n * 6305039478318694 / 2 ^ 53 <= i1 <= n * 6305039478318694 / 2 ^ 53 + 1)%Z /\
    (n * 7656119366529843 / 2 ^ 53 <= i2 <= n * 7656119366529843 / 2 ^ 53 + 1)%Z.
Proof.
  unfold split_bound. intros Hn.
  destruct (split_index_bounds n 6305039478318694) as (i1 & E1 & B1); [lia|lia|].
  destruct (split_index_bounds n 7656119366529843) as (i2 & E2 & B2); [lia|lia|].
  by exists i1, i2.
Qed.

(** ** Witnesses *)

Lemma make_splits_ordered_witness :
  exists m, make_splits [0; 1; 2; 3; 4; 5; 6; 7; 8; 9]%Z = Ok m /\
    (train_start m <= train_end m /\ train_end m < val_start m /\ val_start m <= val_end m /\
     val_end m < test_start m /\ test_start m <= test_end m)%Z.
Proof.
  apply make_splits_ordered.
  - repeat (constructor || lia).
  - unfold split_bound. simpl. lia.
Defined.

Lemma make_splits_small_witness :
  ([1; 2]%Z = [] /\ make_splits [1; 2]%Z = Err IndexError) \/
  (exists m, make_splits [1; 2]%Z = Ok m /\ ~ (train_end m < val_start m /\ val_start m <= val_end m)%Z).
Proof.
  apply make_splits_small; [repeat (constructor || lia)|simpl; lia].
Defined.

Lemma split_index_floor_witness :
  exists i1 i2, split_index 90 f070 = Ok i1 /\ split_index 90 f085 = Ok i2 /\
    (90 * 6305039478318694 / 2 ^ 53 <= i1 <= 90 * 6305039478318694 / 2 ^ 53 + 1)%Z /\
    (90 * 7656119366529843 / 2 ^ 53 <= i2 <= 90 * 7656119366529843 / 2 ^ 53 + 1)%Z.
Proof. apply split_index_floor. unfold split_bound. lia. Defined.
