(* ===== verification/FixGaps.v ===== *)
(** * Gap regularizer: [src/data_pipeline/fix_gaps.py]

    [fix_hourly_gaps] is modelled statement by statement on the row list of
    [Frame]: sort by timestamp, the hourly [date_range] over [min, max],
    [set_index(...).reindex(full_index)] (NaN rows for absent ticks, a
    [ValueError] when the index has duplicate labels), the NaN count of the
    [close] column, then the column assignments in the code's order:
    [close] forward-filled, [open]/[high]/[low] filled from the new close,
    [volume] filled with 0.  A row-by-row reference definition
    [regularize_rows] is proved equal to the column-wise code
    ([fix_hourly_gaps_refines]); the grid, fill and count theorems are
    proved on it. *)

From S2P Require Import Prelude Frame.

Section FixGaps.
Context {F : Type} `{FloatOrd F}.
Implicit Types (r : candle (option F)) (df : list (candle (option F))).

Definition nan_row (t : Z) : candle (option F) := mk_candle t None None None None None.

(** [df.set_index("timestamp_utc").reindex(full_index)]. *)
Definition reindex df (idx : list Z) : result (list (candle (option F))) :=
  if bool_decide (NoDup (ts_col df)) then
    Ok (map (fun t => match lookup_ts df t with Some r => r | None => nan_row t end) idx)
  else Err ValueError.

(** [Series.ffill()]: each NaN takes the last non-NaN value above it. *)
Fixpoint ffill_from (last : option F) (col : list (option F)) : list (option F) :=
  match col with
  | [] => []
  | x :: xs => let v := fillna1 x last in v :: ffill_from v xs
  end.

Definition ffill (col : list (option F)) : list (option F) := ffill_from None col.

(** Column assignment [df[c] = col]. *)
Definition set_open r v := mk_candle (timestamp_utc r) v (high r) (low r) (close r) (volume r).
Definition set_high r v := mk_candle (timestamp_utc r) (open r) v (low r) (close r) (volume r).
Definition set_low r v := mk_candle (timestamp_utc r) (open r) (high r) v (close r) (volume r).
Definition set_close r v := mk_candle (timestamp_utc r) (open r) (high r) (low r) v (volume r).
Definition set_volume r v := mk_candle (timestamp_utc r) (open r) (high r) (low r) (close r) v.

Definition assign (set : candle (option F) -> option F -> candle (option F)) df
    (col : list (option F)) : list (candle (option F)) :=
  zip_with set df col.

(** [for c in ["open", "high", "low"]: df[c] = df[c].fillna(df["close"])] *)
Definition fill_from_close (get : candle (option F) -> option F)
    (set : candle (option F) -> option F -> candle (option F)) df :=
  assign set df (zip_with fillna1 (map get df) (map close df)).

(** Lines 24-32 of the function: the fills, in the code's order.  The
    parameter [last] is the value [ffill] starts from ([None] in the
    code); it lets the equivalence with [fill_rows] be proved by
    induction. *)
Definition fill_columns_from (last : option F) df : list (candle (option F)) :=
  let df := assign set_close df (ffill_from last (map close df)) in
  let df := fill_from_close open set_open df in
  let df := fill_from_close high set_high df in
  let df := fill_from_close low set_low df in
  assign set_volume df (map (fun v => fillna1 v (Some fzero)) (map volume df)).

Definition fill_columns df := fill_columns_from None df.

Definition fix_hourly_gaps df : result (list (candle (option F)) * nat) :=
  let df := sort_values df in
  match df with
  | [] => Err ValueError
  | _ =>
      let start := ts_min df in
      let end_ := ts_max df in
      let? df := reindex df (date_range start end_ hour_ms) in
      let missing := count_if isna (map close df) in
      Ok (fill_columns df, missing)
  end.

(** ** Row-by-row reference *)

Definition reindexed_row df (t : Z) : candle (option F) :=
  match lookup_ts df t with Some r => r | None => nan_row t end.

Definition fill_row (last : option F) r : candle (option F) :=
  let c := fillna1 (close r) last in
  mk_candle (timestamp_utc r) (fillna1 (open r) c) (fillna1 (high r) c) (fillna1 (low r) c) c
    (fillna1 (volume r) (Some fzero)).

Fixpoint fill_rows (last : option F) df : list (candle (option F)) :=
  match df with
  | [] => []
  | r :: rs => let r' := fill_row last r in r' :: fill_rows (close r') rs
  end.

Definition grid df : list Z :=
  match df with
  | [] => []
  | _ => date_range (ts_min df) (ts_max df) hour_ms
  end.

Definition regularize_rows df : list (candle (option F)) :=
  fill_rows None (map (reindexed_row df) (grid df)).

(** A row none of whose cells is NaN. *)
Definition row_defined r : bool :=
  negb (isna (open r)) && negb (isna (high r)) && negb (isna (low r)) &&
  negb (isna (close r)) && negb (isna (volume r)).

(** No NaN in the [close] column. *)
Definition closes_defined df : bool := forallb (fun r => negb (isna (close r))) df.
End FixGaps.

(** ** Concrete tables of the examples (prices in [Q]) *)

Definition demo_candle (h : Z) (p : Q) : candle (option Q) :=
  mk_candle (h * hour_ms) (Some p) (Some p) (Some p) (Some p) (Some 1%Q).

Definition demo_flat (h : Z) (p : Q) : candle (option Q) :=
  mk_candle (h * hour_ms) (Some p) (Some p) (Some p) (Some p) (Some 0%Q).

(** The scenario of section 8 of the specification: hourly rows at 00:00,
    01:00, 04:00 and 05:00 with closes 100, 101, 104, 105, stored unsorted. *)
Definition demo_gappy : list (candle (option Q)) :=
  [demo_candle 5 105; demo_candle 0 100; demo_candle 1 101; demo_candle 4 104].

(** A row at 01:30, off the hourly grid that starts at 00:00. *)
Definition demo_offgrid : list (candle (option Q)) :=
  [demo_candle 0 100; mk_candle 5400000 (Some 1%Q) (Some 1%Q) (Some 1%Q) (Some 1%Q) (Some 1%Q)].

Section FixGapsProofs.
Context {F : Type} `{FloatOrd F}.
Implicit Types (r : candle (option F)) (df : list (candle (option F))).

(** The column-wise fills of the code compute [fill_rows]. *)
Lemma fill_columns_from_rows last df : fill_columns_from last df = fill_rows last df.
Proof.
  unfold fill_columns_from. revert last.
  induction df as [|r rs IH]; intros last; [done|].
  simpl. f_equal. apply IH.
Qed.

Lemma fill_columns_rows df : fill_columns df = fill_rows None df.
Proof. apply fill_columns_from_rows. Qed.

Lemma grid_perm df df' : Permutation df df' -> grid df = grid df'.
Proof.
  intros Hp. unfold grid. rewrite (ts_min_perm _ _ Hp), (ts_max_perm _ _ Hp).
  destruct df, df'; try done.
  - by apply Permutation_nil_cons in Hp.
  - symmetry in Hp. by apply Permutation_nil_cons in Hp.
Qed.

Lemma reindex_ok df idx :
  NoDup (ts_col df) -> reindex df idx = Ok (map (reindexed_row df) idx).
Proof. intros Hnd. unfold reindex. by rewrite bool_decide_eq_true_2. Qed.

(** The code computes the row-by-row reference, and [missing] is the
    number of NaN closes after the reindex. *)
Lemma fix_hourly_gaps_rows df :
  NoDup (ts_col df) -> df <> [] ->
  fix_hourly_gaps df =
    Ok (regularize_rows df, count_if isna (map close (map (reindexed_row df) (grid df)))).
Proof.
  intros Hnd Hne. unfold fix_hourly_gaps, regularize_rows.
  pose proof (sort_values_perm df) as Hp.
  assert (NoDup (ts_col (sort_values df))) as Hnd'
    by (by rewrite <- (Permutation_map timestamp_utc Hp)).
  rewrite (grid_perm _ _ Hp).
  rewrite (map_ext (reindexed_row df) (reindexed_row (sort_values df)))
    by (intros t; unfold reindexed_row; by rewrite (lookup_ts_perm df (sort_values df) t Hnd Hp)).
  rewrite <- fill_columns_rows. unfold grid.
  destruct (sort_values df) as [|r rs] eqn:E.
  - exfalso. apply Hne. apply Permutation_nil. by apply Permutation_sym.
  - by rewrite reindex_ok.
Qed.
End FixGapsProofs.

Section FixGapsGrid.
Context {F : Type} `{FloatOrd F}.
Implicit Types (r : candle (option F)) (df : list (candle (option F))).

Lemma fill_rows_ts last df : ts_col (fill_rows last df) = ts_col df.
Proof. revert last. induction df as [|r rs IH]; intros last; simpl; [done|]. by rewrite IH. Qed.

Lemma reindexed_row_ts df t : timestamp_utc (reindexed_row df t) = t.
Proof.
  unfold reindexed_row. destruct (lookup_ts df t) as [r|] eqn:E; [|done].
  by apply lookup_ts_Some in E as [_ ->].
Qed.

Lemma regularize_rows_ts df : ts_col (regularize_rows df) = grid df.
Proof.
  unfold regularize_rows. rewrite fill_rows_ts, map_map.
  rewrite (map_ext _ id) by apply reindexed_row_ts. apply map_id.
Qed.

Lemma grid_nonempty df : df <> [] -> grid df = date_range (ts_min df) (ts_max df) hour_ms.
Proof. by destruct df. Qed.

Lemma ts_min_le_max df : df <> [] -> ts_min df <= ts_max df.
Proof.
  intros Hne. destruct (ts_min_spec df Hne) as [Hin _].
  apply in_map_iff in Hin as (r & <- & Hr). by apply ts_max_ge.
Qed.

Lemma grid_In df t :
  df <> [] -> In t (grid df) <->
    ts_min df <= t <= ts_max df /\ (t - ts_min df) mod hour_ms = 0.
Proof. intros Hne. rewrite grid_nonempty by done. apply date_range_In. unfold hour_ms. lia. Qed.

Lemma fix_hourly_gaps_out df out m :
  NoDup (ts_col df) -> fix_hourly_gaps df = Ok (out, m) -> df <> [] /\ out = regularize_rows df.
Proof.
  intros Hnd Hfix. destruct df as [|r rs]; [done|].
  rewrite fix_hourly_gaps_rows in Hfix by done. by injection Hfix as <- _.
Qed.

Lemma regularize_rows_grid df :
  NoDup (ts_col df) -> df <> [] ->
  ts_col (regularize_rows df) = date_range (ts_min df) (ts_max df) hour_ms /\
  length (regularize_rows df) = S (Z.to_nat ((ts_max df - ts_min df) / hour_ms)) /\
  strictly_sorted (regularize_rows df).
Proof.
  intros Hnd Hne.
  assert (ts_col (regularize_rows df) = date_range (ts_min df) (ts_max df) hour_ms) as Hts
    by (rewrite regularize_rows_ts; by apply grid_nonempty).
  split; [done|split].
  - rewrite <- (length_map timestamp_utc), Hts.
    pose proof (ts_min_le_max df Hne). apply date_range_length; unfold hour_ms; lia.
  - apply strictly_sorted_ts. rewrite Hts. apply date_range_strictly_sorted. unfold hour_ms. lia.
Qed.

(** C2: grid completeness.  The output timestamps are exactly the hourly
    ticks [min + k*hour] in [[min, max]] of the input timestamps, strictly
    increasing, one row per tick: [(max - min) / hour + 1] rows. *)
Theorem fix_hourly_gaps_grid df out m :
  NoDup (ts_col df) -> fix_hourly_gaps df = Ok (out, m) ->
  ts_col out = date_range (ts_min df) (ts_max df) hour_ms /\
  length out = S (Z.to_nat ((ts_max df - ts_min df) / hour_ms)) /\
  strictly_sorted out.
Proof.
  intros Hnd Hfix. apply fix_hourly_gaps_out in Hfix as [Hne ->]; [|done].
  by apply regularize_rows_grid.
Qed.
End FixGapsGrid.

Section FixGapsFill.
Context {F : Type} `{FloatOrd F}.
Implicit Types (r : candle (option F)) (df : list (candle (option F))).

Lemma fill_row_defined last r : row_defined r = true -> fill_row last r = r.
Proof. destruct r as [t [o|] [h|] [l|] [c|] [v|]]; by try discriminate. Qed.

Lemma fill_rows_In last L r : In r L -> row_defined r = true -> In r (fill_rows last L).
Proof.
  revert last. induction L as [|x xs IH]; intros last Hin Hd; [done|].
  destruct Hin as [<-|Hr]; simpl.
  - left. by apply fill_row_defined.
  - right. by apply IH.
Qed.

Lemma reindexed_row_In df r : NoDup (ts_col df) -> In r df -> reindexed_row df (timestamp_utc r) = r.
Proof. intros Hnd Hr. unfold reindexed_row. by rewrite lookup_ts_In. Qed.

Lemma reindexed_row_absent df t : ~ In t (ts_col df) -> reindexed_row df t = nan_row t.
Proof. intros Hn. unfold reindexed_row. by rewrite (proj2 (lookup_ts_None df t) Hn). Qed.

Lemma fill_rows_nth last L k r' :
  nth_error (fill_rows last L) (S k) = Some r' ->
  exists p x, nth_error (fill_rows last L) k = Some p /\ nth_error L (S k) = Some x /\
    r' = fill_row (close p) x.
Proof.
  revert last k. induction L as [|x xs IH]; intros last k Hn; [done|].
  destruct xs as [|y ys]; [by destruct k|].
  destruct k as [|k].
  - simpl in Hn. injection Hn as <-. by exists (fill_row last x), y.
  - apply (IH _ k) in Hn as (p & z & Hp & Hz & ->). by exists p, z.
Qed.

(** rows present in the input with no NaN cell, whose timestamp lies a
    whole number of hours after the first one, are kept unchanged. *)
Theorem fix_hourly_gaps_keeps_rows df out m r :
  NoDup (ts_col df) -> fix_hourly_gaps df = Ok (out, m) -> In r df ->
  row_defined r = true -> (timestamp_utc r - ts_min df) mod hour_ms = 0 -> In r out.
Proof.
  intros Hnd Hfix Hr Hd Hmod. apply fix_hourly_gaps_out in Hfix as [Hne ->]; [|done].
  apply fill_rows_In; [|done].
  rewrite <- (reindexed_row_In df r) by done. apply in_map, grid_In; [done|].
  pose proof (ts_min_le df r Hr). pose proof (ts_max_ge df r Hr). lia.
Qed.

(** C13: an input row whose timestamp is not on the hourly grid of the first
    timestamp is silently dropped: its timestamp is absent from the output. *)
Theorem fix_hourly_gaps_drops_offgrid df out m r :
  NoDup (ts_col df) -> fix_hourly_gaps df = Ok (out, m) -> In r df ->
  (timestamp_utc r - ts_min df) mod hour_ms <> 0 -> ~ In (timestamp_utc r) (ts_col out).
Proof.
  intros Hnd Hfix Hr Hmod Hin. apply fix_hourly_gaps_out in Hfix as [Hne ->]; [|done].
  destruct (regularize_rows_grid df Hnd Hne) as [Hts _].
  rewrite Hts in Hin. apply date_range_In in Hin as [_ ?]; [done|unfold hour_ms; lia].
Qed.

(** C3: flat fill.  A row synthesized for an absent tick is the flat candle
    [open = high = low = close] = the previous row's close, volume 0. *)
Theorem fix_hourly_gaps_flat df out m k r' :
  NoDup (ts_col df) -> fix_hourly_gaps df = Ok (out, m) ->
  nth_error out (S k) = Some r' -> ~ In (timestamp_utc r') (ts_col df) ->
  exists p, nth_error out k = Some p /\
    r' = mk_candle (timestamp_utc r') (close p) (close p) (close p) (close p) (Some fzero).
Proof.
  intros Hnd Hfix Hk Hn. apply fix_hourly_gaps_out in Hfix as [_ ->]; [|done].
  unfold regularize_rows in *. apply fill_rows_nth in Hk as Hk'.
  destruct Hk' as (p & x & Hp & Hx & ->). exists p. split; [done|].
  rewrite nth_error_map in Hx. destruct (nth_error (grid df) (S k)) as [t|]; [|done].
  injection Hx as <-.
  simpl in Hn. rewrite reindexed_row_ts in Hn. by rewrite reindexed_row_absent.
Qed.
End FixGapsFill.

Section FixGapsCount.
Context {F : Type} `{FloatOrd F}.
Implicit Types (r : candle (option F)) (df : list (candle (option F))).

Lemma closes_defined_spec df : closes_defined df = true <-> Forall (fun r => close r <> None) df.
Proof.
  unfold closes_defined. rewrite forallb_forall, List.Forall_forall.
  split; intros Hall r Hr; specialize (Hall r Hr); by destruct (close r).
Qed.

Lemma reindexed_close_isna df t :
  closes_defined df = true ->
  isna (close (reindexed_row df t)) = negb (existsb (Z.eqb t) (ts_col df)).
Proof.
  intros Hc%closes_defined_spec. unfold reindexed_row. destruct (lookup_ts df t) as [r|] eqn:E.
  - apply lookup_ts_Some in E as [Hr <-].
    rewrite (proj2 (existsb_Zeqb_In _ _)) by (by apply in_map).
    eapply List.Forall_forall in Hc; [|exact Hr]. by destruct (close r).
  - apply lookup_ts_None in E. destruct (existsb _ _) eqn:Ex; [|done].
    by apply existsb_Zeqb_In in Ex.
Qed.

(** C4: [missing] counts exactly the grid ticks with no input row, when the
    input has no NaN close. *)
Theorem fix_hourly_gaps_missing df out m :
  NoDup (ts_col df) -> closes_defined df = true -> fix_hourly_gaps df = Ok (out, m) ->
  m = count_if (fun t => negb (existsb (Z.eqb t) (ts_col df))) (ts_col out).
Proof.
  intros Hnd Hc Hfix. destruct df as [|r0 rs]; [done|].
  rewrite fix_hourly_gaps_rows in Hfix by done. injection Hfix as <- <-.
  rewrite regularize_rows_ts, !count_if_map. apply count_if_ext.
  intros t _. by apply reindexed_close_isna.
Qed.

(** C11: error paths.  The code raises [ValueError] exactly on an empty
    table ([date_range] of [NaT]) or on duplicate timestamps ([reindex]
    on an index with duplicate labels). *)
Theorem fix_hourly_gaps_error df :
  df = [] \/ ~ NoDup (ts_col df) <-> fix_hourly_gaps df = Err ValueError.
Proof.
  split.
  - intros [->|Hdup]; [done|]. unfold fix_hourly_gaps.
    pose proof (Permutation_map timestamp_utc (sort_values_perm df)) as Hp.
    destruct (sort_values df) as [|c l] eqn:E; [done|].
    unfold reindex. rewrite bool_decide_eq_false_2; [done|].
    intros Hnd. apply Hdup. by rewrite Hp.
  - intros Herr. destruct (decide (NoDup (ts_col df))) as [Hnd|]; [|by right].
    destruct df as [|r rs]; [by left|].
    by rewrite fix_hourly_gaps_rows in Herr.
Qed.

Lemma fill_row_idem last r : fill_row last (fill_row last r) = fill_row last r.
Proof. destruct r as [t [o|] [h|] [l|] [c|] [v|]], last; done. Qed.

Lemma fill_rows_idem last L : fill_rows last (fill_rows last L) = fill_rows last L.
Proof.
  revert last. induction L as [|x xs IH]; intros last; [done|].
  simpl. rewrite fill_row_idem. f_equal. destruct (close x), last; apply IH.
Qed.

Lemma fill_rows_closes last L : last <> None -> closes_defined (fill_rows last L) = true.
Proof.
  intros Hl. apply closes_defined_spec. revert last Hl.
  induction L as [|x xs IH]; intros last Hl; simpl; constructor.
  - simpl. by destruct (close x).
  - apply IH. simpl. by destruct (close x).
Qed.

Lemma regularize_rows_closes df :
  NoDup (ts_col df) -> df <> [] -> closes_defined df = true -> closes_defined (regularize_rows df) = true.
Proof.
  intros Hnd Hne Hc%closes_defined_spec. apply closes_defined_spec.
  unfold regularize_rows. rewrite grid_nonempty by done.
  destruct (date_range_cons (ts_min df) (ts_max df) hour_ms (ts_min_le_max df Hne)) as [rest ->].
  destruct (ts_min_spec df Hne) as [Hin _].
  apply in_map_iff in Hin as (r & Hr0 & Hr). rewrite <- Hr0. cbn [map fill_rows].
  rewrite (reindexed_row_In df r) by done.
  eapply List.Forall_forall in Hc; [|exact Hr].
  constructor; simpl.
  - by destruct (close r).
  - apply closes_defined_spec, fill_rows_closes. by destruct (close r).
Qed.

Lemma grid_regularize df :
  df <> [] -> grid (regularize_rows df) = ts_col (regularize_rows df).
Proof.
  intros Hne.
  assert (ts_col (regularize_rows df) = date_range (ts_min df) (ts_max df) hour_ms) as Hts
    by (rewrite regularize_rows_ts; by apply grid_nonempty).
  assert (0 < hour_ms) as Hh by (unfold hour_ms; lia).
  pose proof (ts_min_le_max df Hne) as Hle.
  destruct (date_range_bounds _ _ _ Hh Hle) as (Hlo & Hhi & Hall).
  assert (regularize_rows df <> []) as Hne'.
  { intros E. rewrite <- Hts, E in Hlo. done. }
  rewrite grid_nonempty by done.
  rewrite (ts_min_char _ (ts_min df)), (ts_max_char _ (ts_min df + (ts_max df - ts_min df) / hour_ms * hour_ms));
    rewrite ?Hts; try done.
  - by rewrite date_range_last_tick.
  - eapply Forall_impl; [exact Hall|]. simpl; lia.
  - eapply Forall_impl; [exact Hall|]. simpl; lia.
Qed.

(** C12: idempotence.  On an input with unique timestamps and no NaN
    close, regularizing the output of the regularizer gives it back
    unchanged, with no missing tick. *)
Theorem fix_hourly_gaps_idempotent df out m :
  NoDup (ts_col df) -> closes_defined df = true -> fix_hourly_gaps df = Ok (out, m) ->
  fix_hourly_gaps out = Ok (out, 0%nat).
Proof.
  intros Hnd Hc Hfix. apply fix_hourly_gaps_out in Hfix as [Hne ->]; [|done].
  destruct (regularize_rows_grid df Hnd Hne) as (_ & Hlen & Hss).
  pose proof (strictly_sorted_NoDup _ Hss) as Hnd'.
  assert (regularize_rows df <> []) as Hne' by (intros E; rewrite E in Hlen; discriminate).
  assert (map (reindexed_row (regularize_rows df)) (grid (regularize_rows df)) = regularize_rows df) as Hmap.
  { rewrite grid_regularize, map_map by done.
    rewrite (map_ext_in _ id); [apply map_id|]. intros r Hr. by apply reindexed_row_In. }
  rewrite fix_hourly_gaps_rows by done. rewrite Hmap. f_equal. f_equal.
  - change (fill_rows None (map (reindexed_row (regularize_rows df)) (grid (regularize_rows df)))
      = regularize_rows df).
    rewrite Hmap. apply fill_rows_idem.
  - apply count_if_false. intros c (r & <- & Hr)%in_map_iff.
    pose proof (regularize_rows_closes df Hnd Hne Hc) as Hcl%closes_defined_spec.
    eapply List.Forall_forall in Hcl; [|exact Hr]. by destruct (close r).
Qed.

(** C1: refinement.  [fix_hourly_gaps] succeeds exactly on non-empty
    tables with unique timestamps, and then returns the row-by-row
    reference [regularize_rows] (each grid tick's row, or a NaN row,
    filled from the previous close) with [missing] the number of NaN
    closes after the reindex. *)
Theorem fix_hourly_gaps_spec df out m :
  fix_hourly_gaps df = Ok (out, m) <->
  NoDup (ts_col df) /\ df <> [] /\ out = regularize_rows df /\
  m = count_if isna (map close (map (reindexed_row df) (grid df))).
Proof.
  split.
  - intros Hfix. destruct (decide (NoDup (ts_col df))) as [Hnd|Hdup].
    + destruct df as [|r rs]; [done|].
      rewrite fix_hourly_gaps_rows in Hfix by done. by injection Hfix as <- <-.
    + by rewrite (proj1 (fix_hourly_gaps_error df) (or_intror Hdup)) in Hfix.
  - intros (Hnd & Hne & -> & ->). by apply fix_hourly_gaps_rows.
Qed.
End FixGapsCount.

(** ** The regularized table row by row *)

Section FixGapsNext.
Context {F : Type} `{FloatOrd F}.
Implicit Types (df : list (candle (option F))).

Lemma regularize_rows_props df :
  NoDup (ts_col df) -> df <> [] ->
  strictly_sorted (regularize_rows df) /\ regularize_rows df <> [] /\
  grid (regularize_rows df) = ts_col (regularize_rows df).
Proof.
  intros Hnd Hne.
  destruct (regularize_rows_grid df Hnd Hne) as (_ & Hlen & Hss).
  split; [done|split; [by intros E; rewrite E in Hlen|]]. by apply grid_regularize.
Qed.

Lemma regularize_rows_next df t r r' :
  NoDup (ts_col df) -> df <> [] ->
  nth_error (regularize_rows df) t = Some r -> nth_error (regularize_rows df) (S t) = Some r' ->
  timestamp_utc r' = timestamp_utc r + hour_ms.
Proof.
  intros Hnd Hne Hr Hr'. destruct (regularize_rows_grid df Hnd Hne) as (Hts & Hlen & _).
  assert (Hlt : (S t < length (regularize_rows df))%nat) by (apply nth_error_Some; by rewrite Hr').
  pose proof (ts_min_le_max df Hne) as Hle.
  assert (E : forall k r0, (k < length (regularize_rows df))%nat -> nth_error (regularize_rows df) k = Some r0 ->
            timestamp_utc r0 = ts_min df + Z.of_nat k * hour_ms).
  { intros k r0 Hk Hk0. assert (Hn : nth_error (ts_col (regularize_rows df)) k = Some (timestamp_utc r0))
      by (by rewrite nth_error_map, Hk0). rewrite Hlen in Hk. rewrite Hts, date_range_nth in Hn; [by injection Hn|unfold hour_ms; lia|lia]. }
  rewrite (E t r), (E (S t) r'); [lia|done|done|lia|done].
Qed.
End FixGapsNext.

(** ** Examples and witnesses *)

(** the example of the specification: six rows, two of them synthesized
    as flat candles at the previous close 101 with volume 0, and
    [missing = 2]. *)
Example fix_hourly_gaps_spec_example :
  fix_hourly_gaps demo_gappy =
    Ok ([demo_candle 0 100; demo_candle 1 101; demo_flat 2 101; demo_flat 3 101;
         demo_candle 4 104; demo_candle 5 105], 2%nat).
Proof. vm_compute. reflexivity. Qed.

Lemma fix_hourly_gaps_grid_witness :
  ts_col (regularize_rows demo_gappy) = date_range (ts_min demo_gappy) (ts_max demo_gappy) hour_ms /\
  length (regularize_rows demo_gappy) =
    S (Z.to_nat ((ts_max demo_gappy - ts_min demo_gappy) / hour_ms)) /\
  strictly_sorted (regularize_rows demo_gappy).
Proof.
  apply (fix_hourly_gaps_grid demo_gappy (regularize_rows demo_gappy) 2%nat).
  - apply (bool_decide_eq_true _). vm_compute. reflexivity.
  - vm_compute. reflexivity.
Defined.

Lemma fix_hourly_gaps_flat_witness :
  exists p, nth_error (regularize_rows demo_gappy) 2 = Some p /\
    demo_flat 3 101 = mk_candle (timestamp_utc (demo_flat 3 101)) (close p) (close p) (close p) (close p)
      (Some fzero).
Proof.
  apply (fix_hourly_gaps_flat demo_gappy (regularize_rows demo_gappy) 2%nat 2 (demo_flat 3 101)).
  - apply (bool_decide_eq_true _). vm_compute. reflexivity.
  - vm_compute. reflexivity.
  - vm_compute. reflexivity.
  - vm_compute. lia.
Defined.

Lemma fix_hourly_gaps_missing_witness :
  2%nat = count_if (fun t => negb (existsb (Z.eqb t) (ts_col demo_gappy))) (ts_col (regularize_rows demo_gappy)).
Proof.
  apply (fix_hourly_gaps_missing demo_gappy (regularize_rows demo_gappy) 2%nat).
  - apply (bool_decide_eq_true _). vm_compute. reflexivity.
  - vm_compute. reflexivity.
  - vm_compute. reflexivity.
Defined.

Lemma fix_hourly_gaps_keeps_rows_witness : In (demo_candle 4 104) (regularize_rows demo_gappy).
Proof.
  apply (fix_hourly_gaps_keeps_rows demo_gappy (regularize_rows demo_gappy) 2%nat).
  - apply (bool_decide_eq_true _). vm_compute. reflexivity.
  - vm_compute. reflexivity.
  - simpl. tauto.
  - vm_compute. reflexivity.
  - vm_compute. reflexivity.
Defined.

Lemma fix_hourly_gaps_drops_offgrid_witness : ~ In 5400000 (ts_col (regularize_rows demo_offgrid)).
Proof.
  apply (fix_hourly_gaps_drops_offgrid demo_offgrid (regularize_rows demo_offgrid) 1%nat
    (mk_candle 5400000 (Some 1%Q) (Some 1%Q) (Some 1%Q) (Some 1%Q) (Some 1%Q))).
  - apply (bool_decide_eq_true _). vm_compute. reflexivity.
  - vm_compute. reflexivity.
  - simpl. tauto.
  - vm_compute. lia.
Defined.

Lemma fix_hourly_gaps_idempotent_witness :
  fix_hourly_gaps (regularize_rows demo_gappy) = Ok (regularize_rows demo_gappy, 0%nat).
Proof.
  apply (fix_hourly_gaps_idempotent demo_gappy (regularize_rows demo_gappy) 2%nat).
  - apply (bool_decide_eq_true _). vm_compute. reflexivity.
  - vm_compute. reflexivity.
  - vm_compute. reflexivity.
Defined.
