(* ===== verification/Validate.v ===== *)
(** * Validator: [src/data_pipeline/validate_ohlcv.py]

    [validate(path, timeframe)] reads the table, fails with [RuntimeError]
    when the file is absent or the frame empty, sorts by timestamp and
    returns a report of counters.  The file read is modelled by its result:
    [None] for a missing file, [Some df] for the frame it holds.  Every
    comparison follows pandas on float columns: NaN compares false, and the
    row-wise [max]/[min] of [open]/[close] skip NaN.  The report's keys are
    the Russian strings of the code; the record's fields name them in
    English in the same order.  The last section runs [validate] on the
    output of [FixGaps.fix_hourly_gaps]. *)

From Stdlib Require Import String.
From S2P Require Import Prelude Frame FixGaps.

Section Validate.
Context {F : Type} `{FloatOrd F}.
Implicit Types (r : candle (option F)) (df : list (candle (option F))).

(** The dictionary built at lines 46-56. *)
Record report := mk_report {
  rows : nat;                (** "строк" *)
  start_ts : Z;              (** "начало" *)
  end_ts : Z;                (** "конец" *)
  duplicates : nat;          (** "дубликаты_timestamp" *)
  invalid_high : nat;        (** "ошибки_high" *)
  invalid_low : nat;         (** "ошибки_low" *)
  negative_prices : nat;     (** "отрицательные_цены" *)
  negative_volume : nat;     (** "отрицательный_объём" *)
  gaps_1h : option nat       (** "пропуски_1h", [None] when the timeframe is not "1h" *)
}.

(** [df["high"] < df[["open", "close"]].max(axis=1)] *)
Definition high_bad r : bool := nan_lt (high r) (nan_max2 (open r) (close r)).

(** [df["low"] > df[["open", "close"]].min(axis=1)] *)
Definition low_bad r : bool := nan_lt (nan_min2 (open r) (close r)) (low r).

(** [(df[["open", "high", "low", "close"]] <= 0).any(axis=1)] *)
Definition price_nonpos r : bool :=
  nan_le (open r) (Some fzero) || nan_le (high r) (Some fzero) ||
  nan_le (low r) (Some fzero) || nan_le (close r) (Some fzero).

(** [df["volume"] < 0] *)
Definition volume_neg r : bool := nan_lt (volume r) (Some fzero).

(** [expected.difference(df["timestamp_utc"])] with [expected] the hourly
    [date_range] over [min, max]; its length. *)
Definition hourly_gaps df : nat :=
  count_if (fun t => negb (existsb (Z.eqb t) (ts_col df)))
    (date_range (ts_min df) (ts_max df) hour_ms).

Definition validate (file : option (list (candle (option F)))) (timeframe : string) : result report :=
  match file with
  | None => Err RuntimeError
  | Some [] => Err RuntimeError
  | Some df =>
      let df := sort_values df in
      Ok {| rows := length df;
            start_ts := ts_min df;
            end_ts := ts_max df;
            duplicates := count_if id (duplicated df);
            invalid_high := count_if high_bad df;
            invalid_low := count_if low_bad df;
            negative_prices := count_if price_nonpos df;
            negative_volume := count_if volume_neg df;
            gaps_1h := if String.eqb timeframe "1h" then Some (hourly_gaps df) else None |}
  end.
End Validate.

(** ** Concrete tables of the examples (prices in [Q]) *)

(** The row of section 8 of the specification: [open = 100], [close = 105]
    and [high = 99]. *)
Definition demo_high_row : candle (option Q) :=
  mk_candle 0 (Some 100%Q) (Some 99%Q) (Some 98%Q) (Some 105%Q) (Some 1%Q).

(** Three rows: the row above, a duplicated timestamp at 02:00, and no
    row at 01:00. *)
Definition demo_table : list (candle (option Q)) :=
  [mk_candle 7200000 (Some 1%Q) (Some 1%Q) (Some 1%Q) (Some 1%Q) (Some 1%Q); demo_high_row;
   mk_candle 7200000 (Some 2%Q) (Some 2%Q) (Some 2%Q) (Some 2%Q) (Some 1%Q)].

(** The validation report of the regularized example table of [FixGaps]. *)
Definition demo_fixed_report : report :=
  match validate (Some (regularize_rows demo_gappy)) "1h" with
  | Ok rep => rep
  | Err _ => mk_report 0 0 0 0 0 0 0 0 None
  end.

Section ValidateProofs.
Context {F : Type} `{FloatOrd F}.
Implicit Types (r : candle (option F)) (df : list (candle (option F))).

Lemma validate_ok df tf :
  df <> [] ->
  validate (Some df) tf =
    let d := sort_values df in
    Ok {| rows := length d; start_ts := ts_min d; end_ts := ts_max d;
          duplicates := count_if id (duplicated d);
          invalid_high := count_if high_bad d; invalid_low := count_if low_bad d;
          negative_prices := count_if price_nonpos d; negative_volume := count_if volume_neg d;
          gaps_1h := if String.eqb tf "1h" then Some (hourly_gaps d) else None |}.
Proof. by destruct df. Qed.

(** Error paths.  [validate] fails with [RuntimeError] exactly when the
    file is absent or holds an empty frame. *)
Theorem validate_error file tf :
  validate file tf = Err RuntimeError <-> file = None \/ file = Some [].
Proof.
  split.
  - destruct file as [[|r rs]|]; [by right|done|by left].
  - by intros [->| ->].
Qed.

Lemma drop_duplicates_from_length seen df :
  (length (drop_duplicates_from seen df) <= length df)%nat /\
  (length (drop_duplicates_from seen df) = length df -> drop_duplicates_from seen df = df).
Proof.
  revert seen. induction df as [|x xs IH]; intros seen; simpl; [done|].
  destruct (existsb _ seen).
  - destruct (IH seen) as [Hle _]. split; [lia|]. intros. lia.
  - destruct (IH (timestamp_utc x :: seen)) as [Hle Heq]. simpl. split; [lia|].
    intros Hl. f_equal. apply Heq. lia.
Qed.

(** The duplicate counter is zero exactly when timestamps are unique. *)
Lemma duplicated_zero_iff df : count_if id (duplicated df) = 0%nat <-> NoDup (ts_col df).
Proof.
  rewrite duplicated_count. split.
  - intros Hz. destruct (drop_duplicates_from_length [] df) as [Hle Heq].
    rewrite <- (Heq ltac:(unfold drop_duplicates in Hz; lia)). apply drop_duplicates_NoDup.
  - intros Hnd. rewrite drop_duplicates_id by done. lia.
Qed.

(** the report depends only on the multiset of rows: reordering the
    input table does not change any counter. *)
Theorem validate_perm df1 df2 tf :
  Permutation df1 df2 -> validate (Some df1) tf = validate (Some df2) tf.
Proof.
  intros Hp. destruct df1 as [|r1 rs1], df2 as [|r2 rs2];
    [done|by apply Permutation_nil_cons in Hp|by symmetry in Hp; apply Permutation_nil_cons in Hp|].
  rewrite !validate_ok by done. cbv zeta.
  assert (Permutation (sort_values (r1 :: rs1)) (sort_values (r2 :: rs2))) as Hs.
  { by rewrite <- !sort_values_perm. }
  unfold hourly_gaps.
  rewrite (Permutation_length Hs), (ts_min_perm _ _ Hs), (ts_max_perm _ _ Hs),
    (duplicated_count_perm _ _ Hs), (count_if_perm high_bad _ _ Hs), (count_if_perm low_bad _ _ Hs),
    (count_if_perm price_nonpos _ _ Hs), (count_if_perm volume_neg _ _ Hs).
  do 2 f_equal. destruct (String.eqb tf "1h"); [|done]. f_equal.
  apply count_if_ext. intros t _. f_equal.
  apply eq_bool_prop_intro. rewrite !Is_true_true, !existsb_Zeqb_In.
  split; intros Hin; [by rewrite <- (Permutation_map timestamp_utc Hs)|by rewrite (Permutation_map timestamp_utc Hs)].
Qed.

(** ** The validator on the regularizer's output *)

(** C14: on the output of [fix_hourly_gaps], [validate] with timeframe
    "1h" reports no duplicate timestamp and no hourly gap. *)
Theorem validate_after_fix_gaps df out m rep :
  NoDup (ts_col df) -> fix_hourly_gaps df = Ok (out, m) ->
  validate (Some out) "1h" = Ok rep ->
  duplicates rep = 0%nat /\ gaps_1h rep = Some 0%nat.
Proof.
  intros Hnd Hfix Hv. apply fix_hourly_gaps_out in Hfix as [Hne ->]; [|done].
  destruct (regularize_rows_props df Hnd Hne) as (Hss & Hne' & Hg).
  rewrite validate_ok in Hv by done. injection Hv as <-. cbn zeta.
  rewrite sort_values_id by done. cbn [duplicates gaps_1h].
  split; [by apply duplicated_zero_iff, strictly_sorted_NoDup|].
  cbn. f_equal. unfold hourly_gaps. rewrite <- grid_nonempty, Hg by done.
  apply count_if_false. intros t Ht. apply negb_false_iff, existsb_Zeqb_In. done.
Qed.
End ValidateProofs.

(** ** Examples and witnesses *)

(** the example of section 8 of the specification: one row with
    [high = 99] below [max(open, close) = 105] gives [ошибки_high = 1]. *)
Example validate_spec_example :
  match validate (Some [demo_high_row]) "1h" with
  | Ok rep => invalid_high rep = 1%nat /\ invalid_low rep = 0%nat /\ gaps_1h rep = Some 0%nat
  | Err _ => False
  end.
Proof. vm_compute. auto. Qed.

Lemma validate_perm_witness : validate (Some demo_table) "1h" = validate (Some (rev demo_table)) "1h".
Proof. apply validate_perm. apply (bool_decide_eq_true _). vm_compute. reflexivity. Defined.

Lemma validate_after_fix_gaps_witness :
  duplicates demo_fixed_report = 0%nat /\ gaps_1h demo_fixed_report = Some 0%nat.
Proof.
  apply (validate_after_fix_gaps demo_gappy (regularize_rows demo_gappy) 2%nat).
  - apply (bool_decide_eq_true _). vm_compute. reflexivity.
  - vm_compute. reflexivity.
  - vm_compute. reflexivity.
Defined.
