(* ===== verification/Download.v ===== *)
(** * Incremental downloader: [src/data_pipeline/download_ohlcv.py]

    [download_incremental] is modelled with the exchange as a record of
    operations ([Exchange]): [fetch_ohlcv since limit] returns a page of raw
    candles or raises (an [Err]); [rateLimit] is the attribute the code reads
    with [getattr].  The state of the paging loop (lines 70-102) is the
    record [LoopState] ([since_ms], [batch], [all_rows]) together with the
    trace of the requests and sleeps it performs; [loop_body] is one pass of
    the [while] body, [fetch_loop] runs it with fuel.  The merge and rewrite
    (lines 104-122) are [merge_tables]; [download_incremental] composes the
    initial cursor (lines 51-68), the loop and the merge.  The file system
    is modelled by its content: [existing] is [None] when [out_path] does
    not exist and [Some df] with the frame it holds otherwise.  The last
    section feeds the persisted table to [FixGaps.fix_hourly_gaps]. *)

From S2P Require Import Prelude Frame FixGaps.

(** One element of the list returned by [ex.fetch_ohlcv]:
    [[ts_ms, open, high, low, close, volume]]. *)
Record ohlcv (F : Type) := mk_ohlcv {
  ts_ms : Z;
  o_open : F;
  o_high : F;
  o_low : F;
  o_close : F;
  o_volume : F
}.
Arguments mk_ohlcv {F} _ _ _ _ _ _.
Arguments ts_ms {F} _.
Arguments o_open {F} _.
Arguments o_high {F} _.
Arguments o_low {F} _.
Arguments o_close {F} _.
Arguments o_volume {F} _.

(** The market-data source, an external collaborator: what the code calls. *)
Record Exchange (F : Type) := mk_exchange {
  fetch_ohlcv : Z -> nat -> result (list (ohlcv F));
  rateLimit : option Z
}.
Arguments mk_exchange {F} _ _.
Arguments fetch_ohlcv {F} _ _ _.
Arguments rateLimit {F} _.

(** What the run does besides computing: the requests it sends, the
    [time.sleep] calls, the error it logs, and the final [to_parquet]. *)
Inductive event :=
| EvFetch (since : Z)
| EvSleep (ms : Z)
| EvFetchError
| EvSave (rows : nat).

#[export] Instance event_eq_dec : EqDecision event.
Proof. solve_decision. Defined.

(** [datetime(2017, 1, 1, tzinfo=timezone.utc)] in milliseconds. *)
Definition epoch_2017_ms : Z := 1483228800000.

(** The page size passed as [limit=1000]. *)
Definition page_limit : nat := 1000.

Section Download.
Context {F : Type} `{FloatOrd F}.
Variable ex : Exchange F.
Variable max_batches : nat.

Implicit Types (df : list (candle (option F))).

(** [int(getattr(ex, "rateLimit", 1000) or 1000)]. *)
Definition rate_ms : Z :=
  match rateLimit ex with
  | Some r => if r =? 0 then 1000 else r
  | None => 1000
  end.

(** Lines 85-87: the page as a frame with a UTC timestamp column. *)
Definition page_frame (page : list (ohlcv F)) : list (candle (option F)) :=
  map (fun x => mk_candle (ts_ms x) (Some (o_open x)) (Some (o_high x)) (Some (o_low x))
                  (Some (o_close x)) (Some (o_volume x))) page.

(** Lines 51-68: where acquisition starts. *)
Definition initial_since (existing : option (list (candle (option F)))) (since : option Z) : Z :=
  match existing with
  | Some ((_ :: _) as df) => ts_max df + 1
  | Some [] => epoch_2017_ms
  | None => match since with Some s => s | None => epoch_2017_ms end
  end.

Record LoopState := mk_loop {
  since_ms : Z;
  batch : nat;
  all_rows : list (list (candle (option F)));
  trace : list event
}.

(** One pass of the [while] body (lines 75-102); [true] when the loop
    goes on, [false] on a [break]. *)
Definition loop_body (st : LoopState) : bool * LoopState :=
  let b := S (batch st) in
  match fetch_ohlcv ex (since_ms st) page_limit with
  | Err _ =>
      (false, mk_loop (since_ms st) b (all_rows st) (trace st ++ [EvFetch (since_ms st); EvFetchError]))
  | Ok [] =>
      (false, mk_loop (since_ms st) b (all_rows st) (trace st ++ [EvFetch (since_ms st)]))
  | Ok page =>
      let df := page_frame page in
      let st' := mk_loop (ts_max df + 1) b (all_rows st ++ [df])
                   (trace st ++ [EvFetch (since_ms st); EvSleep rate_ms]) in
      (Nat.leb page_limit (length df), st')
  end.

(** [while batch < max_batches: ...] with fuel. *)
Fixpoint fetch_loop (fuel : nat) (st : LoopState) : LoopState :=
  match fuel with
  | O => st
  | S fuel' =>
      if Nat.ltb (batch st) max_batches then
        let '(cont, st') := loop_body st in
        if cont then fetch_loop fuel' st' else st'
      else st
  end.

(** Lines 104-120. *)
Definition merge_tables (existing : option (list (candle (option F))))
    (pages : list (list (candle (option F)))) : list (candle (option F)) :=
  let df_new := concat pages in
  let df_all := match existing with
                | Some ((_ :: _) as df) => df ++ df_new
                | _ => df_new
                end in
  match df_all with
  | [] => []
  | _ => sort_values (drop_duplicates df_all)
  end.

Record DownloadResult := mk_result {
  table : list (candle (option F));
  events : list event
}.

(** [download_incremental(exchange, symbol, timeframe, out_path, since,
    max_batches)]; the loop runs with fuel [max_batches], which
    [fetch_loop_fuel] shows is enough. *)
Definition download_incremental (existing : option (list (candle (option F)))) (since : option Z)
    : DownloadResult :=
  let st0 := mk_loop (initial_since existing since) 0 [] [] in
  let st := fetch_loop max_batches st0 in
  let df_all := merge_tables existing (all_rows st) in
  mk_result df_all (trace st ++ [EvSave (length df_all)]).

(** ** Observations on the event trace *)

Definition is_fetch (e : event) : bool := match e with EvFetch _ => true | _ => false end.

(** Every request but the first directly follows a sleep of [rate_ms]. *)
Fixpoint paced (prev : option event) (tr : list event) : bool :=
  match tr with
  | [] => true
  | e :: tr' =>
      (if is_fetch e then
         match prev with None => true | Some (EvSleep d) => d =? rate_ms | Some _ => false end
       else true) && paced (Some e) tr'
  end.

Fixpoint last_event (prev : option event) (tr : list event) : option event :=
  match tr with [] => prev | e :: tr' => last_event (Some e) tr' end.

(** A loop state from which the next request is paced: the trace so far
    is paced and ends, if anywhere, with a rate-limit sleep. *)
Definition ready (st : LoopState) : Prop :=
  paced None (trace st) = true /\
  (last_event None (trace st) = None \/ last_event None (trace st) = Some (EvSleep (rate_ms))).

End Download.

(** ** Concrete exchanges of the examples (prices in [Q]) *)

Definition demo_ohlcv (t : Z) : ohlcv Q := mk_ohlcv t 1%Q 2%Q 1%Q 1%Q 3%Q.

(** An exchange holding the hourly candles of hours [0 .. n-1]: a request
    returns the next [limit] candles at or after [since]. *)
Definition demo_exchange (n : Z) : Exchange Q :=
  mk_exchange (fun since limit =>
    let first := Z.max 0 ((since + hour_ms - 1) / hour_ms) in
    Ok (map (fun k => demo_ohlcv (hour_ms * (first + Z.of_nat k)))
            (seq 0 (Z.to_nat (Z.min (Z.of_nat limit) (n - first)))))) None.

(** An exchange whose every request raises. *)
Definition failing_exchange : Exchange Q := mk_exchange (fun _ _ => Err RuntimeError) (Some 50).

(** A stored table whose last candle is at 04:00. *)
Definition demo_stored : list (candle (option Q)) :=
  [mk_candle 0 (Some 7%Q) (Some 7%Q) (Some 7%Q) (Some 7%Q) (Some 7%Q);
   mk_candle (4 * hour_ms) (Some 5%Q) (Some 5%Q) (Some 5%Q) (Some 5%Q) (Some 5%Q)].

Section LoopProofs.
Context {F : Type} `{FloatOrd F}.
Variable ex : Exchange F.
Variable max_batches : nat.
Implicit Types (st : @LoopState F) (df : list (candle (option F))).

(** Every pass increments [batch] and issues exactly one request. *)
Lemma loop_body_step st cont st' :
  loop_body ex st = (cont, st') ->
  batch st' = S (batch st) /\
  count_if is_fetch (trace st') = S (count_if is_fetch (trace st)) /\
  exists tail, trace st' = trace st ++ tail.
Proof.
  unfold loop_body. destruct (fetch_ohlcv ex (since_ms st) page_limit) as [[|x p]|e];
    intros Hb; injection Hb as <- <-; cbn [batch trace];
    (split; [done|split; [rewrite count_if_app; unfold count_if; simpl; lia|by eexists]]).
Qed.

Lemma fetch_loop_batch fuel st :
  (batch st <= batch (fetch_loop ex max_batches fuel st))%nat /\
  ((batch st <= max_batches)%nat -> (batch (fetch_loop ex max_batches fuel st) <= max_batches)%nat) /\
  count_if is_fetch (trace (fetch_loop ex max_batches fuel st)) =
    (count_if is_fetch (trace st) + (batch (fetch_loop ex max_batches fuel st) - batch st))%nat.
Proof.
  revert st. induction fuel as [|fuel IH]; intros st; simpl; [lia|].
  destruct (Nat.ltb_spec (batch st) max_batches); [|lia].
  destruct (loop_body ex st) as [cont st'] eqn:Hb.
  destruct (loop_body_step st cont st' Hb) as (Hbt & Hc & _).
  destruct cont; [|lia].
  destruct (IH st') as (H1 & H2 & H3). lia.
Qed.

(** Fuel [f] is enough once it covers the batches left. *)
Lemma fetch_loop_enough fuel st :
  (max_batches - batch st <= fuel)%nat ->
  fetch_loop ex max_batches (S fuel) st = fetch_loop ex max_batches fuel st.
Proof.
  revert st. induction fuel as [|fuel IH]; intros st Hf.
  - simpl. destruct (Nat.ltb_spec (batch st) max_batches); [lia|done].
  - change (fetch_loop ex max_batches (S (S fuel)) st) with
      (if Nat.ltb (batch st) max_batches then
         let '(cont, st') := loop_body ex st in
         if cont then fetch_loop ex max_batches (S fuel) st' else st'
       else st).
    simpl. destruct (Nat.ltb (batch st) max_batches); [|done].
    destruct (loop_body ex st) as [cont st'] eqn:Hb. destruct cont; [|done].
    apply IH. destruct (loop_body_step st true st' Hb) as [-> _]. lia.
Qed.

Lemma fetch_loop_more_fuel fuel k st :
  (max_batches - batch st <= fuel)%nat ->
  fetch_loop ex max_batches (k + fuel) st = fetch_loop ex max_batches fuel st.
Proof.
  intros Hf. induction k as [|k IH]; [done|].
  rewrite Nat.add_succ_l, fetch_loop_enough; [done|lia].
Qed.
End LoopProofs.

Section DownloadProofs.
Context {F : Type} `{FloatOrd F}.
Variable ex : Exchange F.
Variable max_batches : nat.
Implicit Types (st : @LoopState F) (df : list (candle (option F)))
  (existing : option (list (candle (option F)))) (pages : list (list (candle (option F)))).

(** C8: termination.  The paging loop stops by its own guard within
    [max_batches] passes: any fuel of at least [max_batches] gives the
    same final state as the fuel the model runs with. *)
Theorem fetch_loop_fuel fuel st :
  batch st = 0%nat -> (max_batches <= fuel)%nat ->
  fetch_loop ex max_batches fuel st = fetch_loop ex max_batches max_batches st.
Proof.
  intros Hb Hf. replace fuel with ((fuel - max_batches) + max_batches)%nat by lia.
  apply fetch_loop_more_fuel. lia.
Qed.

(** a run sends at most [max_batches] requests to the exchange. *)
Theorem download_fetch_bound existing since :
  (count_if is_fetch (events (download_incremental ex max_batches existing since)) <= max_batches)%nat.
Proof.
  unfold download_incremental. cbn [events]. rewrite count_if_app.
  destruct (fetch_loop_batch ex max_batches max_batches
    (mk_loop (initial_since existing since) 0 [] [])) as (_ & Hle & Hc).
  cbn [batch trace] in *. rewrite Hc. unfold count_if at 2. simpl. lia.
Qed.

(** ** The merge *)

Lemma merge_tables_spec existing pages :
  let all := match existing with Some ((_ :: _) as df) => df ++ concat pages | _ => concat pages end in
  Permutation (merge_tables existing pages) (drop_duplicates all).
Proof.
  unfold merge_tables. cbv zeta.
  destruct (match existing with Some ((_ :: _) as df) => df ++ concat pages | _ => concat pages end);
    [done|]. symmetry. apply sort_values_perm.
Qed.

Lemma merge_tables_sorted existing pages :
  strictly_sorted (merge_tables existing pages).
Proof.
  unfold merge_tables.
  destruct (match existing with Some ((_ :: _) as df) => df ++ concat pages | _ => concat pages end);
    [constructor|]. apply sort_values_strict, drop_duplicates_NoDup.
Qed.

Lemma lookup_ts_app df1 df2 t :
  lookup_ts (df1 ++ df2) t = match lookup_ts df1 t with Some r => Some r | None => lookup_ts df2 t end.
Proof. unfold lookup_ts. induction df1 as [|x xs IH]; simpl; [done|]. by destruct (_ =? t). Qed.

Lemma merge_tables_lookup existing pages t :
  lookup_ts (merge_tables existing pages) t =
  lookup_ts (match existing with Some ((_ :: _) as df) => df ++ concat pages | _ => concat pages end) t.
Proof.
  etransitivity; [|apply drop_duplicates_lookup]. apply lookup_ts_perm.
  - apply strictly_sorted_NoDup, merge_tables_sorted.
  - apply merge_tables_spec.
Qed.

(** The first copy of a timestamp is kept by [drop_duplicates]. *)
Lemma merge_tables_prior_wins df pages t :
  In t (ts_col df) -> lookup_ts (merge_tables (Some df) pages) t = lookup_ts df t.
Proof.
  intros Ht. rewrite merge_tables_lookup.
  destruct df as [|r rs]; [done|]. rewrite lookup_ts_app.
  destruct (lookup_ts (r :: rs) t) eqn:E; [done|].
  by apply lookup_ts_None in E.
Qed.

(** no candle is lost: the persisted timestamps are exactly those of
    the prior file and of the fetched pages. *)
Theorem merge_tables_timestamps existing pages t :
  In t (ts_col (merge_tables existing pages)) <->
  (exists df, existing = Some df /\ In t (ts_col df)) \/ In t (ts_col (concat pages)).
Proof.
  assert (forall l : list (candle (option F)), In t (ts_col l) <-> lookup_ts l t <> None) as Hl.
  { intros l. split.
    - intros Hin E. by apply lookup_ts_None in E.
    - intros Hn. destruct (lookup_ts l t) as [r|] eqn:E; [|done].
      apply lookup_ts_Some in E as [Hr <-]. by apply in_map. }
  rewrite Hl, merge_tables_lookup, <- Hl.
  destruct existing as [[|r rs]|]; cbn iota beta.
  - split; [by right|]. intros [(df & [= <-] & Hin)|]; done.
  - rewrite map_app, in_app_iff. split.
    + intros [Hin|Hin]; [left; by exists (r :: rs)|by right].
    + intros [(df & [= <-] & Hin)|Hin]; [by left|by right].
  - split; [by right|]. by intros [(df & ? & _)|].
Qed.

(** C6: the persisted table is strictly increasing in its timestamps:
    sorted and free of duplicates, whatever the exchange returned and
    whatever the prior file held. *)
Theorem download_table_strictly_sorted existing since :
  strictly_sorted (table (download_incremental ex max_batches existing since)).
Proof. apply merge_tables_sorted. Qed.

Lemma merge_tables_normalized df : strictly_sorted df -> merge_tables (Some df) [] = df.
Proof.
  intros Hs. destruct df as [|r rs]; [done|]. unfold merge_tables. cbn [concat].
  rewrite app_nil_r. cbn iota.
  rewrite drop_duplicates_id by (by apply strictly_sorted_NoDup). by apply sort_values_id.
Qed.

(** C7: prior state wins.  For every timestamp already in the file, the
    row the run persists is the row of the file, whatever the exchange
    returned for that timestamp. *)
Theorem download_prior_wins df since t :
  In t (ts_col df) ->
  lookup_ts (table (download_incremental ex max_batches (Some df) since)) t = lookup_ts df t.
Proof. apply merge_tables_prior_wins. Qed.

(** C5: idempotent resume.  When the file already holds a strictly sorted
    table and the exchange has nothing after its last candle, the run
    issues one request at [last + 1 ms], does not sleep, and rewrites the
    same table. *)
Theorem download_idempotent_resume df since :
  strictly_sorted df -> df <> [] -> (0 < max_batches)%nat ->
  fetch_ohlcv ex (ts_max df + 1) page_limit = Ok [] ->
  download_incremental ex max_batches (Some df) since =
    mk_result df [EvFetch (ts_max df + 1); EvSave (length df)].
Proof.
  intros Hs Hne Hmb Hf. destruct max_batches as [|k]; [lia|].
  assert (initial_since (Some df) since = ts_max df + 1) as Hi by (by destruct df).
  unfold download_incremental. rewrite Hi. cbn [fetch_loop batch].
  unfold loop_body. cbn [since_ms batch all_rows trace]. rewrite Hf. cbn.
  by rewrite merge_tables_normalized.
Qed.

(** C10: a failed request ends the loop gracefully: the state keeps every
    page fetched so far, the cursor is unchanged and the error is
    logged; nothing is retried. *)
Theorem fetch_loop_error fuel st e :
  (batch st < max_batches)%nat -> fetch_ohlcv ex (since_ms st) page_limit = Err e ->
  fetch_loop ex max_batches (S fuel) st =
    mk_loop (since_ms st) (S (batch st)) (all_rows st) (trace st ++ [EvFetch (since_ms st); EvFetchError]).
Proof.
  intros Hb Hf. cbn [fetch_loop]. rewrite (proj2 (Nat.ltb_lt _ _) Hb).
  unfold loop_body. by rewrite Hf.
Qed.
End DownloadProofs.

(** ** Pacing and cursors of the request sequence *)

Section Pacing.
Context {F : Type} `{FloatOrd F}.
Variable ex : Exchange F.
Variable max_batches : nat.
Implicit Types (st : @LoopState F).

Lemma paced_app p l1 l2 : paced ex p (l1 ++ l2) = paced ex p l1 && paced ex (last_event p l1) l2.
Proof.
  revert p. induction l1 as [|e l1 IH]; intros p; simpl; [done|].
  rewrite IH. by rewrite andb_assoc.
Qed.

Lemma last_event_app p l1 l2 : last_event p (l1 ++ l2) = last_event (last_event p l1) l2.
Proof. revert p. induction l1 as [|e l1 IH]; intros p; simpl; [done|]. apply IH. Qed.

Lemma paced_nth p tr i s :
  paced ex p tr = true -> nth_error tr (S i) = Some (EvFetch s) ->
  nth_error tr i = Some (EvSleep (rate_ms ex)).
Proof.
  revert p i. induction tr as [|e tr IH]; intros p i Hp Hn; [done|].
  simpl in Hp. apply andb_true_iff in Hp as [_ Hp].
  destruct i as [|i]; simpl in *; [|by eapply IH].
  destruct tr as [|e' tr]; [done|]. simpl in Hn, Hp. injection Hn as ->.
  simpl in Hp. destruct e; try discriminate. apply andb_true_iff in Hp as [Hd _].
  apply Z.eqb_eq in Hd. by subst.
Qed.

Lemma loop_body_paced st cont st' :
  ready ex st -> loop_body ex st = (cont, st') ->
  paced ex None (trace st') = true /\ (cont = true -> ready ex st').
Proof.
  intros [Hp Hl] Hb. unfold loop_body in Hb.
  assert (paced ex (last_event None (trace st)) [EvFetch (since_ms st)] = true) as Hf.
  { simpl. destruct Hl as [->| ->]; [done|]. by rewrite Z.eqb_refl. }
  destruct (fetch_ohlcv ex (since_ms st) page_limit) as [[|x p]|e];
    cbv zeta in Hb; injection Hb as <- <-; cbn [trace]; rewrite paced_app, Hp; simpl in Hf |- *.
  - split; [by rewrite Hf|done].
  - split; [by rewrite Hf|]. intros _. unfold ready. cbn [trace]. split.
    + rewrite paced_app, Hp. simpl. by rewrite Hf.
    + right. by rewrite last_event_app.
  - split; [by rewrite Hf|done].
Qed.

Lemma fetch_loop_paced fuel st :
  ready ex st -> paced ex None (trace (fetch_loop ex max_batches fuel st)) = true.
Proof.
  revert st. induction fuel as [|fuel IH]; intros st Hr; [apply Hr|].
  cbn [fetch_loop]. destruct (Nat.ltb _ _); [|apply Hr].
  destruct (loop_body ex st) as [cont st'] eqn:Hb.
  destruct (loop_body_paced st cont st' Hr Hb) as [Hp Hc].
  destruct cont; [by apply IH, Hc|done].
Qed.

(** C9: rate limiting.  In the events of a run, every request to the
    exchange except the first is immediately preceded by a sleep of the
    exchange's [rate_ms]. *)
Theorem download_rate_limited existing since i s :
  nth_error (events (download_incremental ex max_batches existing since)) (S i) = Some (EvFetch s) ->
  nth_error (events (download_incremental ex max_batches existing since)) i = Some (EvSleep (rate_ms ex)).
Proof.
  apply paced_nth with None. unfold download_incremental. cbn [events].
  rewrite paced_app, fetch_loop_paced; [reflexivity|].
  split; [done|by left].
Qed.
End Pacing.

(** ** The downloader's table as input of the regularizer *)

Section DownloadFixGaps.
Context {F : Type} `{FloatOrd F}.

(** C15: the downloader's table is always accepted by the regularizer:
    [fix_hourly_gaps] fails on it only when it is empty. *)
Theorem fix_gaps_after_download (ex : Exchange F) max_batches existing since :
  table (download_incremental ex max_batches existing since) <> [] ->
  exists out m, fix_hourly_gaps (table (download_incremental ex max_batches existing since)) = Ok (out, m).
Proof.
  intros Hne. eexists _, _. apply fix_hourly_gaps_rows; [|done].
  apply strictly_sorted_NoDup, merge_tables_sorted.
Qed.
End DownloadFixGaps.

(** ** Examples and witnesses *)

Lemma fetch_loop_fuel_witness :
  fetch_loop (demo_exchange 2500) 10 12 (mk_loop 1 0 [] []) =
  fetch_loop (demo_exchange 2500) 10 10 (mk_loop 1 0 [] []).
Proof. apply fetch_loop_fuel; [reflexivity|lia]. Defined.

Lemma download_prior_wins_witness :
  lookup_ts (table (download_incremental (demo_exchange 8) 3 (Some demo_stored) None)) (4 * hour_ms) =
  lookup_ts demo_stored (4 * hour_ms).
Proof. apply download_prior_wins. vm_compute. tauto. Defined.

Lemma download_idempotent_resume_witness :
  download_incremental (demo_exchange 5) 3 (Some demo_stored) None =
    mk_result demo_stored [EvFetch (ts_max demo_stored + 1); EvSave (length demo_stored)].
Proof.
  apply download_idempotent_resume.
  - apply strictly_sortedb_spec. vm_compute. reflexivity.
  - discriminate.
  - lia.
  - vm_compute. reflexivity.
Defined.

Lemma fetch_loop_error_witness :
  fetch_loop failing_exchange 3 2 (mk_loop 7 0 [] []) =
    mk_loop 7 1 [] ([] ++ [EvFetch 7; EvFetchError]).
Proof. apply (fetch_loop_error failing_exchange 3 1 (mk_loop 7 0 [] []) RuntimeError); [simpl; lia|reflexivity]. Defined.

Lemma download_rate_limited_witness :
  nth_error (events (download_incremental (demo_exchange 2500) 10 (Some demo_stored) None)) 1 =
    Some (EvSleep (rate_ms (demo_exchange 2500))).
Proof. apply (download_rate_limited _ _ _ _ 1 (1004 * hour_ms + 1)). vm_compute. reflexivity. Defined.

Lemma fix_gaps_after_download_witness :
  exists out m, fix_hourly_gaps (table (download_incremental (demo_exchange 8) 3 (Some demo_stored) None)) =
    Ok (out, m).
Proof. apply fix_gaps_after_download. vm_compute. discriminate. Defined.
