(* ===== verification/Dates.v ===== *)
(** * Calendar dates to epoch milliseconds: [_utc_ms] of [download_ohlcv.py]

    [_utc_ms(dt)] is [int(dt.timestamp() * 1000)] of a datetime in UTC; the
    downloader calls it on [datetime(2017, 1, 1)] and on the date of the
    [since] hint, both at midnight.  [timestamp()] of an aware datetime is
    the difference to 1970-01-01 counted by CPython's proleptic Gregorian
    ordinal ([_ymd2ord]), in seconds; for a midnight date it is a whole
    number of days below 2^38 seconds, so the product by 1000 and [int]
    are exact in binary64 and the result is the integer written here.
    The datetime constructor checks its fields ([_check_date_fields]) and
    raises [ValueError] on an invalid date.  The helpers keep the names
    of CPython's [Lib/datetime.py].  [next_date] is the calendar successor
    used to state that consecutive days are 86 400 000 ms apart. *)

From S2P Require Import Prelude Frame Download.

(** [_is_leap]. *)
Definition is_leap (y : Z) : bool :=
  (y mod 4 =? 0) && (negb (y mod 100 =? 0) || (y mod 400 =? 0)).

(** [_DAYS_IN_MONTH[m]]. *)
Definition days_in_month_tbl (m : Z) : Z :=
  match m with
  | 1 => 31 | 2 => 28 | 3 => 31 | 4 => 30 | 5 => 31 | 6 => 30
  | 7 => 31 | 8 => 31 | 9 => 30 | 10 => 31 | 11 => 30 | 12 => 31
  | _ => -1
  end.

(** [_DAYS_BEFORE_MONTH[m]]. *)
Definition days_before_month_tbl (m : Z) : Z :=
  match m with
  | 1 => 0 | 2 => 31 | 3 => 59 | 4 => 90 | 5 => 120 | 6 => 151
  | 7 => 181 | 8 => 212 | 9 => 243 | 10 => 273 | 11 => 304 | 12 => 334
  | _ => -1
  end.

(** [_days_before_year]: days from 0001-01-01 to the first of [y]. *)
Definition days_before_year (y : Z) : Z :=
  let y' := y - 1 in y' * 365 + y' / 4 - y' / 100 + y' / 400.

(** [_days_in_month]. *)
Definition days_in_month (y m : Z) : Z :=
  if (m =? 2) && is_leap y then 29 else days_in_month_tbl m.

(** [_days_before_month]. *)
Definition days_before_month (y m : Z) : Z :=
  days_before_month_tbl m + (if (m >? 2) && is_leap y then 1 else 0).

(** [_ymd2ord]: 0001-01-01 is day 1. *)
Definition ymd2ord (y m d : Z) : Z := days_before_year y + days_before_month y m + d.

(** [_check_date_fields] with [MINYEAR = 1] and [MAXYEAR = 9999]. *)
Definition check_date_fields (y m d : Z) : result unit :=
  if negb ((1 <=? y) && (y <=? 9999)) then Err ValueError
  else if negb ((1 <=? m) && (m <=? 12)) then Err ValueError
  else if negb ((1 <=? d) && (d <=? days_in_month y m)) then Err ValueError
  else Ok tt.

(** [_ymd2ord(1970, 1, 1)], the day of [_EPOCH]. *)
Definition epoch_ord : Z := 719163.

(** [_utc_ms(datetime(y, m, d, tzinfo=timezone.utc))]. *)
Definition utc_ms (y m d : Z) : result Z :=
  let? _ := check_date_fields y m d in
  Ok ((ymd2ord y m d - epoch_ord) * 86400000).

(** A date accepted by the constructor. *)
Definition valid_date (y m d : Z) : Prop := check_date_fields y m d = Ok tt.

(** The calendar day after [(y, m, d)], as [date + timedelta(days=1)]
    steps it. *)
Definition next_date (y m d : Z) : Z * Z * Z :=
  if d <? days_in_month y m then (y, m, d + 1)
  else if m <? 12 then (y, m + 1, 1)
  else (y + 1, 1, 1).

(** ** Lemmas *)

Lemma valid_date_iff y m d :
  valid_date y m d <-> 1 <= y <= 9999 /\ 1 <= m <= 12 /\ 1 <= d <= days_in_month y m.
Proof.
  unfold valid_date, check_date_fields.
  destruct (Z.leb_spec 1 y), (Z.leb_spec y 9999), (Z.leb_spec 1 m), (Z.leb_spec m 12),
    (Z.leb_spec 1 d), (Z.leb_spec d (days_in_month y m)); cbn; split; intros; try discriminate; try reflexivity; lia.
Qed.

(** The months tile the year: a month ends where the next begins, and
    December ends after 365 days, or 366 in a leap year. *)
Lemma days_before_month_next y m :
  1 <= m <= 11 -> days_before_month y (m + 1) = days_before_month y m + days_in_month y m.
Proof.
  intros Hm. unfold days_before_month, days_in_month.
  assert (m = 1 \/ m = 2 \/ m = 3 \/ m = 4 \/ m = 5 \/ m = 6 \/ m = 7 \/ m = 8 \/ m = 9 \/
          m = 10 \/ m = 11) as Hc by lia.
  destruct (is_leap y); repeat destruct Hc as [->|Hc]; try reflexivity; subst; reflexivity.
Qed.

Lemma days_in_month_pos y m : 1 <= m <= 12 -> 28 <= days_in_month y m.
Proof.
  intros Hm. unfold days_in_month.
  assert (m = 1 \/ m = 2 \/ m = 3 \/ m = 4 \/ m = 5 \/ m = 6 \/ m = 7 \/ m = 8 \/ m = 9 \/
          m = 10 \/ m = 11 \/ m = 12) as Hc by lia.
  destruct (is_leap y); repeat destruct Hc as [->|Hc]; subst; cbn; lia.
Qed.

(** The ordinal of December 31 is one less than the first of next year. *)
Lemma year_length y : days_before_month y 12 + days_in_month y 12 = 365 + (if is_leap y then 1 else 0).
Proof. unfold days_before_month, days_in_month. by destruct (is_leap y). Qed.

Lemma div_succ_step k n : 0 < n -> (k + 1) / n - k / n = if (k + 1) mod n =? 0 then 1 else 0.
Proof.
  intros Hn. pose proof (Z.div_mod (k + 1) n ltac:(lia)). pose proof (Z.div_mod k n ltac:(lia)).
  pose proof (Z.mod_pos_bound (k + 1) n Hn). pose proof (Z.mod_pos_bound k n Hn).
  destruct (Z.eqb_spec ((k + 1) mod n) 0); nia.
Qed.

Lemma mod_multiple y a b : 0 < a -> 0 < b -> y mod (a * b) = 0 -> y mod a = 0.
Proof.
  intros Ha Hb E. apply Z.mod_divide in E as [q ->]; [|lia].
  apply Z.mod_divide; [lia|]. exists (q * b). lia.
Qed.

Lemma days_before_year_next y :
  days_before_year (y + 1) = days_before_year y + 365 + (if is_leap y then 1 else 0).
Proof.
  unfold days_before_year, is_leap. replace (y + 1 - 1) with (y - 1 + 1) by lia.
  pose proof (div_succ_step (y - 1) 4 ltac:(lia)) as D4.
  pose proof (div_succ_step (y - 1) 100 ltac:(lia)) as D100.
  pose proof (div_succ_step (y - 1) 400 ltac:(lia)) as D400.
  replace (y - 1 + 1) with y in * by lia.
  pose proof (mod_multiple y 4 25 ltac:(lia) ltac:(lia)) as M1. change (4 * 25) with 100 in M1.
  pose proof (mod_multiple y 100 4 ltac:(lia) ltac:(lia)) as M2. change (100 * 4) with 400 in M2.
  pose proof (mod_multiple y 4 100 ltac:(lia) ltac:(lia)) as M3. change (4 * 100) with 400 in M3.
  destruct (Z.eqb_spec (y mod 4) 0) as [E4|E4], (Z.eqb_spec (y mod 100) 0) as [E1|E1],
    (Z.eqb_spec (y mod 400) 0) as [E0|E0]; cbn [negb andb orb] in *; lia.
Qed.

Lemma utc_ms_valid y m d :
  valid_date y m d -> utc_ms y m d = Ok ((ymd2ord y m d - epoch_ord) * 86400000).
Proof. unfold utc_ms, valid_date. by intros ->. Qed.

Lemma utc_ms_ok y m d v :
  utc_ms y m d = Ok v -> valid_date y m d /\ v = (ymd2ord y m d - epoch_ord) * 86400000.
Proof.
  unfold utc_ms, valid_date. destruct (check_date_fields y m d) as [[]|]; cbn; [|discriminate].
  by intros [= <-].
Qed.

Lemma utc_ms_error y m d :
  utc_ms y m d = Err ValueError <-> ~ (1 <= y <= 9999 /\ 1 <= m <= 12 /\ 1 <= d <= days_in_month y m).
Proof.
  rewrite <- valid_date_iff. unfold utc_ms, valid_date, check_date_fields.
  repeat match goal with |- context [if ?b then _ else _] => destruct b end; cbn;
    split; intros; congruence.
Qed.

(** The next calendar day of an accepted date other than 9999-12-31 is
    accepted, and its ordinal is one more. *)
Lemma next_date_valid y m d :
  valid_date y m d -> (y, m, d) <> (9999, 12, 31) ->
  let '(y', m', d') := next_date y m d in valid_date y' m' d' /\ ymd2ord y' m' d' = ymd2ord y m d + 1.
Proof.
  rewrite !valid_date_iff. intros (Hy & Hm & Hd) Hmax. unfold next_date.
  destruct (Z.ltb_spec d (days_in_month y m)); [rewrite valid_date_iff; unfold ymd2ord; lia|].
  destruct (Z.ltb_spec m 12).
  - pose proof (days_in_month_pos y (m + 1) ltac:(lia)). pose proof (days_before_month_next y m ltac:(lia)).
    rewrite valid_date_iff; unfold ymd2ord. lia.
  - assert (m = 12) as -> by lia. assert (days_in_month y 12 = 31) as D by reflexivity.
    assert (y < 9999) by (destruct (Z.eq_dec y 9999); [subst; exfalso; apply Hmax; f_equal; lia|lia]).
    pose proof (year_length y). pose proof (days_before_year_next y).
    rewrite valid_date_iff. unfold ymd2ord. unfold days_in_month at 1. unfold days_before_month at 1. cbn.
    destruct (is_leap y); cbn in *; lia.
Qed.

(** The downloader's start of history is [_utc_ms(datetime(2017, 1, 1))]. *)
Lemma utc_ms_epoch_2017 : utc_ms 2017 1 1 = Ok epoch_2017_ms.
Proof. reflexivity. Qed.

(** C25: [_utc_ms] is the millisecond count of the calendar: 1970-01-01
    is 0; the datetime constructor raises [ValueError] exactly on a date
    outside years 1 to 9999, months 1 to 12 and the days of the month;
    and the next calendar day of an accepted date (9999-12-31 has none)
    is exactly 86 400 000 ms later, across month and year ends and
    February 29 included.  These three facts fix [_utc_ms] on every
    valid date. *)
Theorem utc_ms_spec :
  utc_ms 1970 1 1 = Ok 0 /\
  (forall y m d, utc_ms y m d = Err ValueError <->
     ~ (1 <= y <= 9999 /\ 1 <= m <= 12 /\ 1 <= d <= days_in_month y m)) /\
  (forall y m d v, utc_ms y m d = Ok v -> (y, m, d) <> (9999, 12, 31) ->
     let '(y', m', d') := next_date y m d in utc_ms y' m' d' = Ok (v + 86400000)).
Proof.
  split_and!; [reflexivity|apply utc_ms_error|].
  intros y m d v (V & ->)%utc_ms_ok Hmax.
  pose proof (next_date_valid y m d V Hmax) as Hn. destruct (next_date y m d) as [[y' m'] d'].
  destruct Hn as [V' E]. rewrite utc_ms_valid, E by done. f_equal. lia.
Qed.

Lemma utc_ms_spec_witness :
  utc_ms 2016 2 29 = Ok 1456704000000 /\ utc_ms 2016 3 1 = Ok (1456704000000 + 86400000).
Proof.
  split; [reflexivity|].
  exact (proj2 (proj2 utc_ms_spec) 2016 2 29 1456704000000 eq_refl ltac:(discriminate)).
Defined.
