(* ===== verification/Features.v ===== *)
(** * The feature and label engine: [main] of [make_features.py]

    The DataFrame of [main] is a list of named columns in pandas' column
    order: the raw table's columns ([open, high, low, close, volume,
    timestamp_utc], the order the downloader writes), then each
    [df[name] = ...] of the code, which appends a new column ([assign]).
    [build_features] runs the assignments in the code's order;
    [feature_frame] is the same frame written as one list, and
    [build_features_frame] proves them equal.  [dropna] keeps the rows with
    no NaN in any float column, [feature_cols] is the manifest, and [main]
    returns the files it writes in order (the feature table, the feature
    list, the split) with its outcome.  The labels are also read back on
    the output of [FixGaps.fix_hourly_gaps], where consecutive rows are
    one hour apart. *)

From Stdlib Require Import Ascii String SpecFloat.
From S2P Require Import Prelude Frame FixGaps Series Carrier Indicators Split.

(** A column: the timestamps or a float column. *)
Inductive column (F : Type) :=
| TsCol (ts : list Z)
| NumCol (c : list (option F)).
Arguments TsCol {F} ts.
Arguments NumCol {F} c.

Definition frame (F : Type) := list (string * column F).

(** [str(k)] of a Python int, for the column names [f"ret_lag_{k}"]. *)
Fixpoint uint_to_string (d : Decimal.uint) : string :=
  match d with
  | Decimal.Nil => EmptyString
  | Decimal.D0 d => String "0"%char (uint_to_string d)
  | Decimal.D1 d => String "1"%char (uint_to_string d)
  | Decimal.D2 d => String "2"%char (uint_to_string d)
  | Decimal.D3 d => String "3"%char (uint_to_string d)
  | Decimal.D4 d => String "4"%char (uint_to_string d)
  | Decimal.D5 d => String "5"%char (uint_to_string d)
  | Decimal.D6 d => String "6"%char (uint_to_string d)
  | Decimal.D7 d => String "7"%char (uint_to_string d)
  | Decimal.D8 d => String "8"%char (uint_to_string d)
  | Decimal.D9 d => String "9"%char (uint_to_string d)
  end.

Definition py_str (n : nat) : string := uint_to_string (Nat.to_uint n).

(** The rolling windows of the code. *)
Definition roll_windows : list nat := [6; 12; 24; 72; 168]%nat.

(** The columns left out of the manifest. *)
Definition exclude : list string := ["open"; "high"; "low"; "close"; "volume"; "y_1h"; "y_1d"]%string.

(** Example tables in the fixed-point carrier: [n] hourly candles from
    2024-01-01T00:00Z whose closes move in a 35-hour cycle. *)
Definition demo_wave (k : nat) : Z := (100 + Z.of_nat (k mod 7) + Z.of_nat (k mod 5))%Z.

Definition demo_px (z : Z) : option fx := Some (fx_of_Q (inject_Z z)).

Definition demo_hourly (n : nat) : list (candle (option fx)) :=
  map (fun k => mk_candle (1704067200000 + Z.of_nat k * hour_ms)%Z (demo_px (demo_wave k))
                  (demo_px (demo_wave k + 1)) (demo_px (demo_wave k - 1)) (demo_px (demo_wave k)) (demo_px 1))
      (seq 0 n).

Section Features.
Context {F : Type} `{FloatOrd F} `{FloatOps F}.
Implicit Types (df : frame F) (rows : list (candle (option F))).

(** [df[name] = c]: replaces the column in place, or appends it. *)
Definition assign (name : string) (c : column F) df : frame F :=
  if existsb (fun nc => String.eqb (fst nc) name) df
  then map (fun nc => if String.eqb (fst nc) name then (fst nc, c) else nc) df
  else df ++ [(name, c)].

(** [df[name]] of a float column. *)
Definition num df (name : string) : list (option F) :=
  match find (fun nc => String.eqb (fst nc) name) df with
  | Some (_, NumCol c) => c
  | _ => []
  end.

(** [df["timestamp_utc"]]. *)
Definition ts_of df : list Z :=
  match find (fun nc => String.eqb (fst nc) "timestamp_utc") df with
  | Some (_, TsCol t) => t
  | _ => []
  end.

(** The raw table as read from the file. *)
Definition of_candles rows : frame F :=
  [("open", NumCol (map open rows)); ("high", NumCol (map high rows));
   ("low", NumCol (map low rows)); ("close", NumCol (map close rows));
   ("volume", NumCol (map volume rows)); ("timestamp_utc", TsCol (map timestamp_utc rows))]%string.

Definition plus_eps (s : list (option F)) : list (option F) := s_map (tot1 (fun x => fadd x (flit eps_q))) s.

(** [for k in range(1, 25): df[f"ret_lag_{k}"] = df["ret_1"].shift(k)]. *)
Definition add_lags df : frame F :=
  fold_left (fun d k => assign ("ret_lag_" ++ py_str k) (NumCol (shift k (num d "ret_1"))) d) (seq 1 24) df.

(** [for w in [6, 12, 24, 72, 168]: ...]. *)
Definition add_rolling df : frame F :=
  fold_left (fun d w =>
    let d := assign ("ret_mean_" ++ py_str w) (NumCol (rolling_mean w (num d "ret_1"))) d in
    let d := assign ("ret_std_" ++ py_str w) (NumCol (rolling_std w (num d "ret_1"))) d in
    assign ("vol_" ++ py_str w) (NumCol (rolling_std w (num d "ret_1"))) d) roll_windows df.

(** Lines 91-132 of [main], in the code's order. *)
Definition build_features df : frame F :=
  let df := assign "ret_1" (NumCol (diff (s_map fln (num df "close")))) df in
  let df := add_lags df in
  let df := add_rolling df in
  let df := assign "hl_range" (NumCol (s_map2 fdiv (s_map2 (tot2 fsub) (num df "high") (num df "low"))
                                                (plus_eps (num df "close")))) df in
  let df := assign "atr_14" (NumCol (atr (num df "high") (num df "low") (num df "close") 14)) df in
  let df := assign "rsi_14" (NumCol (rsi (num df "close") 14)) df in
  let m := macd (num df "close") in
  let df := assign "macd_line" (NumCol (fst (fst m))) df in
  let df := assign "macd_signal" (NumCol (snd (fst m))) df in
  let df := assign "macd_hist" (NumCol (snd m)) df in
  let mid := rolling_mean 20 (num df "close") in
  let std := rolling_std 20 (num df "close") in
  let df := assign "bb_mid" (NumCol mid) df in
  let df := assign "bb_up" (NumCol (s_map2 (tot2 fadd) mid (s_map (tot1 (fmul (flit 2))) std))) df in
  let df := assign "bb_low" (NumCol (s_map2 (tot2 fsub) mid (s_map (tot1 (fmul (flit 2))) std))) df in
  let df := assign "bb_width" (NumCol (s_map2 fdiv (s_map2 (tot2 fsub) (num df "bb_up") (num df "bb_low"))
                                                (plus_eps (num df "close")))) df in
  let df := df ++ map (fun nc => (fst nc, NumCol (snd nc))) (make_time_features (ts_of df)) in
  let df := assign "hurst_128" (NumCol (rolling_apply 128 hurst_simple (num df "close"))) df in
  let df := assign "hurst_256" (NumCol (rolling_apply 256 hurst_simple (num df "close"))) df in
  let df := assign "y_1h" (NumCol (s_map fln (s_map2 fdiv (shift_back 1 (num df "close")) (num df "close")))) df in
  assign "y_1d" (NumCol (s_map fln (s_map2 fdiv (shift_back 24 (num df "close")) (num df "close")))) df.

(** The frame [build_features] produces on the raw table, as one list. *)
Definition feature_frame rows : frame F :=
  let c := map close rows in
  let r := diff (s_map fln c) in
  let m := macd c in
  let mid := rolling_mean 20 c in
  let std := rolling_std 20 c in
  let up := s_map2 (tot2 fadd) mid (s_map (tot1 (fmul (flit 2))) std) in
  let lo := s_map2 (tot2 fsub) mid (s_map (tot1 (fmul (flit 2))) std) in
  of_candles rows ++
  [("ret_1", NumCol r)]%string ++
  map (fun k => ("ret_lag_" ++ py_str k, NumCol (shift k r)))%string (seq 1 24) ++
  flat_map (fun w => [("ret_mean_" ++ py_str w, NumCol (rolling_mean w r));
                      ("ret_std_" ++ py_str w, NumCol (rolling_std w r));
                      ("vol_" ++ py_str w, NumCol (rolling_std w r))]%string) roll_windows ++
  [("hl_range", NumCol (s_map2 fdiv (s_map2 (tot2 fsub) (map high rows) (map low rows)) (plus_eps c)));
   ("atr_14", NumCol (atr (map high rows) (map low rows) c 14));
   ("rsi_14", NumCol (rsi c 14));
   ("macd_line", NumCol (fst (fst m))); ("macd_signal", NumCol (snd (fst m))); ("macd_hist", NumCol (snd m));
   ("bb_mid", NumCol mid); ("bb_up", NumCol up); ("bb_low", NumCol lo);
   ("bb_width", NumCol (s_map2 fdiv (s_map2 (tot2 fsub) up lo) (plus_eps c)))]%string ++
  map (fun nc => (fst nc, NumCol (snd nc))) (make_time_features (map timestamp_utc rows)) ++
  [("hurst_128", NumCol (rolling_apply 128 hurst_simple c));
   ("hurst_256", NumCol (rolling_apply 256 hurst_simple c));
   ("y_1h", NumCol (s_map fln (s_map2 fdiv (shift_back 1 c) c)));
   ("y_1d", NumCol (s_map fln (s_map2 fdiv (shift_back 24 c) c)))]%string.

(** A row is kept by [dropna] when no float column is NaN there. *)
Definition row_ok df (t : nat) : bool :=
  forallb (fun nc => match snd nc with
                     | TsCol _ => true
                     | NumCol c => match nth_error c t with Some (Some _) => true | _ => false end
                     end) df.

Definition select {A} (mask : list bool) (l : list A) : list A :=
  map snd (List.filter fst (combine mask l)).

(** The rows [dropna] keeps. *)
Definition drop_mask df : list bool := map (row_ok df) (seq 0 (length (ts_of df))).

(** [df.dropna().reset_index(drop=True)]. *)
Definition dropna df : frame F :=
  let mask := drop_mask df in
  map (fun nc => (fst nc, match snd nc with
                          | TsCol t => TsCol (select mask t)
                          | NumCol c => NumCol (select mask c)
                          end)) df.

(** The row numbers of the pre-drop frame that [dropna] keeps. *)
Definition kept_rows df : list nat := List.filter (row_ok df) (seq 0 (length (ts_of df))).

(** The first [k] rows of every column. *)
Definition frame_firstn (k : nat) df : frame F :=
  map (fun nc => (fst nc, match snd nc with
                          | TsCol t => TsCol (firstn k t)
                          | NumCol c => NumCol (firstn k c)
                          end)) df.

(** The frame without its two label columns. *)
Definition drop_labels df : frame F :=
  List.filter (fun nc => negb (String.eqb (fst nc) "y_1h" || String.eqb (fst nc) "y_1d")) df.

(** [[c for c in df_feat.columns if c not in exclude]]. *)
Definition feature_cols df : list string :=
  List.filter (fun nm => negb (existsb (String.eqb nm) exclude)) (map fst df).
End Features.

(** The label of the first row of the feature table built from 281 rows. *)
Definition demo_label : option fx :=
  match nth_error (num (dropna (build_features (of_candles (demo_hourly 281)))) "y_1h") 0 with
  | Some y => y
  | None => None
  end.

(** What [main] writes, in order. *)
Inductive artifact (F : Type) :=
| WroteFeatures (df : frame F)
| WroteFeatureList (cols : list string)
| WroteSplits (sp : split_meta).
Arguments WroteFeatures {F} df.
Arguments WroteFeatureList {F} cols.
Arguments WroteSplits {F} sp.

Section Main.
Context {F : Type} `{FloatOrd F} `{FloatOps F}.

(** [main()]: [RuntimeError] without the raw file; otherwise the feature
    table and the feature list are written before the split, whose
    [iloc] raises [IndexError] on an empty feature table. *)
Definition main (raw : option (list (candle (option F)))) : list (artifact F) * result unit :=
  match raw with
  | None => ([], Err RuntimeError)
  | Some rows =>
      let df := build_features (of_candles (sort_values rows)) in
      let df_feat := dropna df in
      let cols := feature_cols df_feat in
      match make_splits (ts_of df_feat) with
      | Ok sp => ([WroteFeatures df_feat; WroteFeatureList cols; WroteSplits sp], Ok tt)
      | Err e => ([WroteFeatures df_feat; WroteFeatureList cols], Err e)
      end
  end.
End Main.

Section Proofs.
Context {F : Type} `{FloatOrd F} `{FloatOps F}.
Implicit Types (df : frame F) (rows : list (candle (option F))).

Lemma build_features_frame (rows : list (candle (option F))) :
  build_features (of_candles rows) = feature_frame rows.
Proof. reflexivity. Qed.

(** ** [dropna] *)

Lemma select_seq {A} (p : nat -> bool) (l : list A) a d :
  select (map p (seq a (length l))) l = map (fun t => nth (t - a) l d) (List.filter p (seq a (length l))).
Proof.
  unfold select. revert a. induction l as [|x l IH]; intros a; [done|].
  simpl. destruct (p a); simpl; rewrite IH; [rewrite Nat.sub_diag; f_equal|];
    apply map_ext_in; intros t Ht; apply filter_In in Ht as [Ht _]; apply in_seq in Ht;
    by replace (t - a)%nat with (S (t - S a)) by lia.
Qed.

Lemma find_map_snd {B C} (g : string * B -> C) (l : list (string * B)) nm :
  find (fun nc => String.eqb (fst nc) nm) (map (fun nc => (fst nc, g nc)) l) =
  option_map (fun nc => (fst nc, g nc)) (find (fun nc => String.eqb (fst nc) nm) l).
Proof.
  induction l as [|[n c] l IH]; [done|]. simpl. by destruct (String.eqb n nm).
Qed.

Lemma num_dropna df nm : num (dropna df) nm = select (drop_mask df) (num df nm).
Proof.
  unfold num, dropna, drop_mask. rewrite find_map_snd.
  destruct (find _ df) as [[n [t|c]]|]; simpl; [|done|]; unfold select; by rewrite ?combine_nil.
Qed.

Lemma ts_of_dropna df : ts_of (dropna df) = select (drop_mask df) (ts_of df).
Proof.
  unfold ts_of, dropna, drop_mask. rewrite find_map_snd.
  destruct (find _ df) as [[n [t|c]]|]; simpl; [done|..]; unfold select; by rewrite ?combine_nil.
Qed.

(** A column of the frame, as [dropna] leaves it: the kept rows. *)
Lemma select_kept {A} df (l : list A) d :
  length l = length (ts_of df) ->
  select (drop_mask df) l = map (fun t => nth t l d) (kept_rows df).
Proof.
  intros E. unfold drop_mask, kept_rows. rewrite <- E, (select_seq _ _ 0 d).
  apply map_ext. intros t. by rewrite Nat.sub_0_r.
Qed.

Lemma row_ok_num df t nm :
  row_ok df t = true -> num df nm <> [] -> exists x, nth_error (num df nm) t = Some (Some x).
Proof.
  intros Hok Hne. unfold num in *. destruct (find _ df) as [[n [ts|c]]|] eqn:E; try done.
  apply find_some in E as [Hin _]. unfold row_ok in Hok. rewrite forallb_forall in Hok.
  specialize (Hok _ Hin). simpl in Hok. destruct (nth_error c t) as [[x|]|]; [by exists x|done|done].
Qed.

Lemma kept_rows_ok df t : In t (kept_rows df) -> row_ok df t = true /\ (t < length (ts_of df))%nat.
Proof. unfold kept_rows. rewrite filter_In, in_seq. intros [? ?]. split; [done|lia]. Qed.

(** ** The columns of the feature frame *)

Lemma ts_of_features rows : ts_of (feature_frame rows) = map timestamp_utc rows.
Proof. reflexivity. Qed.

Lemma y_1h_features rows :
  num (feature_frame rows) "y_1h" = s_map fln (s_map2 fdiv (shift_back 1 (map close rows)) (map close rows)).
Proof. reflexivity. Qed.

Lemma y_1d_features rows :
  num (feature_frame rows) "y_1d" = s_map fln (s_map2 fdiv (shift_back 24 (map close rows)) (map close rows)).
Proof. reflexivity. Qed.

Lemma hurst_256_features rows :
  num (feature_frame rows) "hurst_256" = rolling_apply 256 hurst_simple (map close rows).
Proof. reflexivity. Qed.

(** The value of a look-ahead label at row [t]. *)
Lemma label_nth (c : list (option F)) h t :
  (t < length c)%nat ->
  nth_error (s_map fln (s_map2 fdiv (shift_back h c) c)) t =
    if Nat.ltb (t + h) (length c)
    then match nth_error c (t + h), nth_error c t with
         | Some a, Some b => Some (lift2 fdiv a b ≫= fln)
         | _, _ => None
         end
    else Some None.
Proof.
  intros Ht. rewrite s_map_nth, s_map2_nth, shift_back_nth by done.
  destruct (Nat.ltb_spec (t + h) (length c)).
  - destruct (nth_error c (t + h)); [|done]. by destruct (nth_error c t).
  - destruct (nth_error c t) eqn:E; [done|]. apply nth_error_None in E. lia.
Qed.

Lemma label_length (c : list (option F)) h :
  length (s_map fln (s_map2 fdiv (shift_back h c) c)) = length c.
Proof. rewrite s_map_length, s_map2_len, shift_back_length. lia. Qed.

(** A kept row has its [h]-step label, so [h] more rows follow it. *)
Lemma kept_label rows t h nm :
  num (feature_frame rows) nm = s_map fln (s_map2 fdiv (shift_back h (map close rows)) (map close rows)) ->
  In t (kept_rows (feature_frame rows)) -> (t + h < length rows)%nat.
Proof.
  intros En Hin. apply kept_rows_ok in Hin as [Hok Ht]. rewrite ts_of_features, length_map in Ht.
  destruct (row_ok_num _ t nm Hok) as [x Hx].
  { rewrite En. intros E. apply (f_equal (@length _)) in E. rewrite label_length, length_map in E.
    simpl in E. lia. }
  rewrite En, label_nth in Hx by (rewrite length_map; lia). rewrite length_map in Hx.
  by destruct (Nat.ltb_spec (t + h) (length rows)).
Qed.

(** A kept row has its 256-row Hurst estimate, so 255 rows precede it. *)
Lemma kept_hurst rows t : In t (kept_rows (feature_frame rows)) -> (255 <= t)%nat.
Proof.
  intros Hin. apply kept_rows_ok in Hin as [Hok Ht]. rewrite ts_of_features, length_map in Ht.
  destruct (row_ok_num _ t "hurst_256" Hok) as [x Hx].
  { rewrite hurst_256_features. intros E. apply (f_equal (@length _)) in E.
    unfold rolling_apply in E. rewrite rolling_length, length_map in E. simpl in E. lia. }
  rewrite hurst_256_features in Hx. destruct (Nat.ltb_spec t 255); [|lia].
  unfold rolling_apply in Hx. rewrite rolling_warmup in Hx by (rewrite ?length_map; lia). done.
Qed.

Lemma feature_cols_dropna df : feature_cols (dropna df) = feature_cols df.
Proof. unfold feature_cols, dropna. by rewrite map_map. Qed.

Lemma dropna_ts_length rows :
  length (ts_of (dropna (feature_frame rows))) = length (kept_rows (feature_frame rows)).
Proof.
  rewrite ts_of_dropna, (select_kept (feature_frame rows) (ts_of (feature_frame rows)) 0%Z) by done.
  apply length_map.
Qed.

Lemma dropna_rows_bound rows :
  (length (ts_of (dropna (feature_frame rows))) <= length rows - 279)%nat.
Proof.
  rewrite dropna_ts_length.
  transitivity (length (seq 255 (length rows - 279))); [|by rewrite length_seq].
  apply NoDup_incl_length; [apply List.NoDup_filter, seq_NoDup|].
  intros t Hin. apply in_seq. pose proof (kept_hurst rows t Hin).
  pose proof (kept_label rows t 24 "y_1d" (y_1d_features rows) Hin). lia.
Qed.

Lemma plus_eps_causal k s : plus_eps (firstn k s) = firstn k (plus_eps s).
Proof. apply s_map_causal. Qed.

Ltac push_firstn_features :=
  repeat first
    [ progress push_firstn
    | rewrite <- rsi_causal | rewrite <- atr_causal | rewrite <- macd_line_causal
    | rewrite <- macd_signal_causal | rewrite <- macd_hist_causal | rewrite <- ema_causal
    | rewrite <- plus_eps_causal ].

(** C22: no feature uses a later row: every column of the feature frame
    but the two labels, cut to its first [k] rows, is the column computed
    from the first [k] rows of the table. *)
Theorem build_features_causal (rows : list (candle (option F))) k :
  drop_labels (build_features (of_candles (firstn k rows))) =
  drop_labels (frame_firstn k (build_features (of_candles rows))).
Proof.
  rewrite !build_features_frame. unfold feature_frame, frame_firstn, drop_labels. simpl.
  repeat f_equal. all: try by rewrite !firstn_map.
  all: rewrite <- ?firstn_map; by push_firstn_features.
Qed.

Lemma dropna_label rows i y :
  nth_error (num (dropna (build_features (of_candles rows))) "y_1h") i = Some y ->
  exists t r r', nth_error rows t = Some r /\ nth_error rows (S t) = Some r' /\
    nth_error (ts_of (dropna (build_features (of_candles rows)))) i = Some (timestamp_utc r) /\
    y = lift2 fdiv (close r') (close r) ≫= fln.
Proof.
  rewrite build_features_frame, num_dropna, ts_of_dropna. intros Hy.
  rewrite (select_kept _ _ None) in Hy by (rewrite y_1h_features, label_length, ts_of_features; by rewrite !length_map).
  rewrite nth_error_map in Hy. destruct (nth_error (kept_rows _) i) as [t|] eqn:Ek; [|done].
  injection Hy as <-. pose proof (nth_error_In _ _ Ek) as Hin.
  pose proof (kept_label rows t 1 "y_1h" (y_1h_features rows) Hin) as Ht.
  destruct (nth_error rows t) as [r|] eqn:Er; [|apply nth_error_None in Er; lia].
  destruct (nth_error rows (S t)) as [r'|] eqn:Er'; [|apply nth_error_None in Er'; lia].
  exists t, r, r'. repeat split; [done|done|..].
  - rewrite (select_kept _ _ 0%Z) by done. rewrite nth_error_map, Ek. simpl. f_equal.
    apply nth_error_nth. by rewrite ts_of_features, nth_error_map, Er.
  - apply nth_error_nth. rewrite y_1h_features, label_nth by (rewrite length_map; lia).
    rewrite length_map, Nat.add_1_r, !nth_error_map, Er, Er'.
    by destruct (Nat.ltb_spec (S t) (length rows)); [|lia].
Qed.

(** C23: no look-ahead in the labels: the [y_1h] of the [i]-th row of the
    finalized table is the log return from that row's close to the close
    of the next row of the pre-drop table. *)
Theorem features_label rows i y :
  nth_error (num (dropna (build_features (of_candles rows))) "y_1h") i = Some y ->
  exists t r r', nth_error rows t = Some r /\ nth_error rows (S t) = Some r' /\
    nth_error (ts_of (dropna (build_features (of_candles rows)))) i = Some (timestamp_utc r) /\
    y = lift2 fdiv (close r') (close r) ≫= fln.
Proof. apply dropna_label. Qed.

(** C24: [dropna] removes the warm-up head and the look-ahead tail: every
    kept row has 255 rows before it (the 256-row Hurst window) and 24 after
    it (the [y_1d] label), so the feature table has at most [n - 279] rows. *)
Theorem features_kept_rows rows :
  (forall t, In t (kept_rows (build_features (of_candles rows))) ->
     (255 <= t)%nat /\ (t + 24 < length rows)%nat) /\
  length (ts_of (dropna (build_features (of_candles rows)))) = length (kept_rows (build_features (of_candles rows))) /\
  (length (ts_of (dropna (build_features (of_candles rows)))) <= length rows - 279)%nat.
Proof.
  rewrite !(build_features_frame rows).
  split; [|split; [apply dropna_ts_length|apply dropna_rows_bound]].
  intros t Hin. split; [by apply (kept_hurst rows)|].
  exact (kept_label rows t 24 "y_1d" (y_1d_features rows) Hin).
Qed.

(** C26: [main]'s error paths: without the raw file it raises
    [RuntimeError] and writes nothing; on a table of at most 279 rows
    [dropna] leaves no row, and [main] writes the empty feature table and
    the feature list before the split's [iloc[0]] raises [IndexError]. *)
Theorem main_errors rows :
  main None = ([], Err RuntimeError) /\
  ((length rows <= 279)%nat ->
   let df_feat := dropna (build_features (of_candles (sort_values rows))) in
   main (Some rows) = ([WroteFeatures df_feat; WroteFeatureList (feature_cols df_feat)], Err IndexError)).
Proof.
  split; [done|]. intros Hl. cbn zeta. unfold main.
  pose proof (dropna_rows_bound (sort_values rows)) as Hb.
  rewrite <- build_features_frame in Hb. rewrite <- (Permutation_length (sort_values_perm rows)) in Hb.
  destruct (ts_of (dropna _)) eqn:E; [done|]. simpl in Hb. lia.
Qed.

(** The feature manifest: every column of the feature table but the
    raw OHLCV fields and the labels, in the frame's order.  It begins with
    [timestamp_utc] (the raw table stores it last, after [volume], and the
    exclusion set does not name it) and lists [ret_std_w] and [vol_w], two
    copies of the same column, for each window. *)
Theorem feature_cols_manifest rows :
  feature_cols (dropna (build_features (of_candles rows))) =
    ["timestamp_utc"; "ret_1"; "ret_lag_1"; "ret_lag_2"; "ret_lag_3"; "ret_lag_4";
     "ret_lag_5"; "ret_lag_6"; "ret_lag_7"; "ret_lag_8"; "ret_lag_9"; "ret_lag_10";
     "ret_lag_11"; "ret_lag_12"; "ret_lag_13"; "ret_lag_14"; "ret_lag_15"; "ret_lag_16";
     "ret_lag_17"; "ret_lag_18"; "ret_lag_19"; "ret_lag_20"; "ret_lag_21"; "ret_lag_22";
     "ret_lag_23"; "ret_lag_24"; "ret_mean_6"; "ret_std_6"; "vol_6"; "ret_mean_12";
     "ret_std_12"; "vol_12"; "ret_mean_24"; "ret_std_24"; "vol_24"; "ret_mean_72";
     "ret_std_72"; "vol_72"; "ret_mean_168"; "ret_std_168"; "vol_168"; "hl_range"; "atr_14";
     "rsi_14"; "macd_line"; "macd_signal"; "macd_hist"; "bb_mid"; "bb_up"; "bb_low";
     "bb_width"; "hour_sin"; "hour_cos"; "dow_sin"; "dow_cos"; "hurst_128"; "hurst_256"]%string.
Proof. rewrite feature_cols_dropna, build_features_frame. reflexivity. Qed.

(** C27: no look-ahead across the stages: on the regularizer's output,
    the [y_1h] of each row of the feature table is the log return from that
    row's close to the close of the candle exactly one hour later. *)
Theorem features_label_next_hour (df : list (candle (option F))) out m i y :
  NoDup (ts_col df) -> fix_hourly_gaps df = Ok (out, m) ->
  nth_error (num (dropna (build_features (of_candles out))) "y_1h") i = Some y ->
  exists r r', In r out /\ In r' out /\ timestamp_utc r' = timestamp_utc r + hour_ms /\
    nth_error (ts_of (dropna (build_features (of_candles out)))) i = Some (timestamp_utc r) /\
    y = lift2 fdiv (close r') (close r) ≫= fln.
Proof.
  intros Hnd Hfix Hy. apply fix_hourly_gaps_out in Hfix as [Hne ->]; [|done].
  destruct (dropna_label _ _ _ Hy) as (t & r & r' & Hr & Hr' & Hts & ->).
  exists r, r'. repeat split; [by eapply nth_error_In|by eapply nth_error_In| |done].
  by apply (regularize_rows_next df t).
Qed.
End Proofs.

(** The first label of the 281-row example, computed once and shared. *)
Lemma demo_hourly_label :
  nth_error (num (dropna (build_features (of_candles (demo_hourly 281)))) "y_1h") 0 = Some demo_label.
Proof. vm_compute. reflexivity. Qed.

(** ** Witnesses *)

Lemma features_label_witness :
  exists t r r', nth_error (demo_hourly 281) t = Some r /\ nth_error (demo_hourly 281) (S t) = Some r' /\
    nth_error (ts_of (dropna (build_features (of_candles (demo_hourly 281))))) 0 = Some (timestamp_utc r) /\
    demo_label = lift2 fdiv (close r') (close r) ≫= fln.
Proof. apply features_label, demo_hourly_label. Defined.

Lemma main_errors_witness :
  let df_feat := dropna (build_features (of_candles (sort_values (demo_hourly 30)))) in
  main (Some (demo_hourly 30)) = ([WroteFeatures df_feat; WroteFeatureList (feature_cols df_feat)], Err IndexError).
Proof. apply (proj2 (main_errors (demo_hourly 30))). vm_compute. lia. Defined.

Lemma features_label_next_hour_witness :
  exists r r', In r (demo_hourly 281) /\ In r' (demo_hourly 281) /\
    timestamp_utc r' = timestamp_utc r + hour_ms /\
    nth_error (ts_of (dropna (build_features (of_candles (demo_hourly 281))))) 0 =
      Some (timestamp_utc r) /\
    demo_label = lift2 fdiv (close r') (close r) ≫= fln.
Proof.
  apply (features_label_next_hour (demo_hourly 281) _ 0%nat 0%nat).
  - apply (bool_decide_eq_true _). vm_compute. reflexivity.
  - vm_compute. reflexivity.
  - apply demo_hourly_label.
Defined.
