(* ===== verification/Settings.v ===== *)
(** * Settings: [src/common/config.py]

    The process environment is a finite map from variable names to
    values ([os.environ] after [load_dotenv(override=True)]); [getenv]
    reads it with a default.  Strings are Rocq byte strings holding the
    UTF-8 encoding of the Python text; [str.strip] is modelled on the
    ASCII characters Python counts as whitespace, and substring search
    ([in]) on bytes, which agrees with Python's search on code points
    for valid UTF-8.  The file also holds [str.replace], used by
    [fix_gaps.main] to derive its output path. *)

From Stdlib Require Import String Ascii.
From stdpp Require Import gmap strings.
From S2P Require Import Prelude.

Local Open Scope string_scope.

(** ** String helpers of the Python standard library *)

(** [str.isspace] on one ASCII character: [\t \n \x0b \x0c \r],
    [\x1c]-[\x1f] and the space. *)
Definition py_isspace (c : ascii) : bool :=
  let n := nat_of_ascii c in
  ((9 <=? n) && (n <=? 13))%nat || ((28 <=? n) && (n <=? 32))%nat.

Fixpoint lstrip (s : string) : string :=
  match s with
  | EmptyString => EmptyString
  | String c s' => if py_isspace c then lstrip s' else s
  end.

Fixpoint rstrip (s : string) : string :=
  match s with
  | EmptyString => EmptyString
  | String c s' =>
      match rstrip s' with
      | EmptyString => if py_isspace c then EmptyString else String c EmptyString
      | r => String c r
      end
  end.

(** [s.strip()]: the left scan, then the right scan over what is left. *)
Definition strip (s : string) : string := rstrip (lstrip s).

(** [pat in s]. *)
Fixpoint contains (pat s : string) : bool :=
  String.prefix pat s ||
  match s with
  | EmptyString => false
  | String _ s' => contains pat s'
  end.

(** [s[n:]]. *)
Fixpoint str_drop (n : nat) (s : string) : string :=
  match n, s with
  | O, _ => s
  | S n', String _ s' => str_drop n' s'
  | S _, EmptyString => EmptyString
  end.

(** [s.replace(old, new)] for a non-empty [old]: scan left to right,
    replacing each occurrence and resuming after it. Every step consumes
    at least one character, so [String.length s] steps are enough. *)
Fixpoint replace_fuel (fuel : nat) (old new s : string) : string :=
  match fuel, s with
  | O, _ => s
  | _, EmptyString => EmptyString
  | S f, String c s' =>
      if String.prefix old s
      then new ++ replace_fuel f old new (str_drop (String.length old) s)
      else String c (replace_fuel f old new s')
  end.

(** [s.replace("", new)] inserts [new] before every character and at the end. *)
Fixpoint interleave (new s : string) : string :=
  match s with
  | EmptyString => new
  | String c s' => new ++ String c (interleave new s')
  end.

Definition py_replace (old new s : string) : string :=
  match old with
  | EmptyString => interleave new s
  | _ => replace_fuel (String.length s) old new s
  end.

(** ** [config.py] *)

(** [os.environ]. *)
Abbreviation env := (gmap string string).

(** [os.getenv(key, default)]. *)
Definition getenv (e : env) (key default : string) : string :=
  match e !! key with Some v => v | None => default end.

(** [load_dotenv(dotenv_path=ENV_PATH, override=True)] at import: the
    variables the .env file sets (read by python-dotenv) replace those of
    the process environment. *)
Definition load_dotenv (dotenv : env) (e : env) : env := dotenv ∪ e.

(** [@dataclass(frozen=True) class Settings]. *)
Record settings := mk_settings {
  telegram_token : string;
  model_api_url : string;
  symbol : string;
  timeframe : string;
  exchange : string;
  data_raw_path : string;
  data_features_path : string;
  tz : string
}.

Definition get_settings (e : env) : settings :=
  {| telegram_token := strip (getenv e "TELEGRAM_TOKEN" "");
     model_api_url := strip (getenv e "MODEL_API_URL" "http://127.0.0.1:8000");
     symbol := strip (getenv e "SYMBOL" "BTC/USDT");
     timeframe := strip (getenv e "TIMEFRAME" "1h");
     exchange := strip (getenv e "EXCHANGE" "binance");
     data_raw_path := strip (getenv e "DATA_RAW_PATH" "data/raw/btcusdt_1h_fixed.parquet");
     data_features_path := strip (getenv e "DATA_FEATURES_PATH" "data/processed/features_1h.parquet");
     tz := strip (getenv e "TZ" "UTC") |}.

(** ** What [str.strip] promises *)

(** [s] is made of whitespace only. *)
Fixpoint all_space (s : string) : bool :=
  match s with
  | EmptyString => true
  | String c s' => py_isspace c && all_space s'
  end.

(** [v] is [raw] with its surrounding whitespace cut off: [raw] is some
    whitespace, then [v], then some whitespace, and [v] neither starts
    nor ends with a whitespace character.  At most one [v] fits. *)
Definition stripped_of (raw v : string) : Prop :=
  (exists pre post, raw = pre ++ v ++ post /\ all_space pre = true /\ all_space post = true) /\
  (forall c r, v = String c r -> py_isspace c = false) /\
  (forall r c, v = r ++ String c "" -> py_isspace c = false).

(** The placeholder the template [.env] carries. *)
Definition token_placeholder : string := "ВСТАВЬ_ТОКЕН".

Definition require_telegram_token (e : env) : result string :=
  let token := strip (getenv e "TELEGRAM_TOKEN" "") in
  if String.eqb token "" || contains token_placeholder token
  then Err RuntimeError
  else Ok token.

(** [fix_gaps.main]: [s.data_raw_path.replace(".parquet", "_fixed.parquet")]. *)
Definition fixed_path (p : string) : string := py_replace ".parquet" "_fixed.parquet" p.

(** ** String lemmas *)

Lemma str_length_app (s t : string) : String.length (s ++ t) = (String.length s + String.length t)%nat.
Proof. induction s; [reflexivity|simpl; lia]. Qed.

Lemma str_drop_length n s : String.length (str_drop n s) = (String.length s - n)%nat.
Proof. revert s; induction n; intros [|c s]; cbn; auto; lia. Qed.

Lemma prefix_app (pat s : string) : String.prefix pat s = true <-> exists post, s = pat ++ post.
Proof.
  revert s; induction pat as [|a pat IH]; intros [|b s]; cbn.
  - split; eauto.
  - split; eauto.
  - split; [done|]. by intros [? ?].
  - destruct (ascii_dec a b) as [->|Hab].
    + rewrite IH. split; intros [post E]; exists post; [by subst|by injection E].
    + split; [done|]. intros [post E]. injection E. congruence.
Qed.

Lemma prefix_length (pat s : string) :
  String.prefix pat s = true -> (String.length pat <= String.length s)%nat.
Proof. intros [post ->]%prefix_app. rewrite str_length_app. lia. Qed.

Lemma contains_cons pat c s :
  contains pat (String c s) = String.prefix pat (String c s) || contains pat s.
Proof. reflexivity. Qed.

Lemma contains_empty pat : contains pat "" = true <-> pat = "".
Proof. destruct pat; cbn; split; congruence. Qed.

(** ** [strip] *)

Lemma lstrip_split s : exists pre, s = pre ++ lstrip s /\ all_space pre = true.
Proof.
  induction s as [|c s [pre [E Hp]]]; [by exists ""|]. cbn.
  destruct (py_isspace c) eqn:Ec; [|by exists ""].
  exists (String c pre). split; [by rewrite E at 1|]. cbn. by rewrite Ec, Hp.
Qed.

Lemma lstrip_head s c r : lstrip s = String c r -> py_isspace c = false.
Proof.
  induction s as [|c0 s IH]; cbn; [discriminate|].
  destruct (py_isspace c0) eqn:Ec; [done|]. by intros [= <- _].
Qed.

Lemma rstrip_split s : exists post, s = rstrip s ++ post /\ all_space post = true.
Proof.
  induction s as [|c s [post [E Hp]]]; [by exists ""|]. cbn [rstrip].
  destruct (rstrip s) as [|d r] eqn:Er; cbn in E; subst s.
  - destruct (py_isspace c) eqn:Ec; [exists (String c post)|exists post]; cbn; by rewrite ?Ec.
  - by exists post.
Qed.

(** The first character of [rstrip t] is the first character of [t]. *)
Lemma rstrip_first t c r : rstrip t = String c r -> exists r', t = String c r'.
Proof.
  destruct t as [|c0 t]; cbn; [discriminate|].
  destruct (rstrip t); [destruct (py_isspace c0)|]; intros [=]; subst; eauto.
Qed.

Lemma rstrip_last s r c : rstrip s = r ++ String c "" -> py_isspace c = false.
Proof.
  revert r; induction s as [|c0 s IH]; intros r; cbn [rstrip].
  { by destruct r. }
  destruct (rstrip s) as [|d t] eqn:Er.
  - destruct (py_isspace c0) eqn:Ec; [by destruct r|].
    destruct r as [|a [|]]; intros [=]; subst; done.
  - destruct r as [|a r]; [intros [=]|].
    intros [= _ E]. by apply (IH r).
Qed.

(** [strip] meets its specification. *)
Lemma strip_spec s : stripped_of s (strip s).
Proof.
  unfold strip. split; [|split].
  - destruct (lstrip_split s) as [pre [E1 H1]].
    destruct (rstrip_split (lstrip s)) as [post [E2 H2]].
    exists pre, post. rewrite E1 at 1. rewrite E2 at 1. auto.
  - intros c r (r' & E)%rstrip_first. by apply (lstrip_head s c r').
  - apply rstrip_last.
Qed.

(** ** [str.replace] *)

Lemma replace_fuel_absent f old new s :
  contains old s = false -> replace_fuel f old new s = s.
Proof.
  revert s; induction f as [|f IH]; intros [|c s] Hc; cbn [replace_fuel]; [done|done|done|].
  rewrite contains_cons in Hc. apply orb_false_iff in Hc as [Hp Hc].
  rewrite Hp, IH by done. done.
Qed.

Lemma replace_fuel_ge f old new s :
  (String.length old <= String.length new)%nat ->
  (String.length s <= String.length (replace_fuel f old new s))%nat.
Proof.
  intros Hlen. revert s; induction f as [|f IH]; intros [|c s]; cbn [replace_fuel]; try lia.
  destruct (String.prefix old (String c s)) eqn:Hp.
  - pose proof (prefix_length _ _ Hp). rewrite str_length_app.
    specialize (IH (str_drop (String.length old) (String c s))).
    rewrite str_drop_length in IH. cbn in *. lia.
  - cbn. specialize (IH s). lia.
Qed.

Lemma replace_fuel_gt f old new s :
  old <> "" -> (String.length old < String.length new)%nat ->
  (String.length s <= f)%nat -> contains old s = true ->
  (String.length s < String.length (replace_fuel f old new s))%nat.
Proof.
  intros Hne Hlen. revert s; induction f as [|f IH]; intros [|c s] Hf Hc.
  - by apply contains_empty in Hc.
  - cbn in Hf. lia.
  - by apply contains_empty in Hc.
  - cbn [replace_fuel]. destruct (String.prefix old (String c s)) eqn:Hp.
    + pose proof (prefix_length _ _ Hp).
      pose proof (replace_fuel_ge f old new (str_drop (String.length old) (String c s)) ltac:(lia)).
      rewrite str_length_app. rewrite str_drop_length in *. lia.
    + rewrite contains_cons, Hp in Hc. cbn in Hf |- *. specialize (IH s ltac:(lia) Hc). lia.
Qed.

Lemma py_replace_nonempty old new s :
  old <> "" -> py_replace old new s = replace_fuel (String.length s) old new s.
Proof. by destruct old. Qed.

Lemma contains_split pat s :
  contains pat s = true <-> exists pre post, s = pre ++ pat ++ post.
Proof.
  induction s as [|c s IH].
  - rewrite contains_empty. split.
    + intros ->. by exists "", "".
    + intros (pre & post & E). destruct pre; [destruct pat; [done|discriminate]|discriminate].
  - rewrite contains_cons, orb_true_iff, IH, prefix_app. split.
    + intros [[post E]|(pre & post & E)]; [by exists "", post|].
      exists (String c pre), post. by rewrite E.
    + intros ([|d pre] & post & E); [left; by exists post|right].
      injection E as -> E. eauto.
Qed.

Lemma fixed_path_longer p :
  contains ".parquet" p = true -> (String.length p < String.length (fixed_path p))%nat.
Proof.
  intros Hc. unfold fixed_path. rewrite py_replace_nonempty by done.
  apply replace_fuel_gt; [done|cbn; lia|lia|done].
Qed.

Lemma fixed_path_absent p : contains ".parquet" p = false -> fixed_path p = p.
Proof. intros Hc. unfold fixed_path. rewrite py_replace_nonempty by done. by apply replace_fuel_absent. Qed.

Lemma getenv_load_dotenv dotenv e key default :
  getenv (load_dotenv dotenv e) key default =
    match dotenv !! key with Some v => v | None => getenv e key default end.
Proof.
  unfold getenv, load_dotenv. rewrite lookup_union.
  by destruct (dotenv !! key), (e !! key).
Qed.

(** ** Properties of the settings *)

(** C29: every field of [Settings] is the environment's value (or the
    default) with its surrounding whitespace removed: the value is that
    whitespace, the field, and more whitespace, and the field neither
    starts nor ends with a whitespace character. *)
Theorem settings_stripped e :
  let s := get_settings e in
  stripped_of (getenv e "TELEGRAM_TOKEN" "") (telegram_token s) /\
  stripped_of (getenv e "MODEL_API_URL" "http://127.0.0.1:8000") (model_api_url s) /\
  stripped_of (getenv e "SYMBOL" "BTC/USDT") (symbol s) /\
  stripped_of (getenv e "TIMEFRAME" "1h") (timeframe s) /\
  stripped_of (getenv e "EXCHANGE" "binance") (exchange s) /\
  stripped_of (getenv e "DATA_RAW_PATH" "data/raw/btcusdt_1h_fixed.parquet") (data_raw_path s) /\
  stripped_of (getenv e "DATA_FEATURES_PATH" "data/processed/features_1h.parquet") (data_features_path s) /\
  stripped_of (getenv e "TZ" "UTC") (tz s).
Proof. cbn zeta. repeat (apply conj; [apply strip_spec|]). apply strip_spec. Qed.

(** C30: [require_telegram_token] fails with [RuntimeError] exactly when
    the stripped token is empty or contains the template placeholder, and
    otherwise returns the stripped token, the one [get_settings] holds. *)
Theorem require_telegram_token_spec e :
  let t := telegram_token (get_settings e) in
  (require_telegram_token e = Err RuntimeError <->
     t = "" \/ exists pre post, t = pre ++ token_placeholder ++ post) /\
  (require_telegram_token e <> Err RuntimeError -> require_telegram_token e = Ok t).
Proof.
  cbn zeta. unfold require_telegram_token. cbn [telegram_token get_settings].
  rewrite <- contains_split. split.
  - destruct (String.eqb_spec (strip (getenv e "TELEGRAM_TOKEN" "")) "") as [E|E]; cbn.
    + split; auto.
    + destruct (contains token_placeholder _); cbn; naive_solver.
  - by destruct (_ || _).
Qed.

(** C31: [fix_gaps] derives an output path equal to its input, and so
    rewrites the raw file in place, exactly when the path has no
    ".parquet" in it. *)
Theorem fixed_path_in_place p :
  fixed_path p = p <-> contains ".parquet" p = false.
Proof.
  split; [|apply fixed_path_absent].
  intros E. destruct (contains ".parquet" p) eqn:Hc; [|done].
  pose proof (fixed_path_longer p Hc). rewrite E in *. lia.
Qed.

(** ** Witnesses *)

Lemma require_telegram_token_spec_witness :
  require_telegram_token (<["TELEGRAM_TOKEN" := " ВСТАВЬ_ТОКЕН_СЮДА
"]> ∅) = Err RuntimeError.
Proof.
  apply (proj2 (proj1 (require_telegram_token_spec _))). right.
  exists "", "_СЮДА". reflexivity.
Defined.

Lemma fixed_path_in_place_witness :
  fixed_path "data/raw/btcusdt_1h.csv" = "data/raw/btcusdt_1h.csv".
Proof. apply (proj2 (fixed_path_in_place _)). reflexivity. Defined.
