(* ===== verification/Store.v ===== *)
(** * The files the stages share: the [main] of each pipeline script

    Each script of [src/data_pipeline] is run as its own process; its
    [main] reads [get_settings()], reads the files it needs and writes the
    files it produces.  The file system is a finite map from paths to
    file contents; a content is typed by the stage that writes it (a
    candle parquet, the feature parquet, the two JSON files of
    [make_features], the validation report, a rendered chart).  Reading a
    parquet that holds a candle table gives its rows; reading a JSON or
    PNG file as parquet raises (pyarrow's [ArrowInvalid], a [ValueError]),
    and so, in the model, does reading the feature parquet as a candle
    table, which pandas would accept (no stage of the code does it with
    the default settings).  Directory creation ([os.makedirs]) and logging
    are not modelled. *)

From Stdlib Require Import String.
From stdpp Require Import gmap strings.
From S2P Require Import Prelude Frame Series Carrier Indicators Split FixGaps Validate Download Features Settings.

Local Open Scope string_scope.

Inductive file (F : Type) :=
| FTable (rows : list (candle (option F)))
| FFeatures (df : frame F)
| FFeatureList (cols : list string)
| FSplits (sp : split_meta)
| FReport (rep : report)
| FChart (rows : list (candle (option F))).
Arguments FTable {F} _.
Arguments FFeatures {F} _.
Arguments FFeatureList {F} _.
Arguments FSplits {F} _.
Arguments FReport {F} _.
Arguments FChart {F} _.

(** The file system. *)
Abbreviation store F := (gmap string (file F)).

(** The fixed output paths of [validate_ohlcv.main] and [make_features.main]. *)
Definition report_path : string := "data/processed/validation_report.json".
Definition feature_list_path : string := "data/processed/feature_list.json".
Definition splits_path : string := "data/processed/splits.json".

Section Stages.
Context {F : Type} `{FloatOrd F} `{FloatOps F}.
Implicit Types (st : store F) (e : env).

(** [getattr(ccxt, name, None)]: the exchange classes ccxt provides. *)
Variable registry : string -> option (Exchange F).

(** [pd.read_parquet(path)] of an existing file, as a candle table. *)
Definition table_of (f : file F) : result (list (candle (option F))) :=
  match f with
  | FTable rows => Ok rows
  | _ => Err ValueError
  end.

(** [pd.read_parquet(path) if os.path.exists(path) else None]. *)
Definition read_opt st (p : string) : result (option (list (candle (option F)))) :=
  match st !! p with
  | None => Ok None
  | Some f => let? rows := table_of f in Ok (Some rows)
  end.

(** [_make_exchange(name)], lines 25-33. *)
Definition make_exchange (name : string) : result (Exchange F) :=
  match registry name with
  | Some ex => Ok ex
  | None => Err RuntimeError
  end.

(** The default [max_batches=10000] of [download_incremental]. *)
Definition max_batches_default : nat := 10000.

(** [download_ohlcv.main]: [download_incremental] on [data_raw_path]
    with [since=None] and the default [max_batches]; the table it
    saves replaces the file. *)
Definition download_main e st : result (store F * list event) :=
  let s := get_settings e in
  let? ex := make_exchange (exchange s) in
  let? existing := read_opt st (data_raw_path s) in
  let res := download_incremental ex max_batches_default existing None in
  Ok (<[data_raw_path s := FTable (table res)]> st, events res).

(** [fix_gaps.main]. *)
Definition fix_gaps_main e st : result (store F) :=
  let s := get_settings e in
  let? raw := read_opt st (data_raw_path s) in
  match raw with
  | None => Err RuntimeError
  | Some df =>
      let? fixed := fix_hourly_gaps df in
      Ok (<[fixed_path (data_raw_path s) := FTable (fst fixed)]> st)
  end.

(** [validate_ohlcv.main]: [validate(s.data_raw_path, s.timeframe)], then
    the report is written. *)
Definition validate_main e st : result (store F) :=
  let s := get_settings e in
  let? raw := read_opt st (data_raw_path s) in
  let? rep := validate raw (timeframe s) in
  Ok (<[report_path := FReport rep]> st).

(** Where [make_features.main] writes each of its artifacts. *)
Definition write_artifact (s : settings) st (a : artifact F) : store F :=
  match a with
  | WroteFeatures df => <[data_features_path s := FFeatures df]> st
  | WroteFeatureList cols => <[feature_list_path := FFeatureList cols]> st
  | WroteSplits sp => <[splits_path := FSplits sp]> st
  end.

(** [make_features.main]: the files written before an exception stay
    written, so the run returns the store and its outcome. *)
Definition features_main e st : store F * result unit :=
  let s := get_settings e in
  match read_opt st (data_raw_path s) with
  | Err err => (st, Err err)
  | Ok raw =>
      let (arts, r) := main raw in
      (fold_left (write_artifact s) arts st, r)
  end.
End Stages.

(** ** Examples *)

(** The default environment: no variable set. *)
Definition default_env : env := ∅.

Definition demo_registry (name : string) : option (Exchange Q) :=
  if String.eqb name "binance" then Some (demo_exchange 8) else None.

(** A file system holding the stored table of [Download] at the default raw path. *)
Definition demo_store : store Q :=
  {[ "data/raw/btcusdt_1h_fixed.parquet" := FTable demo_stored ]}.

(** What the two first stages leave on [demo_store]. *)
Definition demo_downloaded : store Q * list event :=
  match download_main demo_registry default_env demo_store with Ok r => r | Err _ => (∅, []) end.

Definition demo_fixed : store Q :=
  match fix_gaps_main default_env (fst demo_downloaded) with Ok st => st | Err _ => ∅ end.

Section StoreLemmas.
Context {F : Type} `{FloatOrd F} `{FloatOps F}.
Implicit Types (st : store F) (e : env).

Lemma read_opt_insert_ne st p q f : p <> q -> read_opt (<[q:=f]> st) p = read_opt st p.
Proof. intros Hne. unfold read_opt. by rewrite lookup_insert_ne by done. Qed.

Lemma read_opt_table st p t : read_opt (<[p:=FTable t]> st) p = Ok (Some t).
Proof. unfold read_opt. by rewrite lookup_insert_eq. Qed.

Lemma read_opt_None st p : st !! p = None -> read_opt st p = Ok None.
Proof. unfold read_opt. by intros ->. Qed.

Lemma read_opt_Some st p rows : read_opt st p = Ok (Some rows) -> st !! p = Some (FTable rows).
Proof. unfold read_opt. destruct (st !! p) as [[]|]; cbn; congruence. Qed.

Lemma write_artifacts_other s st arts p :
  p <> data_features_path s -> p <> feature_list_path -> p <> splits_path ->
  fold_left (write_artifact s) arts st !! p = st !! p.
Proof.
  intros H1 H2 H3. revert st; induction arts as [|a arts IH]; intros st; [done|].
  cbn. rewrite IH. destruct a; cbn; by rewrite lookup_insert_ne.
Qed.

Lemma fixed_path_ne p : contains ".parquet" p = true -> fixed_path p <> p.
Proof. intros Hc E. pose proof (fixed_path_longer p Hc). rewrite E in *. lia. Qed.

Lemma download_main_table registry e st st1 evs :
  download_main registry e st = Ok (st1, evs) ->
  exists t, st1 = <[data_raw_path (get_settings e) := FTable t]> st.
Proof.
  unfold download_main. destruct (make_exchange registry (exchange (get_settings e))) as [ex|];
    cbn [result_bind]; [|done].
  remember (read_opt st (data_raw_path (get_settings e))) as r eqn:Er.
  destruct r as [existing|]; cbn [result_bind]; [|done].
  remember (download_incremental ex max_batches_default existing None) as res eqn:Eres.
  intros [= <- _]. eauto.
Qed.

Lemma fix_gaps_main_table e st t st2 :
  st !! data_raw_path (get_settings e) = Some (FTable t) -> fix_gaps_main e st = Ok st2 ->
  exists fixed, fix_hourly_gaps t = Ok fixed /\
    st2 = <[fixed_path (data_raw_path (get_settings e)) := FTable (fst fixed)]> st.
Proof.
  intros Ht. unfold fix_gaps_main, read_opt. rewrite Ht. cbn [result_bind table_of].
  destruct (fix_hourly_gaps t) as [fixed|]; cbn [result_bind]; [|done]. intros [= <-]. eauto.
Qed.

(** ** The stages composed through the file system *)

(** C32: run as written, [download_ohlcv] then [fix_gaps] leave the
    downloaded table at [data_raw_path] and put the regularized table at
    [fixed_path data_raw_path], a different file whenever the path holds
    ".parquet"; [make_features] and [validate_ohlcv] then read the
    downloaded table, not the regularized one. *)
Theorem features_read_download registry e st st1 evs st2 :
  let raw := data_raw_path (get_settings e) in
  contains ".parquet" raw = true ->
  download_main registry e st = Ok (st1, evs) -> fix_gaps_main e st1 = Ok st2 ->
  exists t fixed, st1 !! raw = Some (FTable t) /\ fix_hourly_gaps t = Ok fixed /\
    st2 = <[fixed_path raw := FTable (fst fixed)]> st1 /\
    read_opt st2 raw = Ok (Some t).
Proof.
  cbn zeta. intros Hc Hd Hf. destruct (download_main_table registry e st st1 evs Hd) as [t ->].
  exists t.
  destruct (fix_gaps_main_table e _ t st2 ltac:(by rewrite lookup_insert_eq) Hf) as (fixed & Hfix & ->).
  exists fixed. rewrite lookup_insert_eq. split_and!; [done|done|done|].
  rewrite read_opt_insert_ne by (symmetry; by apply fixed_path_ne). apply read_opt_table.
Qed.

(** When no file is at [data_raw_path], [fix_gaps], [validate_ohlcv]
    and [make_features] stop with [RuntimeError], and [make_features]
    writes nothing. *)
Theorem missing_raw_errors e st :
  st !! data_raw_path (get_settings e) = None ->
  fix_gaps_main e st = Err RuntimeError /\ validate_main e st = Err RuntimeError /\
  features_main e st = (st, Err RuntimeError).
Proof.
  intros Hnone. unfold fix_gaps_main, validate_main, features_main.
  rewrite read_opt_None by done. done.
Qed.

(** C33: each stage other than the downloader writes only its own
    outputs: a path that is none of them holds after the stage what it
    held before. *)
Theorem stages_write_only_outputs e st p :
  let s := get_settings e in
  p <> fixed_path (data_raw_path s) -> p <> report_path ->
  p <> data_features_path s -> p <> feature_list_path -> p <> splits_path ->
  (forall st', fix_gaps_main e st = Ok st' -> st' !! p = st !! p) /\
  (forall st', validate_main e st = Ok st' -> st' !! p = st !! p) /\
  fst (features_main e st) !! p = st !! p.
Proof.
  cbn zeta. intros H1 H2 H3 H4 H5. split_and!.
  - intros st'. unfold fix_gaps_main. destruct (read_opt st _) as [[df|]|]; cbn [result_bind]; [|done|done].
    destruct (fix_hourly_gaps df); cbn [result_bind]; [|done]. intros [= <-]. by rewrite lookup_insert_ne.
  - intros st'. unfold validate_main. destruct (read_opt st _) as [raw|]; cbn [result_bind]; [|done].
    destruct (validate raw _); cbn [result_bind]; [|done]. intros [= <-]. by rewrite lookup_insert_ne.
  - unfold features_main. destruct (read_opt st _) as [raw|]; [|done].
    destruct (main raw). by apply write_artifacts_other.
Qed.
End StoreLemmas.

Lemma demo_download_ok :
  download_main demo_registry default_env demo_store = Ok (fst demo_downloaded, snd demo_downloaded).
Proof. vm_compute. reflexivity. Qed.

Lemma demo_fix_ok : fix_gaps_main default_env (fst demo_downloaded) = Ok demo_fixed.
Proof. vm_compute. reflexivity. Qed.

(** ** Witnesses *)

Lemma features_read_download_witness :
  exists t fixed,
    fst demo_downloaded !! "data/raw/btcusdt_1h_fixed.parquet" = Some (FTable t) /\
    fix_hourly_gaps t = Ok fixed /\
    demo_fixed = <[fixed_path "data/raw/btcusdt_1h_fixed.parquet" := FTable (fst fixed)]> (fst demo_downloaded) /\
    read_opt demo_fixed "data/raw/btcusdt_1h_fixed.parquet" = Ok (Some t).
Proof.
  apply (features_read_download demo_registry default_env demo_store _ (snd demo_downloaded)).
  - reflexivity.
  - apply demo_download_ok.
  - apply demo_fix_ok.
Defined.

Lemma missing_raw_errors_witness :
  @fix_gaps_main Q _ default_env ∅ = Err RuntimeError /\ @validate_main Q _ default_env ∅ = Err RuntimeError /\
  @features_main Q _ _ default_env ∅ = (∅, Err RuntimeError).
Proof. apply missing_raw_errors. reflexivity. Defined.

Lemma stages_write_only_outputs_witness :
  (forall st', fix_gaps_main default_env demo_store = Ok st' ->
     st' !! "data/raw/btcusdt_1h_fixed.parquet" = demo_store !! "data/raw/btcusdt_1h_fixed.parquet") /\
  (forall st', validate_main default_env demo_store = Ok st' ->
     st' !! "data/raw/btcusdt_1h_fixed.parquet" = demo_store !! "data/raw/btcusdt_1h_fixed.parquet") /\
  fst (features_main default_env demo_store) !! "data/raw/btcusdt_1h_fixed.parquet" =
    demo_store !! "data/raw/btcusdt_1h_fixed.parquet".
Proof. apply (stages_write_only_outputs default_env demo_store); vm_compute; congruence. Defined.
