(* ===== verification/Bot.v ===== *)
(** * The Telegram bot: [src/bot]

    [keyboards.main_menu] is the inline keyboard every reply carries;
    [services/market_data] loads the trailing rows of the table at
    [data_raw_path]; [services/charts.make_candles_chart] renders a chart
    file; [handlers] answers [/start] and the five callback queries; the
    dispatcher of [bot/main.py] routes each update to the handler whose
    filter matches, and, as aiogram does, logs an exception raised by a
    handler and goes on polling.  A run is the finite sequence of updates
    received so far.  What the handlers send is modelled by the Telegram
    calls they make ([answer], [answer_photo], the callback [answer]),
    each message by the values it formats: the formatting with [:.2f] and
    the Russian texts are presentation and are not modelled. *)

From Stdlib Require Import String.
From stdpp Require Import gmap strings.
From S2P Require Import Prelude Frame Series Carrier Indicators Settings Store.

Local Open Scope string_scope.

(** ** [keyboards.py] *)

Record button := mk_button { text : string; callback_data : string }.

Definition main_menu : list (list button) :=
  [[mk_button "📈 Цена сейчас" "price_now"];
   [mk_button "🕯 График (свечи)" "chart"];
   [mk_button "📊 Индикаторы (RSI/MACD)" "indicators"];
   [mk_button "🔮 Прогноз (заглушка)" "forecast"];
   [mk_button "ℹ️ Справка" "help"]].

(** ** Updates and Telegram calls *)

(** An incoming update: a message matching [CommandStart()], another
    message, or a callback query with its data. *)
Inductive update := UStart | UOtherMessage | UCallback (data : string).

(** What a reply formats. *)
Inductive message (F : Type) :=
| MsgWelcome
| MsgHelp
| MsgPrice (c : candle (option F))
| MsgIndicators (ind : option F * option F * option F * option F * rsi_text * macd_text)
| MsgForecast (close : option F).
Arguments MsgWelcome {F}.
Arguments MsgHelp {F}.
Arguments MsgPrice {F} _.
Arguments MsgIndicators {F} _.
Arguments MsgForecast {F} _.

(** [m.answer(...)] / [cb.message.answer(...)], [answer_photo], [cb.answer()]. *)
Inductive action (F : Type) :=
| Answer (m : message F) (markup : list (list button))
| AnswerPhoto (path : string) (markup : list (list button))
| AckCallback.
Arguments Answer {F} _ _.
Arguments AnswerPhoto {F} _ _.
Arguments AckCallback {F}.

(** [out_path] of the [chart] handler. *)
Definition chart_path : string := "data/processed/chart_last_300.png".

Section Bot.
Context {F : Type} `{FloatOrd F} `{FloatOps F}.
Implicit Types (st : store F) (e : env).

(** [df.tail(n)]. *)
Definition tail {A} (n : nat) (l : list A) : list A := skipn (length l - n) l.

(** [load_df_last_n(n)]: the file must exist; [to_datetime] leaves the
    millisecond timestamps as they are. *)
Definition load_df_last_n e st (n : nat) : result (list (candle (option F))) :=
  let s := get_settings e in
  match st !! data_raw_path s with
  | None => Err RuntimeError
  | Some f =>
      let? df := table_of f in
      Ok (tail n (sort_values df))
  end.

(** [get_last_candle()]: [df.iloc[-1]] of the last row. *)
Definition get_last_candle e st : result (candle (option F)) :=
  let? df := load_df_last_n e st 1 in
  match rev df with
  | c :: _ => Ok c
  | [] => Err IndexError
  end.

(** [make_candles_chart(df, out_path)]: the picture written at [out_path]. *)
Definition make_candles_chart (df : list (candle (option F))) (out_path : string) st : store F :=
  <[out_path := FChart df]> st.

(** What a handler leaves: the file system, the calls it made, and
    whether it returned or raised. *)
Definition outcome : Type := store F * list (action F) * result unit.

Definition start st : outcome := (st, [Answer MsgWelcome main_menu], Ok tt).

Definition help_cb st : outcome := (st, [Answer MsgHelp main_menu; AckCallback], Ok tt).

Definition price_now e st : outcome :=
  match get_last_candle e st with
  | Err err => (st, [], Err err)
  | Ok c => (st, [Answer (MsgPrice c) main_menu; AckCallback], Ok tt)
  end.

Definition chart e st : outcome :=
  match load_df_last_n e st 300 with
  | Err err => (st, [], Err err)
  | Ok df =>
      let st' := make_candles_chart df chart_path st in
      (st', [AnswerPhoto chart_path main_menu; AckCallback], Ok tt)
  end.

Definition indicators e st : outcome :=
  match load_df_last_n e st 400 with
  | Err err => (st, [], Err err)
  | Ok df =>
      match calc_indicators (map close df) with
      | Err err => (st, [], Err err)
      | Ok ind => (st, [Answer (MsgIndicators ind) main_menu; AckCallback], Ok tt)
      end
  end.

Definition forecast e st : outcome :=
  match get_last_candle e st with
  | Err err => (st, [], Err err)
  | Ok c => (st, [Answer (MsgForecast (close c)) main_menu; AckCallback], Ok tt)
  end.

(** The router: the first handler whose filter matches; an update no
    filter matches is dropped. *)
Definition dispatch e st (u : update) : outcome :=
  match u with
  | UStart => start st
  | UOtherMessage => (st, [], Ok tt)
  | UCallback d =>
      if String.eqb d "help" then help_cb st
      else if String.eqb d "price_now" then price_now e st
      else if String.eqb d "chart" then chart e st
      else if String.eqb d "indicators" then indicators e st
      else if String.eqb d "forecast" then forecast e st
      else (st, [], Ok tt)
  end.

(** [dp.start_polling(bot)] over the updates received: an exception of a
    handler is logged and the next update is served. *)
Fixpoint run e st (us : list update) : store F * list (list (action F) * result unit) :=
  match us with
  | [] => (st, [])
  | u :: us' =>
      let '(st1, acts, r) := dispatch e st u in
      let '(st2, outs) := run e st1 us' in
      (st2, (acts, r) :: outs)
  end.

(** [bot/main.py]: the token check, then polling. *)
Definition bot_main e st (us : list update) : result (store F * list (list (action F) * result unit)) :=
  let? _ := require_telegram_token e in
  Ok (run e st us).
End Bot.

(** ** Examples *)

(** The rows of [demo_store]. *)
Definition demo_stored_rows : list (candle (option Q)) :=
  match demo_store !! "data/raw/btcusdt_1h_fixed.parquet" with Some (FTable rows) => rows | _ => [] end.

(** The five buttons, pressed in order, then [/start]. *)
Definition demo_updates : list update :=
  map (fun b => UCallback (callback_data b)) (concat main_menu) ++ [UStart].

Section BotLemmas.
Context {F : Type} `{FloatOrd F} `{FloatOps F}.
Implicit Types (st : store F) (e : env) (rows : list (candle (option F))).

Lemma tail_snoc {A} (l : list A) (c : A) : tail 1 (l ++ [c]) = [c].
Proof.
  unfold tail. rewrite length_app. cbn. replace (length l + 1 - 1)%nat with (length l) by lia.
  by rewrite skipn_app, skipn_all, Nat.sub_diag.
Qed.

Lemma tail_nonempty {A} n (l : list A) : (0 < n)%nat -> l <> [] -> tail n l <> [].
Proof.
  intros Hn Hl E. apply (f_equal length) in E. unfold tail in E. rewrite length_skipn in E.
  destruct l; [done|]. cbn in E. lia.
Qed.

Lemma sort_values_nonempty rows : rows <> [] -> sort_values rows <> [].
Proof. intros Hne E. apply Hne, Permutation_nil. rewrite <- E. symmetry. apply sort_values_perm. Qed.

(** The last row of a sorted table carries the greatest timestamp. *)
Lemma sorted_last_max (l : list (candle (option F))) c :
  Sorted ts_le (l ++ [c]) -> forall r, In r (l ++ [c]) -> timestamp_utc r <= timestamp_utc c.
Proof.
  intros Hs%Sorted_StronglySorted; [|intros x y z; unfold ts_le; lia].
  induction l as [|x l IH]; intros r Hr; cbn in *.
  - destruct Hr as [<-|[]]. lia.
  - inversion Hs as [|? ? Hs' Hall]; subst. destruct Hr as [<-|Hr]; [|by apply IH].
    rewrite Forall_forall in Hall. apply (Hall c). set_solver.
Qed.

Lemma load_df_last_n_ok e st rows n :
  st !! data_raw_path (get_settings e) = Some (FTable rows) ->
  load_df_last_n e st n = Ok (tail n (sort_values rows)).
Proof. intros Hf. unfold load_df_last_n. by rewrite Hf. Qed.

Lemma get_last_candle_ok e st rows :
  st !! data_raw_path (get_settings e) = Some (FTable rows) ->
  match get_last_candle e st with
  | Ok c => In c rows /\ forall r, In r rows -> timestamp_utc r <= timestamp_utc c
  | Err err => err = IndexError /\ rows = []
  end.
Proof.
  intros Hf. unfold get_last_candle. rewrite (load_df_last_n_ok _ _ rows) by done. cbn [result_bind].
  destruct (decide (rows = [])) as [->|Hne]; [done|].
  pose proof (sort_values_perm rows) as Hp. pose proof (sort_values_sorted rows) as Hs.
  destruct (exists_last (sort_values_nonempty rows Hne)) as (l & c & E).
  rewrite E, tail_snoc. cbn. rewrite E in Hp, Hs. split.
  - apply (Permutation_in c (Permutation_sym Hp)), in_or_app. right; now left.
  - intros r Hr. apply (sorted_last_max l c Hs), (Permutation_in r Hp), Hr.
Qed.

Lemma dispatch_files e st u p :
  p <> chart_path -> (dispatch e st u).1.1 !! p = st !! p.
Proof.
  intros Hp. destruct u as [| |d]; cbn; [done|done|].
  repeat (case_match; cbn; try done).
  all: try (unfold price_now, forecast, indicators; repeat case_match; done).
  unfold chart. case_match; [|done]. cbn. unfold make_candles_chart. by rewrite lookup_insert_ne.
Qed.

Lemma run_length e st us : length (run e st us).2 = length us.
Proof.
  revert st; induction us as [|u us IH]; intros st; [done|]. cbn.
  destruct (dispatch e st u) as [[st1 acts] r]. specialize (IH st1).
  destruct (run e st1 us). cbn in *. lia.
Qed.
Lemma load_nonempty e st rows n :
  st !! data_raw_path (get_settings e) = Some (FTable rows) -> rows <> [] -> (0 < n)%nat ->
  exists df, load_df_last_n e st n = Ok df /\ df <> [].
Proof.
  intros Hf Hne Hn. exists (tail n (sort_values rows)). split; [by apply load_df_last_n_ok|].
  by apply tail_nonempty, sort_values_nonempty.
Qed.

Lemma get_last_candle_some e st rows :
  st !! data_raw_path (get_settings e) = Some (FTable rows) -> rows <> [] ->
  exists c, get_last_candle e st = Ok c /\ In c rows /\
    forall r, In r rows -> timestamp_utc r <= timestamp_utc c.
Proof.
  intros Hf Hne. pose proof (get_last_candle_ok e st rows Hf) as H'.
  destruct (get_last_candle e st) as [c|err]; [by exists c|]. by destruct H'.
Qed.

(** A press of a menu button on a non-empty table is acknowledged. *)
Lemma button_answered e st rows d :
  st !! data_raw_path (get_settings e) = Some (FTable rows) -> rows <> [] ->
  In d (map callback_data (concat main_menu)) ->
  (dispatch e st (UCallback d)).2 = Ok tt /\ In AckCallback (dispatch e st (UCallback d)).1.2.
Proof.
  intros Hf Hne Hd. cbn in Hd.
  destruct (get_last_candle_some e st rows Hf Hne) as (c & Ec & _).
  destruct (load_nonempty e st rows 300 Hf Hne ltac:(lia)) as (df3 & E3 & _).
  destruct (load_nonempty e st rows 400 Hf Hne ltac:(lia)) as (df4 & E4 & Hdf4).
  destruct (calc_indicators_ok (map close df4)) as [ind Ei]; [by intros ?%map_eq_nil|].
  repeat destruct Hd as [<-|Hd]; try done; cbn;
    unfold price_now, chart, indicators, forecast; rewrite ?Ec, ?E3, ?E4, ?Ei; cbn; auto.
Qed.

(** ** Properties of the bot *)

(** C34: "Цена сейчас" replies with the candle of greatest timestamp in
    the data file and acknowledges the press; on an empty file it raises
    [IndexError] before sending anything. *)
Theorem price_now_latest e st rows :
  st !! data_raw_path (get_settings e) = Some (FTable rows) ->
  (rows = [] -> price_now e st = (st, [], Err IndexError)) /\
  (rows <> [] -> exists c, price_now e st = (st, [Answer (MsgPrice c) main_menu; AckCallback], Ok tt) /\
     In c rows /\ forall r, In r rows -> timestamp_utc r <= timestamp_utc c).
Proof.
  intros Hf. split.
  - intros ->. pose proof (get_last_candle_ok e st [] Hf) as H'. unfold price_now.
    destruct (get_last_candle e st) as [c|err]; [by destruct H'|]. by destruct H' as [-> _].
  - intros Hne. destruct (get_last_candle_some e st rows Hf Hne) as (c & Ec & Hin & Hmax).
    exists c. unfold price_now. by rewrite Ec.
Qed.

(** C35: while the data file holds a non-empty candle table, every press
    of a menu button in a run of the bot is answered and acknowledged,
    whatever came before it: an update never stops the polling, and no
    handler touches the data file. *)
Theorem menu_presses_answered e st us rows :
  st !! data_raw_path (get_settings e) = Some (FTable rows) -> rows <> [] ->
  data_raw_path (get_settings e) <> chart_path ->
  length (run e st us).2 = length us /\
  forall i d, us !! i = Some (UCallback d) -> In d (map callback_data (concat main_menu)) ->
    exists acts, (run e st us).2 !! i = Some (acts, Ok tt) /\ In AckCallback acts.
Proof.
  intros Hf Hne Hp. split; [apply run_length|].
  revert st Hf; induction us as [|u us IH]; intros st Hf i d Hi Hd; [done|]. cbn.
  pose proof (dispatch_files e st u _ Hp) as Hkeep.
  destruct (dispatch e st u) as [[st1 acts] r] eqn:Eu.
  destruct (run e st1 us) as [st2 outs] eqn:Er. destruct i as [|i]; cbn in Hi |- *.
  - injection Hi as ->. destruct (button_answered e st rows d Hf Hne Hd) as [Hr Ha].
    rewrite Eu in Hr, Ha. cbn in *. subst. eauto.
  - assert (Hf1 : st1 !! data_raw_path (get_settings e) = Some (FTable rows))
      by (rewrite <- Hf; exact Hkeep).
    specialize (IH st1 Hf1 i d Hi Hd). by rewrite Er in IH.
Qed.

(** C36: with no data file, each of "Цена сейчас", "График",
    "Индикаторы" and "Прогноз" raises [RuntimeError] without sending
    any message and without acknowledging the press. *)
Theorem missing_file_no_reply e st d :
  st !! data_raw_path (get_settings e) = None ->
  In d ["price_now"; "chart"; "indicators"; "forecast"] ->
  dispatch e st (UCallback d) = (st, [], Err RuntimeError).
Proof.
  intros Hf Hd. assert (El : forall n, load_df_last_n e st n = Err RuntimeError)
    by (intros n; unfold load_df_last_n; by rewrite Hf).
  unfold dispatch, price_now, chart, indicators, forecast, get_last_candle.
  repeat destruct Hd as [<-|Hd]; try done; cbn; by rewrite ?El.
Qed.
End BotLemmas.

(** ** Witnesses *)

Lemma price_now_latest_witness :
  exists c, price_now (F:=Q) default_env demo_store =
    (demo_store, [Answer (MsgPrice c) main_menu; AckCallback], Ok tt) /\
    In c demo_stored_rows /\ forall r, In r demo_stored_rows -> timestamp_utc r <= timestamp_utc c.
Proof. apply (proj2 (price_now_latest default_env demo_store demo_stored_rows eq_refl)). done. Defined.

Lemma menu_presses_answered_witness :
  length (run (F:=Q) default_env demo_store demo_updates).2 = length demo_updates /\
  forall i d, demo_updates !! i = Some (UCallback d) -> In d (map callback_data (concat main_menu)) ->
    exists acts, (run default_env demo_store demo_updates).2 !! i = Some (acts, Ok tt) /\ In AckCallback acts.
Proof. apply (menu_presses_answered _ _ _ demo_stored_rows); [reflexivity|done|done]. Defined.

Lemma missing_file_no_reply_witness :
  dispatch (F:=Q) default_env ∅ (UCallback "chart") = (∅, [], Err RuntimeError).
Proof. apply missing_file_no_reply; [reflexivity|cbn; tauto]. Defined.
